(** * dorgu: manifest assembly and post-generation validation

    A shallow embedding of the Go packages [internal/types],
    [internal/config], [internal/llm] (client selection only) and
    [internal/generator] of dorgu, followed by theorems about the
    generators, the orchestrator [Generate] and the validator
    [ValidateGenerated].

    Conventions of the embedding:
    - a Go struct is a record in a module of the struct's name, so that
      fields keep their Go names ([AppAnalysis.Name a]);
    - a nilable pointer is an [option], a slice is a [list], a
      [map[string]T] is a [gmap string T] (a nil map that the code tells
      apart from an empty one is an [option (gmap string T)]);
    - Go's [int] is modelled by [Z]; the code only compares, copies and
      prints such values.  [int64] arithmetic is wrapped explicitly;
    - a Go function returning [(T, error)] returns a [Result T]. *)

From Stdlib Require Import ZArith String Ascii List Bool Lia.
From stdpp Require Import base option list strings pretty gmap.

Local Open Scope string_scope.
Local Open Scope Z_scope.

(** ** Go results *)

Inductive Result (A : Type) : Type :=
| Ok (a : A)
| Err (msg : string).
Arguments Ok {A} a.
Arguments Err {A} msg.

Definition isErr {A} (r : Result A) : bool :=
  match r with Ok _ => false | Err _ => true end.

Definition isEmpty (s : string) : bool := String.eqb s "".

(** The double-quote character, for format strings that contain one. *)
Definition dq : string := String (ascii_of_nat 34) "".

(** ** Package [types] *)

Module types.

Module Port.
Record t := mk { Port : Z; Protocol : string; Purpose : string }.
End Port.

Module HealthCheck.
Record t := mk {
    Path : string; Port : Z; InitialDelay : Z; Period : Z;
    Timeout : Z; SuccessThreshold : Z; FailureThreshold : Z }.
End HealthCheck.

Module EnvVar.
Record t := mk {
    Name : string; Value : string; Required : bool;
    Description : string; Secret : bool }.
End EnvVar.

(** [Behavior] is read by the persona writer and set by the analyzer. *)
Module ScalingConfig.
Record t := mk {
    MinReplicas : Z; MaxReplicas : Z; TargetCPU : Z; TargetMemory : Z;
    Behavior : string }.
End ScalingConfig.

Module ResourceOverrides.
Record t := mk {
    RequestsCPU : string; RequestsMemory : string;
    LimitsCPU : string; LimitsMemory : string }.
End ResourceOverrides.

Module IngressPathDef.
Record t := mk { Path : string; PathType : string }.
End IngressPathDef.

Module IngressContext.
Record t := mk {
    Enabled : bool; Host : string; Paths : list IngressPathDef.t;
    TLSEnabled : bool; TLSSecret : string }.
End IngressContext.

Module HealthContext.
Record t := mk {
    LivenessPath : string; LivenessPort : Z;
    ReadinessPath : string; ReadinessPort : Z;
    InitialDelay : Z; Period : Z; StartupGracePeriod : string }.
End HealthContext.

Module DependencyContext.
Record t := mk {
    Name : string; Type_ : string; Required : bool; HealthCheck : string }.
End DependencyContext.

Module OperationsContext.
Record t := mk {
    Runbook : string; Alerts : list string; MaintenanceWindow : string;
    OnCall : string; AutoRestart : bool }.
End OperationsContext.

Module DeploymentPolicyContext.
Record t := mk {
    Strategy : string; MaxSurge : string; MaxUnavailable : string }.
End DeploymentPolicyContext.

Module AppConfigContext.
Record t := mk {
    Name : string; Description : string; Team : string; Owner : string;
    Repository : string; Type_ : string; Tier : string;
    Instructions : string; Environment : string;
    Resources : option ResourceOverrides.t;
    Scaling : option ScalingConfig.t;
    Labels : gmap string string;
    Annotations : gmap string string;
    Ingress : option IngressContext.t;
    Health : option HealthContext.t;
    Dependencies : list DependencyContext.t;
    Operations : option OperationsContext.t;
    DeploymentPolicy : option DeploymentPolicyContext.t }.
End AppConfigContext.

(** The [Dockerfile], [Compose] and [Code] fields of the Go struct are
    source-analysis records that no generator or validator rule reads;
    they are left out. *)
Module AppAnalysis.
Record t := mk {
    Name : string; Type_ : string; Language : string;
    Framework : string; Description : string;
    Ports : list Port.t;
    HealthCheck : option HealthCheck.t;
    EnvVars : list EnvVar.t;
    Dependencies : list string;
    ResourceProfile : string;
    Scaling : option ScalingConfig.t;
    AppConfig : option AppConfigContext.t;
    Team : string; Owner : string; Repository : string;
    Environment : string }.
End AppAnalysis.

End types.

(** ** Package [config] *)

Module config.

Module ResourceValues.
Record t := mk { CPU : string; Memory : string }.
End ResourceValues.

Module ResourceSpec.
Record t := mk { Requests : ResourceValues.t; Limits : ResourceValues.t }.
End ResourceSpec.

Module ResourceConfig.
Record t := mk {
    Defaults : ResourceSpec.t; Profiles : gmap string ResourceSpec.t }.
End ResourceConfig.

Module LabelConfig.
Record t := mk { Required : list string; Custom : gmap string string }.
End LabelConfig.

Module AnnotationConfig.
Record t := mk { Custom : gmap string string }.
End AnnotationConfig.

Module SecurityConfig.
Record t := mk {
    RunAsNonRoot : bool;
    AllowPrivilegeEscalation : bool;
    ReadOnlyRootFilesystem : bool }.
End SecurityConfig.

Module TLSConfig.
Record t := mk { Enabled : bool; ClusterIssuer : string }.
End TLSConfig.

Module IngressConfig.
Record t := mk { Class : string; DomainSuffix : string; TLS : TLSConfig.t }.
End IngressConfig.

Module ArgoCDConfig.
Record t := mk {
    Project : string; DestinationServer : string;
    DestinationNamespace : string; Prune : bool; SelfHeal : bool }.
End ArgoCDConfig.

Module CIConfig.
Record t := mk { Provider : string; Registry : string }.
End CIConfig.

Module LLMConfig.
Record t := mk { Provider : string; Model : string }.
End LLMConfig.

(** The nested one-field structs of the Go [Config] ([Security.*],
    [ArgoCD.Destination], [ArgoCD.SyncPolicy.Automated]) are flattened into
    their parent; [Version], [Org] and [Naming] are read by no generator. *)
Module Config.
Record t := mk {
    Resources : ResourceConfig.t;
    Labels : LabelConfig.t;
    Annotations : AnnotationConfig.t;
    Security : SecurityConfig.t;
    Ingress : IngressConfig.t;
    ArgoCD : ArgoCDConfig.t;
    CI : CIConfig.t;
    LLM : LLMConfig.t }.
End Config.

(** [func (c *Config) GetResourcesForProfile(profile string) ResourceSpec] *)
Definition GetResourcesForProfile (c : Config.t) (profile : string)
  : ResourceSpec.t :=
  match ResourceConfig.Profiles (Config.Resources c) !! profile with
  | Some spec => spec
  | None => ResourceConfig.Defaults (Config.Resources c)
  end.

(** The profile table that [applyDefaults] installs when none is configured. *)
Definition defaultProfiles : gmap string ResourceSpec.t :=
  <["api" := ResourceSpec.mk (ResourceValues.mk "100m" "256Mi")
                             (ResourceValues.mk "1000m" "1Gi")]>
  (<["worker" := ResourceSpec.mk (ResourceValues.mk "500m" "512Mi")
                                 (ResourceValues.mk "2000m" "2Gi")]>
  (<["web" := ResourceSpec.mk (ResourceValues.mk "50m" "128Mi")
                              (ResourceValues.mk "500m" "512Mi")]> ∅)).

(** [Default()]: [applyDefaults] run on the zero [Config]. *)
Definition Default : Config.t :=
  Config.mk
    (ResourceConfig.mk
       (ResourceSpec.mk (ResourceValues.mk "100m" "128Mi")
                        (ResourceValues.mk "500m" "512Mi"))
       defaultProfiles)
    (LabelConfig.mk [] ∅)
    (AnnotationConfig.mk ∅)
    (SecurityConfig.mk false false false)
    (IngressConfig.mk "nginx" ".local" (TLSConfig.mk false ""))
    (ArgoCDConfig.mk "default" "https://kubernetes.default.svc" "" false false)
    (CIConfig.mk "github-actions" "")
    (LLMConfig.mk "openai" "gpt-4").

End config.

(** ** Go library functions used by the generator

    [strings] helpers, [fmt.Sprintf] verbs and the two [fmt.Sscanf] calls
    of the validator ([%d] into an [int64], [%f] into a [float64]).  The
    scanners follow Go's [fmt/scan.go] and [strconv.ParseFloat]; binary64
    values are kept exactly, as a mantissa and a binary exponent, and each
    rounding is to nearest, ties to even. *)

Module gostrings.

Definition HasSuffix (s suffix : string) : bool :=
  let n := String.length s in
  let k := String.length suffix in
  (k <=? n)%nat && String.eqb (String.substring (n - k) k s) suffix.

Definition TrimSuffix (s suffix : string) : string :=
  if HasSuffix s suffix
  then String.substring 0 (String.length s - String.length suffix) s
  else s.

(** The loop [if 'A' <= c && c <= 'Z' { c += 'a' - 'A' }] over the bytes of
    a string: the ASCII branch of [strings.ToLower], and the case folding
    of [strconv]. *)
Definition lowerAscii (c : ascii) : ascii :=
  let n := nat_of_ascii c in
  if ((65 <=? n) && (n <=? 90))%nat then ascii_of_nat (n + 32) else c.

Fixpoint lowerBytes (s : string) : string :=
  match s with
  | EmptyString => EmptyString
  | String c r => String (lowerAscii c) (lowerBytes r)
  end.

(** *** UTF-8, as package [unicode/utf8] reads and writes it *)

Definition byte (c : ascii) : Z := Z.of_nat (nat_of_ascii c).

Definition ofByte (b : Z) : ascii := ascii_of_nat (Z.to_nat b).

(** [utf8.RuneError], [utf8.RuneSelf], [utf8.MaxRune] *)
Definition RuneError : Z := 65533.
Definition RuneSelf : Z := 128.
Definition MaxRune : Z := 1114111.

(** The table [first] with [acceptRanges]: for a leading byte, the length
    of the sequence and the range of the second byte; [None] for the
    bytes that cannot start a sequence of two bytes or more. *)
Definition first (b0 : Z) : option (nat * Z * Z) :=
  if (194 <=? b0) && (b0 <=? 223) then Some (2%nat, 128, 191)
  else if b0 =? 224 then Some (3%nat, 160, 191)
  else if (225 <=? b0) && (b0 <=? 236) then Some (3%nat, 128, 191)
  else if b0 =? 237 then Some (3%nat, 128, 159)
  else if (238 <=? b0) && (b0 <=? 239) then Some (3%nat, 128, 191)
  else if b0 =? 240 then Some (4%nat, 144, 191)
  else if (241 <=? b0) && (b0 <=? 243) then Some (4%nat, 128, 191)
  else if b0 =? 244 then Some (4%nat, 128, 143)
  else None.

(** A continuation byte, [locb <= b <= hicb]. *)
Definition continuation (b : Z) : bool := (128 <=? b) && (b <=? 191).

(** The runes of [for _, c := range s]: [utf8.DecodeRuneInString] at each
    position; a byte that does not start a well-formed sequence is
    [RuneError] and one byte wide. *)
Fixpoint runes (s : string) : list Z :=
  match s with
  | EmptyString => []
  | String c0 r0 =>
      let b0 := byte c0 in
      if b0 <? RuneSelf then b0 :: runes r0
      else
        match first b0, r0 with
        | Some (sz, lo, hi), String c1 r1 =>
            let b1 := byte c1 in
            if (lo <=? b1) && (b1 <=? hi) then
              match sz, r1 with
              | 2%nat, _ =>
                  Z.lor (Z.shiftl (Z.land b0 31) 6) (Z.land b1 63) :: runes r1
              | _, String c2 r2 =>
                  let b2 := byte c2 in
                  if continuation b2 then
                    match sz, r2 with
                    | 3%nat, _ =>
                        Z.lor (Z.shiftl (Z.land b0 15) 12)
                          (Z.lor (Z.shiftl (Z.land b1 63) 6) (Z.land b2 63))
                        :: runes r2
                    | _, String c3 r3 =>
                        let b3 := byte c3 in
                        if continuation b3 then
                          Z.lor (Z.shiftl (Z.land b0 7) 18)
                            (Z.lor (Z.shiftl (Z.land b1 63) 12)
                               (Z.lor (Z.shiftl (Z.land b2 63) 6) (Z.land b3 63)))
                          :: runes r3
                        else RuneError :: runes r0
                    | _, EmptyString => RuneError :: runes r0
                    end
                  else RuneError :: runes r0
              | _, EmptyString => RuneError :: runes r0
              end
            else RuneError :: runes r0
        | _, _ => RuneError :: runes r0
        end
  end.

(** [utf8.AppendRune]: a surrogate or a value above [MaxRune] is written as
    [RuneError]. *)
Definition encode3 (r : Z) : string :=
  String (ofByte (Z.lor 224 (Z.shiftr r 12)))
    (String (ofByte (Z.lor 128 (Z.land (Z.shiftr r 6) 63)))
       (String (ofByte (Z.lor 128 (Z.land r 63))) EmptyString)).

Definition AppendRune (r : Z) : string :=
  if (0 <=? r) && (r <=? 127) then String (ofByte r) EmptyString
  else if (0 <=? r) && (r <=? 2047) then
    String (ofByte (Z.lor 192 (Z.shiftr r 6)))
      (String (ofByte (Z.lor 128 (Z.land r 63))) EmptyString)
  else if (r <? 0) || (MaxRune <? r) || ((55296 <=? r) && (r <=? 57343))
  then encode3 RuneError
  else if r <=? 65535 then encode3 r
  else
    String (ofByte (Z.lor 240 (Z.shiftr r 18)))
      (String (ofByte (Z.lor 128 (Z.land (Z.shiftr r 12) 63)))
         (String (ofByte (Z.lor 128 (Z.land (Z.shiftr r 6) 63)))
            (String (ofByte (Z.lor 128 (Z.land r 63))) EmptyString))).

(** [strings.Map]: every rune of [s] is replaced by its image, and dropped
    when the image is negative.  The source copies the bytes of [s] up to
    the first rune that changes; a well-formed sequence is the encoding of
    its rune, so that prefix is what the encoder would write. *)
Definition Map (mapping : Z -> Z) (s : string) : string :=
  String.concat EmptyString
    (List.map (fun c => let r := mapping c in
                        if 0 <=? r then AppendRune r else EmptyString)
              (runes s)).

(** [unicode.ToLower] above [unicode.MaxASCII] is a search in the table
    [unicode.CaseRanges], which comes with the Unicode version of the
    toolchain that builds the program: the table is taken as given. *)
Class CaseTable := caseRangesLower : Z -> Z.

(** [unicode.ToLower] *)
Definition unicodeToLower {table : CaseTable} (r : Z) : Z :=
  if r <=? 127 then
    if (65 <=? r) && (r <=? 90) then r + 32 else r
  else caseRangesLower r.

Definition isASCII (s : string) : bool :=
  forallb (fun c => byte c <? RuneSelf) (list_ascii_of_string s).

(** [strings.ToLower]: the byte loop for a string of ASCII bytes, and
    [Map(unicode.ToLower, s)] otherwise. *)
Definition ToLower {table : CaseTable} (s : string) : string :=
  if isASCII s then lowerBytes s else Map unicodeToLower s.

(** [strings.ReplaceAll(s, "\n", new)] *)
Fixpoint ReplaceNewlines (s new : string) : string :=
  match s with
  | EmptyString => EmptyString
  | String c r =>
      if (nat_of_ascii c =? 10)%nat then new +:+ ReplaceNewlines r new
      else String c (ReplaceNewlines r new)
  end.

(** [strings.Join] *)
Fixpoint Join (parts : list string) (sep : string) : string :=
  match parts with
  | [] => ""
  | [p] => p
  | p :: ps => p +:+ sep +:+ Join ps sep
  end.

End gostrings.

Module gofmt.

(** [%d] of an integer and [%t] of a boolean. *)
Definition fmt_d (n : Z) : string := pretty n.
Definition fmt_t (b : bool) : string := if b then "true" else "false".

Definition nl : string := String (ascii_of_nat 10) "".

Definition code (c : ascii) : Z := Z.of_nat (nat_of_ascii c).

Definition isDigit (c : ascii) : bool := (48 <=? code c) && (code c <=? 57).
Definition digitVal (c : ascii) : Z := code c - 48.

Definition isHexDigit (c : ascii) : bool :=
  isDigit c || ((97 <=? code c) && (code c <=? 102))
            || ((65 <=? code c) && (code c <=? 70)).
Definition hexVal (c : ascii) : Z :=
  if isDigit c then digitVal c
  else if 97 <=? code c then code c - 87 else code c - 55.

Definition isSign (c : ascii) : bool := (code c =? 43) || (code c =? 45).
Definition isUnderscore (c : ascii) : bool := code c =? 95.
Definition lower (c : ascii) : Z := Z.lor (code c) 32.

(** [ss.SkipSpace] with [nlIsSpace = false]: white space is skipped, a
    newline (also after a carriage return) is the error "unexpected
    newline".  The space table of [fmt] is matched on the UTF-8 encoding:
    U+0009..U+000D, U+0020, U+0085, U+00A0, U+1680, U+2000..U+200A,
    U+2028, U+2029, U+202F, U+205F, U+3000. *)
Fixpoint SkipSpace (s : string) : option string :=
  match s with
  | EmptyString => Some s
  | String c r =>
      let n := code c in
      if n =? 10 then None
      else if ((9 <=? n) && (n <=? 13)) || (n =? 32) then SkipSpace r
      else
        match r with
        | String c2 r2 =>
            let n2 := code c2 in
            if (n =? 194) && ((n2 =? 133) || (n2 =? 160)) then SkipSpace r2
            else
              match r2 with
              | String c3 r3 =>
                  let n3 := code c3 in
                  if ((n =? 225) && (n2 =? 154) && (n3 =? 128))
                     || ((n =? 226) && (n2 =? 128)
                         && (((128 <=? n3) && (n3 <=? 138))
                             || (n3 =? 168) || (n3 =? 169) || (n3 =? 175)))
                     || ((n =? 226) && (n2 =? 129) && (n3 =? 159))
                     || ((n =? 227) && (n2 =? 128) && (n3 =? 128))
                  then SkipSpace r3
                  else Some s
              | EmptyString => Some s
              end
        | EmptyString => Some s
        end
  end.

(** Reads the longest prefix of characters satisfying [p]. *)
Fixpoint span (p : ascii -> bool) (s : string) : string * string :=
  match s with
  | EmptyString => (EmptyString, EmptyString)
  | String c r =>
      if p c then let '(a, b) := span p r in (String c a, b)
      else (EmptyString, s)
  end.

(** [ss.accept] of one character of a class. *)
Definition accept (p : ascii -> bool) (s : string) : string * string :=
  match s with
  | String c r => if p c then (String c "", r) else ("", s)
  | EmptyString => ("", s)
  end.

Definition decimalValue (ds : string) : Z :=
  fold_left (fun acc c => 10 * acc + digitVal c) (list_ascii_of_string ds) 0.

Definition minInt64 : Z := - 2 ^ 63.
Definition maxInt64 : Z := 2 ^ 63 - 1.
Definition inInt64 (n : Z) : bool := (minInt64 <=? n) && (n <=? maxInt64).

(** Two's-complement wrap-around of [int64] arithmetic. *)
Definition wrap64 (n : Z) : Z := (n + 2 ^ 63) mod 2 ^ 64 - 2 ^ 63.

(** [ss.scanInt('d', 64)]: skip space, fail at end of input, accept
    one sign, then at least one decimal digit; [strconv.ParseInt] fails
    on a value outside [int64].  [None] is a scan error. *)
Definition scanInt (s : string) : option Z :=
  match SkipSpace s with
  | None => None
  | Some EmptyString => None
  | Some s1 =>
      let '(sg, s2) := accept isSign s1 in
      let '(ds, _) := span isDigit s2 in
      if isEmpty ds then None
      else
        let v := decimalValue ds in
        let i := if String.eqb sg "-" then - v else v in
        if inInt64 i then Some i else None
  end.

(** [var n int64; fmt.Sscanf(s, "%d", &n); n]: the variable keeps its zero
    value when the scan fails (the error is dropped by the callers). *)
Definition Sscanf_d (s : string) : Z := default 0 (scanInt s).

End gofmt.

(** *** [float64] scanning

    [Fin neg m e] is the binary64 value [(-1)^neg * m * 2^e]. *)

Module gofloat.
Import gofmt.

Inductive float64 : Type :=
| NaN
| Inf (neg : bool)
| Fin (neg : bool) (m e : Z).

Definition zero : float64 := Fin false 0 0.

(** The binary64 nearest to the positive rational [n / d], ties to even:
    mantissa and exponent, or [None] when the result exceeds the largest
    finite value. *)
Definition roundNearestEven (n d : Z) : option (Z * Z) :=
  let l := Z.log2 n - Z.log2 d in
  let e1 := Z.max (l - 52) (-1074) in
  let quot e := if e <? 0 then (n * 2 ^ (- e)) / d else n / (d * 2 ^ e) in
  let e := if (quot e1 <? 2 ^ 52) && (-1074 <? e1) then e1 - 1 else e1 in
  let N := if e <? 0 then n * 2 ^ (- e) else n in
  let D := if e <? 0 then d else d * 2 ^ e in
  let q := N / D in
  let r := N mod D in
  let up := (D <? 2 * r) || ((D =? 2 * r) && Z.odd q) in
  let q' := if up then q + 1 else q in
  let '(m, e') := if q' =? 2 ^ 53 then (2 ^ 52, e + 1) else (q', e) in
  if 971 <? e' then None else Some (m, e').

(** The value [m * b^k] for [b] = 10 or 2, rounded; a zero mantissa keeps
    its sign.  [None] is the range error of [strconv]. *)
Definition ofScaled (neg : bool) (m b k : Z) : option float64 :=
  if m =? 0 then Some (Fin neg 0 0)
  else
    let '(n, d) := if k <? 0 then (m, b ^ (- k)) else (m * b ^ k, 1) in
    match roundNearestEven n d with
    | Some (m', e') => Some (Fin neg m' e')
    | None => None
    end.

Definition isOneOf (cs : string) (c : ascii) : bool :=
  existsb (Ascii.eqb c) (list_ascii_of_string cs).

(** [ss.floatToken]: the prefix of the input that looks like a number. *)
Definition floatToken (s : string) : string :=
  let '(n1, s1) := accept (isOneOf "nN") s in
  let '(n2, s2) := if isEmpty n1 then ("", s1) else accept (isOneOf "aA") s1 in
  let '(n3, s3) := if isEmpty n2 then ("", s2) else accept (isOneOf "nN") s2 in
  if negb (isEmpty n3) then n1 +:+ n2 +:+ n3
  else
    let '(sg, s4) := accept isSign s3 in
    let '(i1, s5) := accept (isOneOf "iI") s4 in
    let '(i2, s6) := if isEmpty i1 then ("", s5) else accept (isOneOf "nN") s5 in
    let '(i3, s7) := if isEmpty i2 then ("", s6) else accept (isOneOf "fF") s6 in
    let buf := n1 +:+ n2 +:+ sg +:+ i1 +:+ i2 +:+ i3 in
    if negb (isEmpty i3) then buf
    else
      let '(z, s8) := accept (isOneOf "0") s7 in
      let '(x, s9) := if isEmpty z then ("", s8) else accept (isOneOf "xX") s8 in
      let hex := negb (isEmpty x) in
      let digits c := (if hex then isHexDigit c else isDigit c) || isUnderscore c in
      let '(d1, s10) := span digits s9 in
      let '(pt, s11) := accept (isOneOf ".") s10 in
      let '(d2, s12) := if isEmpty pt then ("", s11) else span digits s11 in
      let '(ex, s13) := accept (isOneOf (if hex then "pP" else "eEpP")) s12 in
      let '(es, s14) := if isEmpty ex then ("", s13) else accept isSign s13 in
      let '(ed, _) := if isEmpty ex then ("", s14)
                      else span (fun c => isDigit c || isUnderscore c) s14 in
      buf +:+ z +:+ x +:+ d1 +:+ pt +:+ d2 +:+ ex +:+ es +:+ ed.

(** [strconv.underscoreOK] *)
Inductive sawKind : Type := SawStart | SawDigit | SawUnderscore | SawOther.

Fixpoint underscoreLoop (hex : bool) (saw : sawKind) (s : string) : bool :=
  match s with
  | EmptyString => match saw with SawUnderscore => false | _ => true end
  | String c r =>
      if isDigit c || (hex && (97 <=? lower c) && (lower c <=? 102))
      then underscoreLoop hex SawDigit r
      else if isUnderscore c then
        match saw with
        | SawDigit => underscoreLoop hex SawUnderscore r
        | _ => false
        end
      else
        match saw with
        | SawUnderscore => false
        | _ => underscoreLoop hex SawOther r
        end
  end.

Definition underscoreOK (s : string) : bool :=
  let s := match s with
           | String c r => if isSign c then r else s
           | EmptyString => s
           end in
  match s with
  | String c1 (String c2 r) =>
      if (code c1 =? 48)
         && ((lower c2 =? 98) || (lower c2 =? 111) || (lower c2 =? 120))
      then underscoreLoop (lower c2 =? 120) SawDigit r
      else underscoreLoop false SawStart s
  | _ => underscoreLoop false SawStart s
  end.

(** The mantissa loop of [strconv.readFloat]: the value of all digits
    read, the number of digits after the point, whether a digit, a point
    and an underscore were seen, and the unread rest. *)
Record mantissa : Type := mkMantissa {
  mValue : Z; mFrac : Z; sawDigits : bool; sawDot : bool;
  sawUnderscore : bool; mRest : string }.

Fixpoint readMantissa (base : Z) (acc : mantissa) (s : string) : mantissa :=
  match s with
  | EmptyString => mkMantissa (mValue acc) (mFrac acc) (sawDigits acc)
                     (sawDot acc) (sawUnderscore acc) s
  | String c r =>
      let stop := mkMantissa (mValue acc) (mFrac acc) (sawDigits acc)
                    (sawDot acc) (sawUnderscore acc) s in
      let digit v := mkMantissa (base * mValue acc + v)
                       (if sawDot acc then mFrac acc + 1 else mFrac acc)
                       true (sawDot acc) (sawUnderscore acc) r in
      if isUnderscore c then
        readMantissa base (mkMantissa (mValue acc) (mFrac acc) (sawDigits acc)
                             (sawDot acc) true r) r
      else if code c =? 46 then
        if sawDot acc then stop
        else readMantissa base (mkMantissa (mValue acc) (mFrac acc)
                                  (sawDigits acc) true (sawUnderscore acc) r) r
      else if isDigit c then readMantissa base (digit (digitVal c)) r
      else if (base =? 16) && (97 <=? lower c) && (lower c <=? 102)
      then readMantissa base (digit (lower c - 87)) r
      else stop
  end.

(** The exponent digits of [readFloat]: the value stops growing once it
    has reached 10000. *)
Fixpoint readExponent (e : Z) (us : bool) (s : string) : Z * bool * string :=
  match s with
  | EmptyString => (e, us, s)
  | String c r =>
      if isUnderscore c then readExponent e true r
      else if isDigit c
      then readExponent (if e <? 10000 then e * 10 + digitVal c else e) us r
      else (e, us, s)
  end.

(** [strconv.ParseFloat(s, 64)] on the finite numbers: [None] is a syntax
    or range error. *)
Definition readFloat (s : string) : option float64 :=
  let '(sg, s1) := accept isSign s in
  let neg := String.eqb sg "-" in
  let hex := match s1 with
             | String c1 (String c2 (String _ _)) =>
                 (code c1 =? 48) && (lower c2 =? 120)
             | _ => false
             end in
  let s2 := if hex then String.substring 2 (String.length s1 - 2) s1 else s1 in
  let base := if hex then 16 else 10 in
  let m := readMantissa base (mkMantissa 0 0 false false false s2) s2 in
  if negb (sawDigits m) then None
  else
    let expChar := if hex then 112 else 101 in
    match mRest m with
    | String c r =>
        if lower c =? expChar then
          let '(es, r1) := accept isSign r in
          match r1 with
          | String d _ =>
              if isDigit d then
                let '(e, us, rest) := readExponent 0 false r1 in
                let e := if String.eqb es "-" then - e else e in
                if negb (isEmpty rest) then None
                else if (sawUnderscore m || us) && negb (underscoreOK s) then None
                else if hex then ofScaled neg (mValue m) 2 (e - 4 * mFrac m)
                else ofScaled neg (mValue m) 10 (e - mFrac m)
              else None
          | EmptyString => None
          end
        else None
    | EmptyString =>
        if hex then None
        else if sawUnderscore m && negb (underscoreOK s) then None
        else ofScaled neg (mValue m) 10 (- mFrac m)
    end.

Definition eqFold (s t : string) : bool :=
  String.eqb (gostrings.lowerBytes s) t.

(** [strconv.ParseFloat(s, 64)]: [special] first, then [readFloat]. *)
Definition ParseFloat (s : string) : option float64 :=
  if eqFold s "nan" then Some NaN
  else
    let '(sg, r) := accept isSign s in
    if eqFold r "inf" || eqFold r "infinity" then Some (Inf (String.eqb sg "-"))
    else readFloat s.

(** [strconv.Atoi] *)
Definition Atoi (s : string) : option Z :=
  let '(sg, r) := accept isSign s in
  if isEmpty r then None
  else if forallb isDigit (list_ascii_of_string r) then
    let v := decimalValue r in
    let i := if String.eqb sg "-" then - v else v in
    if inInt64 i then Some i else None
  else None.

(** [math.Ldexp]: [frac * 2^exp]; the exponent sum is an [int]. *)
Definition Ldexp (f : float64) (exp : Z) : float64 :=
  match f with
  | Fin neg m e =>
      if m =? 0 then f
      else
        let ex := Z.log2 m + e in
        let sum := wrap64 (exp + ex) in
        if sum <? -1075 then Fin neg 0 0
        else if 1023 <? sum then Inf neg
        else match ofScaled neg m 2 (e + (sum - ex)) with
             | Some r => r
             | None => Inf neg
             end
  | _ => f
  end.

Fixpoint indexOf (c : ascii) (s : string) : option nat :=
  match s with
  | EmptyString => None
  | String a r =>
      if Ascii.eqb a c then Some O else S <$> indexOf c r
  end.

Definition hasX (s : string) : bool :=
  existsb (fun c => lower c =? 120) (list_ascii_of_string s).

(** [ss.convertFloat(str, 64)] *)
Definition convertFloat (str : string) : option float64 :=
  match indexOf (ascii_of_nat 112) str with
  | Some p =>
      if hasX str then ParseFloat str
      else
        match ParseFloat (String.substring 0 p str),
              Atoi (String.substring (S p) (String.length str - S p) str) with
        | Some f, Some m => Some (Ldexp f m)
        | _, _ => None
        end
  | None => ParseFloat str
  end.

(** [var f float64; fmt.Sscanf(s, "%f", &f); f] *)
Definition Sscanf_f (s : string) : float64 :=
  match SkipSpace s with
  | None | Some EmptyString => zero
  | Some s1 => default zero (convertFloat (floatToken s1))
  end.

(** [f * 1000] *)
Definition mul1000 (f : float64) : float64 :=
  match f with
  | Fin neg m e =>
      match ofScaled neg (m * 1000) 2 e with
      | Some r => r
      | None => Inf neg
      end
  | _ => f
  end.

(** [int64(f)]: truncation toward zero.  Go leaves the conversion of NaN,
    of the infinities and of values outside [int64] to the implementation;
    amd64 yields the smallest [int64], which is what is modelled. *)
Definition toInt64 (f : float64) : Z :=
  match f with
  | Fin neg m e =>
      let t := if e <? 0 then m / 2 ^ (- e) else m * 2 ^ e in
      let v := if neg then - t else t in
      if inInt64 v then v else minInt64
  | _ => minInt64
  end.

End gofloat.

(** ** Package [llm]: what [generatePersona] depends on

    [NewClient] reads the process environment and the global configuration
    file, and a client's [GeneratePersona] is an HTTP exchange with the
    provider.  Everything outside the program that these calls observe is
    collected in a [World], which is passed explicitly. *)

Module llm.
Import types.

Inductive Client : Type :=
| OpenAIClient (apiKey : string)
| AnthropicClient (apiKey : string)
| GeminiClient (apiKey : string)
| OllamaClient (host : string).

Record World : Type := mkWorld {
  (** [os.Getenv] *)
  Getenv : string -> string;
  (** [config.LoadGlobalConfig()]: the [LLM.APIKey] field of the loaded
      file, [None] when loading fails (a nil config). *)
  globalAPIKey : option string;
  (** The outcome of the provider round trip of [GeneratePersona]. *)
  GeneratePersona : Client -> AppAnalysis.t -> Result string }.

(** The [switch provider] that opens both [GetAPIKey] and [resolveAPIKey]:
    the first non-empty environment variable of the provider, or the empty
    string when the switch falls through. *)
Definition envAPIKey (w : World) (provider : string) : string :=
  if String.eqb provider "openai" then Getenv w "OPENAI_API_KEY"
  else if String.eqb provider "anthropic" then Getenv w "ANTHROPIC_API_KEY"
  else if String.eqb provider "gemini" then
    if negb (isEmpty (Getenv w "GEMINI_API_KEY")) then Getenv w "GEMINI_API_KEY"
    else Getenv w "GOOGLE_API_KEY"
  else "".

(** [func (c *GlobalConfig) GetAPIKey(provider string) string], with
    [stored] for [c.LLM.APIKey]. *)
Definition GetAPIKey (w : World) (stored provider : string) : string :=
  if negb (isEmpty (envAPIKey w provider)) then envAPIKey w provider
  else stored.

Definition resolveAPIKey (w : World) (provider : string) : string :=
  if negb (isEmpty (envAPIKey w provider)) then envAPIKey w provider
  else match globalAPIKey w with
       | Some stored => GetAPIKey w stored provider
       | None => ""
       end.

Definition NewClient (w : World) (provider : string) : Result Client :=
  let apiKey := resolveAPIKey w provider in
  if String.eqb provider "openai" then
    if isEmpty apiKey
    then Err "OpenAI API key not set. Set OPENAI_API_KEY or run: dorgu config set llm.api_key <key>"
    else Ok (OpenAIClient apiKey)
  else if String.eqb provider "anthropic" then
    if isEmpty apiKey
    then Err "Anthropic API key not set. Set ANTHROPIC_API_KEY or run: dorgu config set llm.api_key <key>"
    else Ok (AnthropicClient apiKey)
  else if String.eqb provider "gemini" then
    if isEmpty apiKey
    then Err "Gemini API key not set. Set GEMINI_API_KEY (or GOOGLE_API_KEY) or run: dorgu config set llm.api_key <key>"
    else Ok (GeminiClient apiKey)
  else if String.eqb provider "ollama" then
    let host := Getenv w "OLLAMA_HOST" in
    Ok (OllamaClient (if isEmpty host then "http://localhost:11434" else host))
  else
    Err ("unknown LLM provider: " +:+ provider
         +:+ " (supported: openai, anthropic, gemini, ollama)").

End llm.

(** ** Package [generator] *)

Module generator.
Import types config.

(** *** Manifest structs *)

Module Metadata.
Record t := mk {
    Name : string; Namespace : string;
    Labels : gmap string string;
    Annotations : option (gmap string string) }.
End Metadata.

Module ContainerPort.
Record t := mk { Name : string; ContainerPort : Z; Protocol : string }.
End ContainerPort.

Module SecretKeySelector.
Record t := mk { Name : string; Key : string }.
End SecretKeySelector.

(** [EnvVarSource]: only [SecretKeyRef] is ever set. *)
Module EnvVar.
Record t := mk {
    Name : string; Value : string;
    ValueFrom : option SecretKeySelector.t }.
End EnvVar.

Module ResourceRequirements.
Record t := mk { Requests : gmap string string; Limits : gmap string string }.
End ResourceRequirements.

Module HTTPGetAction.
Record t := mk { Path : string; Port : Z; Scheme : string }.
End HTTPGetAction.

Module Probe.
Record t := mk {
    HTTPGet : option HTTPGetAction.t;
    InitialDelaySeconds : Z; PeriodSeconds : Z;
    TimeoutSeconds : Z; FailureThreshold : Z }.
End Probe.

Module ContainerSecurityContext.
Record t := mk {
    AllowPrivilegeEscalation : option bool;
    ReadOnlyRootFilesystem : option bool;
    CapabilitiesDrop : list string;
    CapabilitiesAdd : list string }.
End ContainerSecurityContext.

Module PodSecurityContext.
Record t := mk { RunAsNonRoot : option bool; SeccompProfileType : option string }.
End PodSecurityContext.

Module Container.
Record t := mk {
    Name : string; Image : string;
    Ports : list ContainerPort.t;
    Env : list EnvVar.t;
    Resources : ResourceRequirements.t;
    LivenessProbe : option Probe.t;
    ReadinessProbe : option Probe.t;
    SecurityContext : option ContainerSecurityContext.t }.
End Container.

Module PodSpec.
Record t := mk {
    Containers : list Container.t;
    SecurityContext : option PodSecurityContext.t;
    ServiceAccountName : string }.
End PodSpec.

Module PodTemplateSpec.
Record t := mk { Metadata : Metadata.t; Spec : PodSpec.t }.
End PodTemplateSpec.

Module DeploymentSpec.
Record t := mk {
    Replicas : Z;
    SelectorMatchLabels : gmap string string;
    Template : PodTemplateSpec.t }.
End DeploymentSpec.

Module DeploymentManifest.
Record t := mk {
    APIVersion : string; Kind : string;
    Metadata : Metadata.t; Spec : DeploymentSpec.t }.
End DeploymentManifest.

Module ServicePort.
Record t := mk { Name : string; Port : Z; TargetPort : Z; Protocol : string }.
End ServicePort.

Module ServiceSpec.
Record t := mk {
    Type_ : string; Selector : gmap string string; Ports : list ServicePort.t }.
End ServiceSpec.

Module ServiceManifest.
Record t := mk {
    APIVersion : string; Kind : string;
    Metadata : Metadata.t; Spec : ServiceSpec.t }.
End ServiceManifest.

(** [IngressBackend], [IngressServiceBackend] and [ServiceBackendPort] are
    flattened into the path. *)
Module IngressPath.
Record t := mk {
    Path : string; PathType : string;
    BackendServiceName : string; BackendServicePort : Z }.
End IngressPath.

Module IngressRule.
Record t := mk { Host : string; HTTPPaths : list IngressPath.t }.
End IngressRule.

Module IngressTLS.
Record t := mk { Hosts : list string; SecretName : string }.
End IngressTLS.

Module IngressSpec.
Record t := mk {
    IngressClassName : option string;
    TLS : list IngressTLS.t;
    Rules : list IngressRule.t }.
End IngressSpec.

Module IngressManifest.
Record t := mk {
    APIVersion : string; Kind : string;
    Metadata : Metadata.t; Spec : IngressSpec.t }.
End IngressManifest.

Module MetricSpec.
Record t := mk {
    Type_ : string; ResourceName : string;
    TargetType : string; AverageUtilization : Z }.
End MetricSpec.

Module HPASpec.
Record t := mk {
    ScaleTargetAPIVersion : string; ScaleTargetKind : string;
    ScaleTargetName : string;
    MinReplicas : Z; MaxReplicas : Z;
    Metrics : list MetricSpec.t }.
End HPASpec.

Module HPAManifest.
Record t := mk {
    APIVersion : string; Kind : string;
    Metadata : Metadata.t; Spec : HPASpec.t }.
End HPAManifest.

Module ArgoCDAppSpec.
Record t := mk {
    Project : string;
    SourceRepoURL : string; SourcePath : string; SourceTargetRevision : string;
    DestinationServer : string; DestinationNamespace : string;
    AutomatedPrune : bool; AutomatedSelfHeal : bool;
    SyncOptions : list string }.
End ArgoCDAppSpec.

Module ArgoCDApplication.
Record t := mk {
    APIVersion : string; Kind : string;
    Metadata : Metadata.t; Spec : ArgoCDAppSpec.t }.
End ArgoCDApplication.

(** The values handed to [toYAML(obj interface{})]. *)
Inductive Manifest : Type :=
| DeploymentObj (d : DeploymentManifest.t)
| ServiceObj (s : ServiceManifest.t)
| IngressObj (i : IngressManifest.t)
| HPAObj (h : HPAManifest.t)
| ArgoCDObj (a : ArgoCDApplication.t).

Module Options.
Record t := mk {
    Namespace : string;
    SkipArgoCD : bool; SkipCI : bool; SkipPersona : bool;
    Config : Config.t }.
End Options.

Module GeneratedFile.
Record t := mk { Path : string; Content : string }.
End GeneratedFile.

(** *** Shared derivations *)

(** [labels[k] = v] for every entry of [src]: the entries of [src] win. *)
Definition setAll (src dst : gmap string string) : gmap string string :=
  src ∪ dst.

Definition buildLabelsWithAppConfig (analysis : AppAnalysis.t) (cfg : Config.t)
  : gmap string string :=
  let labels : gmap string string :=
    <["app.kubernetes.io/name" := AppAnalysis.Name analysis]>
      (<["app.kubernetes.io/managed-by" := "dorgu"]> ∅) in
  let labels :=
    if negb (isEmpty (AppAnalysis.Team analysis))
    then <["app.kubernetes.io/team" := AppAnalysis.Team analysis]> labels
    else labels in
  let labels :=
    if negb (isEmpty (AppAnalysis.Environment analysis))
    then <["app.kubernetes.io/environment" := AppAnalysis.Environment analysis]>
           labels
    else labels in
  let labels := setAll (LabelConfig.Custom (Config.Labels cfg)) labels in
  match AppAnalysis.AppConfig analysis with
  | Some ac => setAll (AppConfigContext.Labels ac) labels
  | None => labels
  end.

Definition buildAnnotationsWithAppConfig (analysis : AppAnalysis.t)
    (cfg : Config.t) : option (gmap string string) :=
  let annotations : gmap string string :=
    setAll (AnnotationConfig.Custom (Config.Annotations cfg)) ∅ in
  let annotations :=
    match AppAnalysis.AppConfig analysis with
    | Some ac => setAll (AppConfigContext.Annotations ac) annotations
    | None => annotations
    end in
  if decide (size annotations = 0%nat) then None else Some annotations.

(** The override block shared by [GenerateDeployment],
    [validateResourceRequestsVsLimits] and [writeResources]: each of the
    four fields of [analysis.AppConfig.Resources] replaces the profile's
    value when it is not empty. *)
Definition applyResourceOverrides (analysis : AppAnalysis.t)
    (resources : ResourceSpec.t) : ResourceSpec.t :=
  match AppAnalysis.AppConfig analysis with
  | Some ac =>
      match AppConfigContext.Resources ac with
      | Some r =>
          let pick (o cur : string) := if negb (isEmpty o) then o else cur in
          ResourceSpec.mk
            (ResourceValues.mk
               (pick (ResourceOverrides.RequestsCPU r)
                     (ResourceValues.CPU (ResourceSpec.Requests resources)))
               (pick (ResourceOverrides.RequestsMemory r)
                     (ResourceValues.Memory (ResourceSpec.Requests resources))))
            (ResourceValues.mk
               (pick (ResourceOverrides.LimitsCPU r)
                     (ResourceValues.CPU (ResourceSpec.Limits resources)))
               (pick (ResourceOverrides.LimitsMemory r)
                     (ResourceValues.Memory (ResourceSpec.Limits resources))))
      | None => resources
      end
  | None => resources
  end.

(** [fmt.Sprintf("port-%d", i)] for the index of each port. *)
Definition portName (i : nat) : string := "port-" +:+ gofmt.fmt_d (Z.of_nat i).

(** *** [GenerateDeployment] *)

Definition containerPorts (analysis : AppAnalysis.t) : list ContainerPort.t :=
  imap (fun i p => ContainerPort.mk (portName i) (Port.Port p) "TCP")
       (AppAnalysis.Ports analysis).

Definition envVars {table : gostrings.CaseTable} (analysis : AppAnalysis.t)
  : list EnvVar.t :=
  map (fun e =>
         if types.EnvVar.Secret e then
           EnvVar.mk (types.EnvVar.Name e) ""
             (Some (SecretKeySelector.mk
                      (gostrings.ToLower (AppAnalysis.Name analysis) +:+ "-secrets")
                      (gostrings.ToLower (types.EnvVar.Name e))))
         else EnvVar.mk (types.EnvVar.Name e) (types.EnvVar.Value e) None)
      (AppAnalysis.EnvVars analysis).

Definition orDefault (v d : Z) : Z := if v =? 0 then d else v.

(** The liveness and readiness probes built from [analysis.AppConfig.Health]. *)
Definition appConfigProbes (analysis : AppAnalysis.t)
  : option Probe.t * option Probe.t :=
  match AppAnalysis.AppConfig analysis with
  | Some ac =>
      match AppConfigContext.Health ac with
      | Some health =>
          (if negb (isEmpty (HealthContext.LivenessPath health)) then
             Some (Probe.mk
                     (Some (HTTPGetAction.mk (HealthContext.LivenessPath health)
                              (HealthContext.LivenessPort health) ""))
                     (orDefault (HealthContext.InitialDelay health) 10)
                     (orDefault (HealthContext.Period health) 10) 5 3)
           else None,
           if negb (isEmpty (HealthContext.ReadinessPath health)) then
             Some (Probe.mk
                     (Some (HTTPGetAction.mk (HealthContext.ReadinessPath health)
                              (HealthContext.ReadinessPort health) ""))
                     (orDefault (HealthContext.InitialDelay health) 5)
                     (orDefault (HealthContext.Period health) 5) 5 3)
           else None)
      | None => (None, None)
      end
  | None => (None, None)
  end.

(** The probe built from [analysis.HealthCheck]. *)
Definition healthCheckProbe (hc : HealthCheck.t) : Probe.t :=
  Probe.mk
    (Some (HTTPGetAction.mk (HealthCheck.Path hc) (HealthCheck.Port hc) ""))
    (if 0 <? HealthCheck.InitialDelay hc then HealthCheck.InitialDelay hc else 10)
    (if 0 <? HealthCheck.Period hc then HealthCheck.Period hc else 10)
    5 3.

(** [livenessProbe, readinessProbe] as they stand when the manifest is
    built: the fallback to [analysis.HealthCheck] is taken when no liveness
    probe came from the app config, and then sets both probes. *)
Definition deploymentProbes (analysis : AppAnalysis.t)
  : option Probe.t * option Probe.t :=
  match appConfigProbes analysis, AppAnalysis.HealthCheck analysis with
  | (None, _), Some hc => (Some (healthCheckProbe hc), Some (healthCheckProbe hc))
  | probes, _ => probes
  end.

Definition imageName (analysis : AppAnalysis.t) (cfg : Config.t) : string :=
  if isEmpty (CIConfig.Registry (Config.CI cfg))
  then AppAnalysis.Name analysis +:+ ":latest"
  else CIConfig.Registry (Config.CI cfg) +:+ "/" +:+ AppAnalysis.Name analysis
       +:+ ":latest".

Definition deploymentReplicas (analysis : AppAnalysis.t) : Z :=
  let fromAnalysis :=
    match AppAnalysis.Scaling analysis with
    | Some sc =>
        if 0 <? ScalingConfig.MinReplicas sc then ScalingConfig.MinReplicas sc
        else 2
    | None => 2
    end in
  match AppAnalysis.AppConfig analysis with
  | Some ac =>
      match AppConfigContext.Scaling ac with
      | Some sc =>
          if 0 <? ScalingConfig.MinReplicas sc then ScalingConfig.MinReplicas sc
          else fromAnalysis
      | None => fromAnalysis
      end
  | None => fromAnalysis
  end.

Definition nameSelector (analysis : AppAnalysis.t) : gmap string string :=
  <["app.kubernetes.io/name" := AppAnalysis.Name analysis]> ∅.

Definition resourceMap (v : ResourceValues.t) : gmap string string :=
  <["cpu" := ResourceValues.CPU v]> (<["memory" := ResourceValues.Memory v]> ∅).

(** The [DeploymentManifest] value that [GenerateDeployment] serializes. *)
Definition deploymentManifest {table : gostrings.CaseTable}
    (analysis : AppAnalysis.t) (namespace : string)
    (resources : ResourceSpec.t) (cfg : Config.t) : DeploymentManifest.t :=
  let labels := buildLabelsWithAppConfig analysis cfg in
  let annotations := buildAnnotationsWithAppConfig analysis cfg in
  let finalResources := applyResourceOverrides analysis resources in
  let '(livenessProbe, readinessProbe) := deploymentProbes analysis in
  let podSecurityContext :=
    PodSecurityContext.mk (Some true) (Some "RuntimeDefault") in
  let containerSecurityContext :=
    ContainerSecurityContext.mk (Some false) (Some true) ["ALL"] [] in
  DeploymentManifest.mk "apps/v1" "Deployment"
    (Metadata.mk (AppAnalysis.Name analysis) namespace labels annotations)
    (DeploymentSpec.mk (deploymentReplicas analysis) (nameSelector analysis)
       (PodTemplateSpec.mk
          (Metadata.mk "" "" labels annotations)
          (PodSpec.mk
             [Container.mk (AppAnalysis.Name analysis) (imageName analysis cfg)
                (containerPorts analysis) (envVars analysis)
                (ResourceRequirements.mk
                   (resourceMap (ResourceSpec.Requests finalResources))
                   (resourceMap (ResourceSpec.Limits finalResources)))
                livenessProbe readinessProbe (Some containerSecurityContext)]
             (Some podSecurityContext) ""))).

(** *** [GenerateService] *)

Definition serviceManifest (analysis : AppAnalysis.t) (namespace : string)
    (cfg : Config.t) : ServiceManifest.t :=
  ServiceManifest.mk "v1" "Service"
    (Metadata.mk (AppAnalysis.Name analysis) namespace
       (buildLabelsWithAppConfig analysis cfg)
       (buildAnnotationsWithAppConfig analysis cfg))
    (ServiceSpec.mk "ClusterIP" (nameSelector analysis)
       (imap (fun i p => ServicePort.mk (portName i) (Port.Port p) (Port.Port p)
                           "TCP")
             (AppAnalysis.Ports analysis))).

(** *** [GenerateIngress] *)

Definition appIngress (analysis : AppAnalysis.t) : option IngressContext.t :=
  match AppAnalysis.AppConfig analysis with
  | Some ac => AppConfigContext.Ingress ac
  | None => None
  end.

(** The host of the ingress rule; [validateIngressHost] repeats it. *)
Definition ingressHost (analysis : AppAnalysis.t) (cfg : Config.t) : string :=
  match appIngress analysis with
  | Some ing =>
      if negb (isEmpty (IngressContext.Host ing)) then IngressContext.Host ing
      else AppAnalysis.Name analysis +:+ IngressConfig.DomainSuffix (Config.Ingress cfg)
  | None =>
      AppAnalysis.Name analysis +:+ IngressConfig.DomainSuffix (Config.Ingress cfg)
  end.

Definition isWellKnownHTTP (p : Z) : bool :=
  (p =? 80) || (p =? 8080) || (p =? 3000) || (p =? 5000) || (p =? 8000).

(** The first port of the well-known set, 80 when there is none; a result
    of 80 is then replaced by the first declared port. *)
Definition ingressHTTPPort (ports : list Port.t) : Z :=
  let httpPort :=
    match List.find (fun p => isWellKnownHTTP (Port.Port p)) ports with
    | Some p => Port.Port p
    | None => 80
    end in
  match ports with
  | p0 :: _ => if httpPort =? 80 then Port.Port p0 else httpPort
  | [] => httpPort
  end.

Definition ingressPaths (analysis : AppAnalysis.t) : list IngressPath.t :=
  let httpPort := ingressHTTPPort (AppAnalysis.Ports analysis) in
  let default :=
    [IngressPath.mk "/" "Prefix" (AppAnalysis.Name analysis) httpPort] in
  match appIngress analysis with
  | Some ing =>
      match IngressContext.Paths ing with
      | [] => default
      | paths =>
          map (fun p =>
                 IngressPath.mk (IngressPathDef.Path p)
                   (if isEmpty (IngressPathDef.PathType p) then "Prefix"
                    else IngressPathDef.PathType p)
                   (AppAnalysis.Name analysis) httpPort)
              paths
      end
  | None => default
  end.

Definition ingressManifest (analysis : AppAnalysis.t) (namespace : string)
    (cfg : Config.t) : IngressManifest.t :=
  let labels := buildLabelsWithAppConfig analysis cfg in
  let annotations : gmap string string :=
    default ∅ (buildAnnotationsWithAppConfig analysis cfg) in
  let tls := IngressConfig.TLS (Config.Ingress cfg) in
  let tlsEnabled :=
    match appIngress analysis with
    | Some ing => TLSConfig.Enabled tls || IngressContext.TLSEnabled ing
    | None => TLSConfig.Enabled tls
    end in
  let tlsSecret :=
    match appIngress analysis with
    | Some ing =>
        if negb (isEmpty (IngressContext.TLSSecret ing))
        then IngressContext.TLSSecret ing
        else AppAnalysis.Name analysis +:+ "-tls"
    | None => AppAnalysis.Name analysis +:+ "-tls"
    end in
  let annotations :=
    if tlsEnabled && negb (isEmpty (TLSConfig.ClusterIssuer tls))
    then <["cert-manager.io/cluster-issuer" := TLSConfig.ClusterIssuer tls]>
           annotations
    else annotations in
  let host := ingressHost analysis cfg in
  IngressManifest.mk "networking.k8s.io/v1" "Ingress"
    (Metadata.mk (AppAnalysis.Name analysis) namespace labels (Some annotations))
    (IngressSpec.mk (Some (IngressConfig.Class (Config.Ingress cfg)))
       (if tlsEnabled then [IngressTLS.mk [host] tlsSecret] else [])
       [IngressRule.mk host (ingressPaths analysis)]).

(** *** [GenerateHPA] *)

Definition positiveOr (v d : Z) : Z := if 0 <? v then v else d.

(** [minReplicas, maxReplicas, targetCPU, targetMemory] after the
    defaulting of [GenerateHPA]: the app-config scaling block is used when
    there is one, otherwise [analysis.Scaling]; a field that is not
    positive leaves the default 2, 10, 70 or 0 in place. *)
Definition hpaValues (analysis : AppAnalysis.t) : Z * Z * Z * Z :=
  let from (sc : ScalingConfig.t) :=
    (positiveOr (ScalingConfig.MinReplicas sc) 2,
     positiveOr (ScalingConfig.MaxReplicas sc) 10,
     positiveOr (ScalingConfig.TargetCPU sc) 70,
     positiveOr (ScalingConfig.TargetMemory sc) 0) in
  let fromAnalysis :=
    match AppAnalysis.Scaling analysis with
    | Some sc => from sc
    | None => (2, 10, 70, 0)
    end in
  match AppAnalysis.AppConfig analysis with
  | Some ac =>
      match AppConfigContext.Scaling ac with
      | Some sc => from sc
      | None => fromAnalysis
      end
  | None => fromAnalysis
  end.

Definition hpaManifest (analysis : AppAnalysis.t) (namespace : string)
    (cfg : Config.t) : HPAManifest.t :=
  let '(minReplicas, maxReplicas, targetCPU, targetMemory) :=
    hpaValues analysis in
  let metrics := [MetricSpec.mk "Resource" "cpu" "Utilization" targetCPU] in
  let metrics :=
    if 0 <? targetMemory
    then (metrics
          ++ [MetricSpec.mk "Resource" "memory" "Utilization" targetMemory])%list
    else metrics in
  HPAManifest.mk "autoscaling/v2" "HorizontalPodAutoscaler"
    (Metadata.mk (AppAnalysis.Name analysis) namespace
       (buildLabelsWithAppConfig analysis cfg) None)
    (HPASpec.mk "apps/v1" "Deployment" (AppAnalysis.Name analysis)
       minReplicas maxReplicas metrics).

(** *** [GenerateArgoCD] *)

Definition argoRepoURL (analysis : AppAnalysis.t) : string :=
  if negb (isEmpty (AppAnalysis.Repository analysis))
  then AppAnalysis.Repository analysis
  else
    match AppAnalysis.AppConfig analysis with
    | Some ac =>
        if negb (isEmpty (AppConfigContext.Repository ac))
        then AppConfigContext.Repository ac
        else "https://github.com/YOUR_ORG/" +:+ AppAnalysis.Name analysis +:+ ".git"
    | None =>
        "https://github.com/YOUR_ORG/" +:+ AppAnalysis.Name analysis +:+ ".git"
    end.

Definition argoCDApplication (analysis : AppAnalysis.t) (namespace : string)
    (cfg : Config.t) : ArgoCDApplication.t :=
  ArgoCDApplication.mk "argoproj.io/v1alpha1" "Application"
    (Metadata.mk (AppAnalysis.Name analysis) "argocd"
       (buildLabelsWithAppConfig analysis cfg) None)
    (ArgoCDAppSpec.mk (ArgoCDConfig.Project (Config.ArgoCD cfg))
       (argoRepoURL analysis) "k8s" "HEAD"
       (ArgoCDConfig.DestinationServer (Config.ArgoCD cfg)) namespace
       (ArgoCDConfig.Prune (Config.ArgoCD cfg))
       (ArgoCDConfig.SelfHeal (Config.ArgoCD cfg))
       ["CreateNamespace=true"]).

(** *** [GenerateGitHubActions] *)

(** The workflow text: the format string of the source with its three
    [%s] verbs filled in. *)
Definition workflowText (registry imageName : string)
    (analysis : AppAnalysis.t) : string :=
  "name: Build and Deploy

on:
  push:
    branches:
      - main
      - master
  pull_request:
    branches:
      - main
      - master

env:
  REGISTRY: "
  +:+ registry
  +:+ "
  IMAGE_NAME: "
  +:+ imageName
  +:+ "

jobs:
  build:
    runs-on: ubuntu-latest
    permissions:
      contents: read
      packages: write

    steps:
      - name: Checkout repository
        uses: actions/checkout@v4

      - name: Set up Docker Buildx
        uses: docker/setup-buildx-action@v3

      - name: Log in to Container Registry
        if: github.event_name != 'pull_request'
        uses: docker/login-action@v3
        with:
          registry: ${{ env.REGISTRY }}
          username: ${{ github.actor }}
          password: ${{ secrets.GITHUB_TOKEN }}

      - name: Extract metadata
        id: meta
        uses: docker/metadata-action@v5
        with:
          images: ${{ env.IMAGE_NAME }}
          tags: |
            type=ref,event=branch
            type=ref,event=pr
            type=sha,prefix=
            type=raw,value=latest,enable={{is_default_branch}}

      - name: Build and push
        uses: docker/build-push-action@v5
        with:
          context: .
          push: ${{ github.event_name != 'pull_request' }}
          tags: ${{ steps.meta.outputs.tags }}
          labels: ${{ steps.meta.outputs.labels }}
          cache-from: type=gha
          cache-to: type=gha,mode=max

  deploy:
    needs: build
    runs-on: ubuntu-latest
    if: github.event_name != 'pull_request'
    
    steps:
      - name: Checkout repository
        uses: actions/checkout@v4

      - name: Update image tag in manifests
        run: |
          SHORT_SHA=$(echo ${{ github.sha }} | cut -c1-7)
          sed -i " +:+ dq +:+ "s|image: .*"
  +:+ AppAnalysis.Name analysis
  +:+ ".*|image: ${{ env.IMAGE_NAME }}:${SHORT_SHA}|g" +:+ dq +:+ " k8s/deployment.yaml

      - name: Commit and push changes
        run: |
          git config --local user.email " +:+ dq +:+ "github-actions[bot]@users.noreply.github.com" +:+ dq +:+ "
          git config --local user.name " +:+ dq +:+ "github-actions[bot]" +:+ dq +:+ "
          git add k8s/
          git diff --staged --quiet || git commit -m " +:+ dq +:+ "chore: update image to ${{ github.sha }}" +:+ dq +:+ "
          git push
".

Definition GenerateGitHubActions (analysis : AppAnalysis.t) (cfg : Config.t)
  : Result string :=
  let registry :=
    if isEmpty (CIConfig.Registry (Config.CI cfg))
    then "ghcr.io/${{ github.repository_owner }}"
    else CIConfig.Registry (Config.CI cfg) in
  let imageName := registry +:+ "/" +:+ AppAnalysis.Name analysis in
  Ok (workflowText registry imageName analysis).

(** *** The free-text persona *)

Definition nl : string := gofmt.nl.

Definition concatMap {A} (f : A -> string) (l : list A) : string :=
  String.concat "" (map f l).

Definition formatPorts (ports : list Port.t) : string :=
  match ports with
  | [] => "No ports exposed."
  | _ =>
      concatMap (fun p => "- Port " +:+ gofmt.fmt_d (Port.Port p) +:+ " ("
                          +:+ Port.Protocol p +:+ "): " +:+ Port.Purpose p +:+ nl)
                ports
  end.

Definition formatDependencies (deps : list string) : string :=
  match deps with
  | [] => "No external dependencies detected."
  | _ => concatMap (fun d => "- " +:+ d +:+ nl) deps
  end.

(** [scaling := analysis.Scaling], replaced by [analysis.AppConfig.Scaling]
    when the app config has one: the prologue of [formatScalingDetails],
    [writeScaling] and [validateHPAMinMax]. *)
Definition effectiveScaling (analysis : AppAnalysis.t) : option ScalingConfig.t :=
  match AppAnalysis.AppConfig analysis with
  | Some ac =>
      match AppConfigContext.Scaling ac with
      | Some sc => Some sc
      | None => AppAnalysis.Scaling analysis
      end
  | None => AppAnalysis.Scaling analysis
  end.

Definition formatScalingDetails (analysis : AppAnalysis.t) : string :=
  match effectiveScaling analysis with
  | None => "No auto-scaling configured"
  | Some scaling =>
      "Min " +:+ gofmt.fmt_d (ScalingConfig.MinReplicas scaling)
      +:+ " replicas, Max " +:+ gofmt.fmt_d (ScalingConfig.MaxReplicas scaling)
      +:+ " replicas"
      +:+ (if 0 <? ScalingConfig.TargetCPU scaling
           then ", Target CPU " +:+ gofmt.fmt_d (ScalingConfig.TargetCPU scaling)
                +:+ "%"
           else "")
      +:+ (if 0 <? ScalingConfig.TargetMemory scaling
           then ", Target Memory "
                +:+ gofmt.fmt_d (ScalingConfig.TargetMemory scaling) +:+ "%"
           else "")
  end.

Definition formatHealthCheck (hc : option HealthCheck.t) : string :=
  match hc with
  | None => "No health check configured."
  | Some hc => "- **Health endpoint:** " +:+ HealthCheck.Path hc +:+ nl
  end.

Definition placeholderOr (s : string) : string :=
  if negb (isEmpty s) then s else "[PLACEHOLDER]".

Definition defaultOperationsNotes : string :=
  "*Add operational notes here after deploying the application.*".

Definition operationsNotes (analysis : AppAnalysis.t) : string :=
  match AppAnalysis.AppConfig analysis with
  | Some ac =>
      match AppConfigContext.Operations ac with
      | Some ops =>
          let notes :=
            (if negb (isEmpty (OperationsContext.Runbook ops))
             then "- **Runbook:** " +:+ OperationsContext.Runbook ops +:+ nl
             else "")
            +:+ (if negb (isEmpty (OperationsContext.OnCall ops))
                 then "- **On-Call:** " +:+ OperationsContext.OnCall ops +:+ nl
                 else "")
            +:+ (if negb (isEmpty (OperationsContext.MaintenanceWindow ops))
                 then "- **Maintenance Window:** "
                      +:+ OperationsContext.MaintenanceWindow ops +:+ nl
                 else "")
            +:+ (match OperationsContext.Alerts ops with
                 | [] => ""
                 | alerts =>
                     nl +:+ "### Configured Alerts" +:+ nl
                     +:+ concatMap (fun alert => "- " +:+ alert +:+ nl) alerts
                 end) in
          if isEmpty notes then defaultOperationsNotes else notes
      | None => defaultOperationsNotes
      end
  | None => defaultOperationsNotes
  end.

Definition depsSection (analysis : AppAnalysis.t) : string :=
  let fromAnalysis := formatDependencies (AppAnalysis.Dependencies analysis) in
  match AppAnalysis.AppConfig analysis with
  | Some ac =>
      match AppConfigContext.Dependencies ac with
      | [] => fromAnalysis
      | deps =>
          concatMap (fun dep =>
                       "- **" +:+ DependencyContext.Name dep +:+ "** ("
                       +:+ DependencyContext.Type_ dep +:+ ")"
                       +:+ (if DependencyContext.Required dep then " (required)"
                            else "")
                       +:+ nl)
                    deps
      end
  | None => fromAnalysis
  end.

Definition personaDescription (analysis : AppAnalysis.t) : string :=
  let description :=
    match AppAnalysis.AppConfig analysis with
    | Some ac =>
        if negb (isEmpty (AppConfigContext.Description ac))
        then AppConfigContext.Description ac
        else AppAnalysis.Description analysis
    | None => AppAnalysis.Description analysis
    end in
  if isEmpty description
  then "A containerized " +:+ AppAnalysis.Type_ analysis +:+ " application"
  else description.

Definition contextSection (analysis : AppAnalysis.t) : string :=
  match AppAnalysis.AppConfig analysis with
  | Some ac =>
      if negb (isEmpty (AppConfigContext.Instructions ac))
      then "

## Application Context

" +:+ AppConfigContext.Instructions ac
      else ""
  | None => ""
  end.

Definition generateBasicPersona (analysis : AppAnalysis.t) : string :=
  "# " +:+ AppAnalysis.Name analysis +:+ "

## Overview

" +:+ personaDescription analysis +:+ contextSection analysis +:+ "

## Technical Stack

- **Language:** " +:+ AppAnalysis.Language analysis +:+ "
- **Framework:** " +:+ AppAnalysis.Framework analysis +:+ "
- **Type:** " +:+ AppAnalysis.Type_ analysis +:+ "

## API/Interfaces

" +:+ formatPorts (AppAnalysis.Ports analysis) +:+ "

## External Dependencies

" +:+ depsSection analysis +:+ "

## Resource Profile

- **Profile:** " +:+ AppAnalysis.ResourceProfile analysis +:+ "
- **Scaling:** " +:+ formatScalingDetails analysis +:+ "

## Health & Monitoring

" +:+ formatHealthCheck (AppAnalysis.HealthCheck analysis) +:+ "

## Ownership

- **Team:** " +:+ placeholderOr (AppAnalysis.Team analysis) +:+ "
- **Contact:** " +:+ placeholderOr (AppAnalysis.Owner analysis) +:+ "
- **Repository:** " +:+ placeholderOr (AppAnalysis.Repository analysis) +:+ "

## Operational Notes

" +:+ operationsNotes analysis +:+ "
".

(** [generatePersona]: the client is chosen by [llm.NewClient] and asked
    for the document. *)
Definition generatePersona (w : llm.World) (analysis : AppAnalysis.t)
    (cfg : Config.t) : Result string :=
  match llm.NewClient w (LLMConfig.Provider (Config.LLM cfg)) with
  | Err e => Err e
  | Ok client => llm.GeneratePersona w client analysis
  end.

(** *** The structured persona ([GeneratePersonaYAML])

    Each [write*] function returns the text it appends to the
    [strings.Builder]; [line s] is [s] followed by a newline. *)

Definition line (s : string) : string := s +:+ nl.
Definition quoted (s : string) : string := dq +:+ s +:+ dq.
Definition lineIf (c : bool) (s : string) : string := if c then line s else "".
Definition nonEmpty (s : string) : bool := negb (isEmpty s).

Definition writeResources (analysis : AppAnalysis.t) (cfg : Config.t) : string :=
  let resources :=
    applyResourceOverrides analysis
      (GetResourcesForProfile cfg (AppAnalysis.ResourceProfile analysis)) in
  let profile :=
    if isEmpty (AppAnalysis.ResourceProfile analysis) then "standard"
    else AppAnalysis.ResourceProfile analysis in
  line "  resources:"
  +:+ line "    requests:"
  +:+ line ("      cpu: "
            +:+ quoted (ResourceValues.CPU (ResourceSpec.Requests resources)))
  +:+ line ("      memory: "
            +:+ quoted (ResourceValues.Memory (ResourceSpec.Requests resources)))
  +:+ line "    limits:"
  +:+ line ("      cpu: "
            +:+ quoted (ResourceValues.CPU (ResourceSpec.Limits resources)))
  +:+ line ("      memory: "
            +:+ quoted (ResourceValues.Memory (ResourceSpec.Limits resources)))
  +:+ line ("    profile: " +:+ profile).

Definition writeScaling (analysis : AppAnalysis.t) : string :=
  match effectiveScaling analysis with
  | None => ""
  | Some scaling =>
      line "  scaling:"
      +:+ line ("    minReplicas: "
                +:+ gofmt.fmt_d (ScalingConfig.MinReplicas scaling))
      +:+ line ("    maxReplicas: "
                +:+ gofmt.fmt_d (ScalingConfig.MaxReplicas scaling))
      +:+ lineIf (0 <? ScalingConfig.TargetCPU scaling)
            ("    targetCPU: " +:+ gofmt.fmt_d (ScalingConfig.TargetCPU scaling))
      +:+ lineIf (0 <? ScalingConfig.TargetMemory scaling)
            ("    targetMemory: "
             +:+ gofmt.fmt_d (ScalingConfig.TargetMemory scaling))
      +:+ line ("    behavior: "
                +:+ (if isEmpty (ScalingConfig.Behavior scaling) then "balanced"
                     else ScalingConfig.Behavior scaling))
  end.

(** The four locals of [writeHealth] when the [health:] block is decided:
    liveness path, readiness path, port and startup grace period. *)
Definition personaHealth (analysis : AppAnalysis.t)
  : string * string * Z * string :=
  let '(livenessPath, readinessPath, healthPort, startupGracePeriod) :=
    match AppAnalysis.AppConfig analysis with
    | Some ac =>
        match AppConfigContext.Health ac with
        | Some h =>
            (HealthContext.LivenessPath h, HealthContext.ReadinessPath h,
             if 0 <? HealthContext.LivenessPort h then HealthContext.LivenessPort h
             else if 0 <? HealthContext.ReadinessPort h
             then HealthContext.ReadinessPort h
             else 0,
             HealthContext.StartupGracePeriod h)
        | None => ("", "", 0, "")
        end
    | None => ("", "", 0, "")
    end in
  let '(livenessPath, healthPort) :=
    match AppAnalysis.HealthCheck analysis with
    | Some hc =>
        if isEmpty livenessPath then (HealthCheck.Path hc, HealthCheck.Port hc)
        else (livenessPath, healthPort)
    | None => (livenessPath, healthPort)
    end in
  let readinessPath := if isEmpty readinessPath then livenessPath else readinessPath in
  (livenessPath, readinessPath, healthPort, startupGracePeriod).

Definition writeHealth (analysis : AppAnalysis.t) : string :=
  let '(livenessPath, readinessPath, healthPort, startupGracePeriod) :=
    personaHealth analysis in
  if isEmpty livenessPath && isEmpty readinessPath then ""
  else
    line "  health:"
    +:+ lineIf (nonEmpty livenessPath) ("    livenessPath: " +:+ livenessPath)
    +:+ lineIf (nonEmpty readinessPath) ("    readinessPath: " +:+ readinessPath)
    +:+ lineIf (0 <? healthPort) ("    port: " +:+ gofmt.fmt_d healthPort)
    +:+ line ("    startupGracePeriod: "
              +:+ quoted (if isEmpty startupGracePeriod then "30s"
                          else startupGracePeriod)).

Definition writeDependencies (analysis : AppAnalysis.t) : string :=
  match AppAnalysis.AppConfig analysis with
  | Some ac =>
      match AppConfigContext.Dependencies ac with
      | [] => ""
      | deps =>
          line "  dependencies:"
          +:+ concatMap
                (fun dep =>
                   line ("    - name: " +:+ DependencyContext.Name dep)
                   +:+ lineIf (nonEmpty (DependencyContext.Type_ dep))
                         ("      type: " +:+ DependencyContext.Type_ dep)
                   +:+ line ("      required: "
                             +:+ gofmt.fmt_t (DependencyContext.Required dep))
                   +:+ lineIf (nonEmpty (DependencyContext.HealthCheck dep))
                         ("      healthCheck: "
                          +:+ quoted (DependencyContext.HealthCheck dep)))
                deps
      end
  | None => ""
  end.

Definition writeIngress (analysis : AppAnalysis.t) (cfg : Config.t) : string :=
  match appIngress analysis with
  | Some ing =>
      if IngressContext.Enabled ing then
        line "    ingress:"
        +:+ line "      enabled: true"
        +:+ (if nonEmpty (IngressContext.Host ing)
             then line ("      host: " +:+ IngressContext.Host ing)
             else lineIf (nonEmpty (AppAnalysis.Name analysis))
                    ("      host: " +:+ AppAnalysis.Name analysis
                     +:+ IngressConfig.DomainSuffix (Config.Ingress cfg)))
        +:+ (match IngressContext.Paths ing with
             | [] => ""
             | paths =>
                 line "      paths:"
                 +:+ concatMap
                       (fun p => line ("        - " +:+ IngressPathDef.Path p))
                       paths
             end)
        +:+ line ("      tlsEnabled: "
                  +:+ gofmt.fmt_t (IngressContext.TLSEnabled ing))
      else ""
  | None => ""
  end.

Definition writeNetworking (analysis : AppAnalysis.t) (cfg : Config.t) : string :=
  match AppAnalysis.Ports analysis with
  | [] => ""
  | ports =>
      line "  networking:"
      +:+ line "    ports:"
      +:+ concatMap
            (fun p =>
               line ("      - port: " +:+ gofmt.fmt_d (Port.Port p))
               +:+ line ("        protocol: "
                         +:+ (if isEmpty (Port.Protocol p) then "TCP"
                              else Port.Protocol p))
               +:+ lineIf (nonEmpty (Port.Purpose p))
                     ("        purpose: " +:+ Port.Purpose p))
            ports
      +:+ writeIngress analysis cfg
  end.

Definition appOperations (analysis : AppAnalysis.t) : option OperationsContext.t :=
  match AppAnalysis.AppConfig analysis with
  | Some ac => AppConfigContext.Operations ac
  | None => None
  end.

Definition writeOwnership (analysis : AppAnalysis.t) : string :=
  let hasOwnership :=
    nonEmpty (AppAnalysis.Team analysis) || nonEmpty (AppAnalysis.Owner analysis)
    || nonEmpty (AppAnalysis.Repository analysis)
    || match appOperations analysis with
       | Some ops =>
           nonEmpty (OperationsContext.OnCall ops)
           || nonEmpty (OperationsContext.Runbook ops)
       | None => false
       end in
  if negb hasOwnership then ""
  else
    line "  ownership:"
    +:+ lineIf (nonEmpty (AppAnalysis.Team analysis))
          ("    team: " +:+ AppAnalysis.Team analysis)
    +:+ lineIf (nonEmpty (AppAnalysis.Owner analysis))
          ("    owner: " +:+ AppAnalysis.Owner analysis)
    +:+ lineIf (nonEmpty (AppAnalysis.Repository analysis))
          ("    repository: " +:+ AppAnalysis.Repository analysis)
    +:+ match appOperations analysis with
        | Some ops =>
            lineIf (nonEmpty (OperationsContext.OnCall ops))
              ("    oncall: " +:+ OperationsContext.OnCall ops)
            +:+ lineIf (nonEmpty (OperationsContext.Runbook ops))
                  ("    runbook: " +:+ OperationsContext.Runbook ops)
        | None => ""
        end.

Definition writePolicies (analysis : AppAnalysis.t) (cfg : Config.t) : string :=
  let dp :=
    match AppAnalysis.AppConfig analysis with
    | Some ac => AppConfigContext.DeploymentPolicy ac
    | None => None
    end in
  let pick (f : DeploymentPolicyContext.t -> string) (d : string) :=
    match dp with
    | Some p => if nonEmpty (f p) then f p else d
    | None => d
    end in
  let maintenanceWindow :=
    match appOperations analysis with
    | Some ops => OperationsContext.MaintenanceWindow ops
    | None => ""
    end in
  let autoRestart :=
    match appOperations analysis with
    | Some ops => OperationsContext.AutoRestart ops
    | None => false
    end in
  line "  policies:"
  +:+ line "    security:"
  +:+ line ("      runAsNonRoot: "
            +:+ gofmt.fmt_t (SecurityConfig.RunAsNonRoot (Config.Security cfg)))
  +:+ line ("      readOnlyRootFilesystem: "
            +:+ gofmt.fmt_t
                  (SecurityConfig.ReadOnlyRootFilesystem (Config.Security cfg)))
  +:+ line ("      allowPrivilegeEscalation: "
            +:+ gofmt.fmt_t
                  (SecurityConfig.AllowPrivilegeEscalation (Config.Security cfg)))
  +:+ line "    deployment:"
  +:+ line ("      strategy: "
            +:+ pick DeploymentPolicyContext.Strategy "RollingUpdate")
  +:+ line ("      maxSurge: "
            +:+ quoted (pick DeploymentPolicyContext.MaxSurge "25%"))
  +:+ line ("      maxUnavailable: "
            +:+ quoted (pick DeploymentPolicyContext.MaxUnavailable "25%"))
  +:+ line "    maintenance:"
  +:+ lineIf (nonEmpty maintenanceWindow)
        ("      window: " +:+ quoted maintenanceWindow)
  +:+ line ("      autoRestart: " +:+ gofmt.fmt_t autoRestart).

Definition personaTier (analysis : AppAnalysis.t) : string :=
  match AppAnalysis.AppConfig analysis with
  | Some ac =>
      if nonEmpty (AppConfigContext.Tier ac) then AppConfigContext.Tier ac
      else "standard"
  | None => "standard"
  end.

Definition GeneratePersonaYAML (analysis : AppAnalysis.t) (namespace : string)
    (cfg : Config.t) : Result string :=
  if isEmpty (AppAnalysis.Name analysis)
  then Err "application name is required for persona generation"
  else
    let namespace := if isEmpty namespace then "default" else namespace in
    Ok (line "apiVersion: dorgu.io/v1"
        +:+ line "kind: ApplicationPersona"
        +:+ line "metadata:"
        +:+ line ("  name: " +:+ AppAnalysis.Name analysis)
        +:+ line ("  namespace: " +:+ namespace)
        +:+ line "  labels:"
        +:+ line "    app.kubernetes.io/managed-by: dorgu"
        +:+ lineIf (nonEmpty (AppAnalysis.Team analysis))
              ("    dorgu.io/team: " +:+ AppAnalysis.Team analysis)
        +:+ line "spec:"
        +:+ line ("  name: " +:+ AppAnalysis.Name analysis)
        +:+ line ("  version: " +:+ quoted "1")
        +:+ line ("  type: "
                  +:+ (if isEmpty (AppAnalysis.Type_ analysis) then "api"
                       else AppAnalysis.Type_ analysis))
        +:+ line ("  tier: " +:+ personaTier analysis)
        +:+ line "  technical:"
        +:+ lineIf (nonEmpty (AppAnalysis.Language analysis))
              ("    language: " +:+ AppAnalysis.Language analysis)
        +:+ lineIf (nonEmpty (AppAnalysis.Framework analysis))
              ("    framework: " +:+ AppAnalysis.Framework analysis)
        +:+ (if nonEmpty (AppAnalysis.Description analysis)
             then line "    description: |"
                  +:+ line ("      "
                            +:+ gostrings.ReplaceNewlines
                                  (AppAnalysis.Description analysis)
                                  (nl +:+ "      "))
             else "")
        +:+ writeResources analysis cfg
        +:+ writeScaling analysis
        +:+ writeHealth analysis
        +:+ writeDependencies analysis
        +:+ writeNetworking analysis cfg
        +:+ writeOwnership analysis
        +:+ writePolicies analysis cfg).

(** *** Serialization and the orchestrator

    [toYAML] calls [yaml.Marshal] of [sigs.k8s.io/yaml], which is outside
    the repository: it is a parameter of the development. *)

Section Assembly.

Context {table : gostrings.CaseTable}.

Variable yamlMarshal : Manifest -> Result string.

Definition toYAML (obj : Manifest) : Result string :=
  match yamlMarshal obj with
  | Err e => Err e
  | Ok data => Ok data
  end.

Definition GenerateDeployment (analysis : AppAnalysis.t) (namespace : string)
    (resources : ResourceSpec.t) (cfg : Config.t) : Result string :=
  toYAML (DeploymentObj (deploymentManifest analysis namespace resources cfg)).

Definition GenerateService (analysis : AppAnalysis.t) (namespace : string)
    (cfg : Config.t) : Result string :=
  toYAML (ServiceObj (serviceManifest analysis namespace cfg)).

Definition GenerateIngress (analysis : AppAnalysis.t) (namespace : string)
    (cfg : Config.t) : Result string :=
  toYAML (IngressObj (ingressManifest analysis namespace cfg)).

Definition GenerateHPA (analysis : AppAnalysis.t) (namespace : string)
    (cfg : Config.t) : Result string :=
  toYAML (HPAObj (hpaManifest analysis namespace cfg)).

Definition GenerateArgoCD (analysis : AppAnalysis.t) (namespace : string)
    (cfg : Config.t) : Result string :=
  toYAML (ArgoCDObj (argoCDApplication analysis namespace cfg)).

(** [hasHTTPPort]: a port of the well-known set or with an HTTP purpose;
    failing that, any port at all. *)
Definition hasHTTPPort (ports : list Port.t) : bool :=
  let httpPorts : gset Z := {[ 80; 443; 8080; 3000; 5000; 8000 ]} in
  existsb (fun p => bool_decide (Port.Port p ∈ httpPorts)
                    || String.eqb (Port.Purpose p) "HTTP"
                    || String.eqb (Port.Purpose p) "HTTP API") ports
  || (0 <? length ports)%nat.

(** Sequencing of calls that return [(T, error)] with [return nil, err]
    on failure. *)
Definition bind {A B} (r : Result A) (k : A -> Result B) : Result B :=
  match r with
  | Ok a => k a
  | Err e => Err e
  end.

Notation "'do' x <- r ; k" := (bind r (fun x => k))
  (at level 10, x name, r at level 100, k at level 200).

(** The blocks of [Generate], each from the file list so far to the file
    list after it. *)
Definition addDeployment (analysis : AppAnalysis.t) (opts : Options.t)
  : Result (list GeneratedFile.t) :=
  let resources :=
    GetResourcesForProfile (Options.Config opts)
      (AppAnalysis.ResourceProfile analysis) in
  do deployment <- GenerateDeployment analysis (Options.Namespace opts) resources
                     (Options.Config opts);
  Ok [GeneratedFile.mk "deployment.yaml" deployment].

Definition addServiceAndIngress (analysis : AppAnalysis.t) (opts : Options.t)
    (files : list GeneratedFile.t) : Result (list GeneratedFile.t) :=
  if (0 <? length (AppAnalysis.Ports analysis))%nat then
    do service <- GenerateService analysis (Options.Namespace opts)
                    (Options.Config opts);
    let files := (files ++ [GeneratedFile.mk "service.yaml" service])%list in
    if hasHTTPPort (AppAnalysis.Ports analysis) then
      do ingress <- GenerateIngress analysis (Options.Namespace opts)
                      (Options.Config opts);
      Ok (files ++ [GeneratedFile.mk "ingress.yaml" ingress])%list
    else Ok files
  else Ok files.

Definition addHPA (analysis : AppAnalysis.t) (opts : Options.t)
    (files : list GeneratedFile.t) : Result (list GeneratedFile.t) :=
  match AppAnalysis.Scaling analysis with
  | Some _ =>
      do hpa <- GenerateHPA analysis (Options.Namespace opts) (Options.Config opts);
      Ok (files ++ [GeneratedFile.mk "hpa.yaml" hpa])%list
  | None => Ok files
  end.

Definition addArgoCD (analysis : AppAnalysis.t) (opts : Options.t)
    (files : list GeneratedFile.t) : Result (list GeneratedFile.t) :=
  if negb (Options.SkipArgoCD opts) then
    do argoApp <- GenerateArgoCD analysis (Options.Namespace opts)
                    (Options.Config opts);
    Ok (files ++ [GeneratedFile.mk "argocd/application.yaml" argoApp])%list
  else Ok files.

Definition addCI (analysis : AppAnalysis.t) (opts : Options.t)
    (files : list GeneratedFile.t) : Result (list GeneratedFile.t) :=
  if negb (Options.SkipCI opts) then
    do workflow <- GenerateGitHubActions analysis (Options.Config opts);
    Ok (files ++ [GeneratedFile.mk "../.github/workflows/deploy.yaml" workflow])%list
  else Ok files.

(** The persona block never fails: a failed [generatePersona] falls back to
    [generateBasicPersona], a failed [GeneratePersonaYAML] prints a warning
    and adds no file.  The second component is what is printed. *)
Definition addPersona (w : llm.World) (analysis : AppAnalysis.t)
    (opts : Options.t) (files : list GeneratedFile.t)
  : list GeneratedFile.t * list string :=
  if negb (Options.SkipPersona opts) then
    let persona :=
      match generatePersona w analysis (Options.Config opts) with
      | Ok persona => persona
      | Err _ => generateBasicPersona analysis
      end in
    let files := (files ++ [GeneratedFile.mk "../PERSONA.md" persona])%list in
    match GeneratePersonaYAML analysis (Options.Namespace opts)
            (Options.Config opts) with
    | Err err =>
        (files, ["Warning: failed to generate persona YAML: " +:+ err +:+ nl])
    | Ok personaYAML =>
        ((files ++ [GeneratedFile.mk "persona.yaml" personaYAML])%list, [])
    end
  else (files, []).

(** [Generate]: the returned [([]GeneratedFile, error)] and the text
    written to standard output. *)
Definition Generate (w : llm.World) (analysis : AppAnalysis.t)
    (opts : Options.t) : Result (list GeneratedFile.t) * list string :=
  match
    (do files <- addDeployment analysis opts;
     do files <- addServiceAndIngress analysis opts files;
     do files <- addHPA analysis opts files;
     do files <- addArgoCD analysis opts files;
     addCI analysis opts files)
  with
  | Err e => (Err e, [])
  | Ok files =>
      let '(files, out) := addPersona w analysis opts files in
      (Ok files, out)
  end.

End Assembly.

(** *** The post-generation validator *)

Inductive ValidationSeverity : Type :=
| SeverityError
| SeverityWarning
| SeverityInfo.

Definition isError (s : ValidationSeverity) : bool :=
  match s with SeverityError => true | _ => false end.
Definition isWarning (s : ValidationSeverity) : bool :=
  match s with SeverityWarning => true | _ => false end.
Definition isInfo (s : ValidationSeverity) : bool :=
  match s with SeverityInfo => true | _ => false end.

Module ValidationIssue.
Record t := mk {
    Severity : ValidationSeverity;
    Category : string; File : string;
    Message : string; Suggestion : string }.
End ValidationIssue.

Module ValidationResult.
Record t := mk {
    Issues : list ValidationIssue.t; Passed : bool; Summary : string }.
End ValidationResult.

(** [result.Issues = append(result.Issues, issue)] *)
Definition appendIssue (issue : ValidationIssue.t) (result : ValidationResult.t)
  : ValidationResult.t :=
  ValidationResult.mk (ValidationResult.Issues result ++ [issue])%list
    (ValidationResult.Passed result) (ValidationResult.Summary result).

Definition appendIf (c : bool) (issue : ValidationIssue.t)
    (result : ValidationResult.t) : ValidationResult.t :=
  if c then appendIssue issue result else result.

Definition parseCPUMillis (cpu : string) : Z :=
  if isEmpty cpu then 0
  else if gostrings.HasSuffix cpu "m"
  then gofmt.Sscanf_d (gostrings.TrimSuffix cpu "m")
  else gofloat.toInt64 (gofloat.mul1000 (gofloat.Sscanf_f cpu)).

(** The [multipliers] map.  Go ranges over a map in no fixed order; the
    four suffixes have the same length, so at most one of them ends a
    given string and the order of the search does not matter. *)
Definition multipliers : list (string * Z) :=
  [("Ki", 1024); ("Mi", 1024 * 1024); ("Gi", 1024 * 1024 * 1024);
   ("Ti", 1024 * 1024 * 1024 * 1024)].

Definition parseMemoryBytes (mem : string) : Z :=
  if isEmpty mem then 0
  else
    match List.find (fun sm => gostrings.HasSuffix mem (fst sm)) multipliers with
    | Some (suffix, mult) =>
        gofmt.wrap64 (gofmt.Sscanf_d (gostrings.TrimSuffix mem suffix) * mult)
    | None => gofmt.Sscanf_d mem
    end.

Definition validateImagePlaceholder (analysis : AppAnalysis.t)
    (opts : Options.t) (result : ValidationResult.t) : ValidationResult.t :=
  let registry := CIConfig.Registry (Config.CI (Options.Config opts)) in
  let result :=
    appendIf (isEmpty registry)
      (ValidationIssue.mk SeverityWarning "image" "deployment.yaml"
         ("Container image is placeholder '"
          +:+ (AppAnalysis.Name analysis +:+ ":latest") +:+ "' (no registry set)")
         "Set CI registry via 'dorgu config set defaults.registry <registry>' or in .dorgu.yaml")
      result in
  appendIssue
    (ValidationIssue.mk SeverityInfo "image" "deployment.yaml"
       "Image uses ':latest' tag"
       "Use specific image tags in production for reproducible deployments")
    result.

(** The resource spec on which the request and limit checks run. *)
Definition validatedResources (analysis : AppAnalysis.t) (opts : Options.t)
  : ResourceSpec.t :=
  applyResourceOverrides analysis
    (GetResourcesForProfile (Options.Config opts)
       (AppAnalysis.ResourceProfile analysis)).

Definition exceeds (req lim : Z) : bool := (0 <? req) && (0 <? lim) && (lim <? req).

Definition validateResourceRequestsVsLimits (analysis : AppAnalysis.t)
    (opts : Options.t) (result : ValidationResult.t) : ValidationResult.t :=
  let resources := validatedResources analysis opts in
  let requests := ResourceSpec.Requests resources in
  let limits := ResourceSpec.Limits resources in
  let reqCPU := parseCPUMillis (ResourceValues.CPU requests) in
  let limCPU := parseCPUMillis (ResourceValues.CPU limits) in
  let result :=
    appendIf (exceeds reqCPU limCPU)
      (ValidationIssue.mk SeverityError "resources" "deployment.yaml"
         ("Resource requests > limits: CPU request ("
          +:+ ResourceValues.CPU requests +:+ ") > limit ("
          +:+ ResourceValues.CPU limits +:+ ")")
         "CPU request must be <= CPU limit")
      result in
  let reqMem := parseMemoryBytes (ResourceValues.Memory requests) in
  let limMem := parseMemoryBytes (ResourceValues.Memory limits) in
  appendIf (exceeds reqMem limMem)
    (ValidationIssue.mk SeverityError "resources" "deployment.yaml"
       ("Resource requests > limits: memory request ("
        +:+ ResourceValues.Memory requests +:+ ") > limit ("
        +:+ ResourceValues.Memory limits +:+ ")")
       "Memory request must be <= memory limit")
    result.

Definition validateServicePortMatch (analysis : AppAnalysis.t)
    (result : ValidationResult.t) : ValidationResult.t :=
  match AppAnalysis.Ports analysis with
  | [] => result
  | ports =>
      let portSet : gset Z := list_to_set (map Port.Port ports) in
      match AppAnalysis.HealthCheck analysis with
      | Some hc =>
          appendIf (negb (bool_decide (HealthCheck.Port hc ∈ portSet)))
            (ValidationIssue.mk SeverityWarning "ports" "deployment.yaml"
               ("Health check port " +:+ gofmt.fmt_d (HealthCheck.Port hc)
                +:+ " does not match any container port")
               "Ensure health check port matches one of the exposed container ports")
            result
      | None => result
      end
  end.

Definition validateHPAMinMax (result : ValidationResult.t)
    (analysis : AppAnalysis.t) : ValidationResult.t :=
  match effectiveScaling analysis with
  | None => result
  | Some scaling =>
      appendIf (ScalingConfig.MaxReplicas scaling <? ScalingConfig.MinReplicas scaling)
        (ValidationIssue.mk SeverityError "scaling" "hpa.yaml"
           ("HPA minReplicas (" +:+ gofmt.fmt_d (ScalingConfig.MinReplicas scaling)
            +:+ ") > maxReplicas ("
            +:+ gofmt.fmt_d (ScalingConfig.MaxReplicas scaling) +:+ ")")
           "Set minReplicas <= maxReplicas")
        result
  end.

Definition validateIngressHost (analysis : AppAnalysis.t) (opts : Options.t)
    (result : ValidationResult.t) : ValidationResult.t :=
  let host := ingressHost analysis (Options.Config opts) in
  appendIf (isEmpty host)
    (ValidationIssue.mk SeverityWarning "ingress" "ingress.yaml"
       "Ingress host is empty"
       "Set ingress.host in .dorgu.yaml or ensure naming.domain_suffix is set in org config")
    result.

Definition validateHealthProbes (analysis : AppAnalysis.t)
    (result : ValidationResult.t) : ValidationResult.t :=
  let hasHealth :=
    match AppAnalysis.AppConfig analysis with
    | Some ac => bool_decide (is_Some (AppConfigContext.Health ac))
    | None => false
    end
    || bool_decide (is_Some (AppAnalysis.HealthCheck analysis)) in
  appendIf (negb hasHealth)
    (ValidationIssue.mk SeverityWarning "health" "deployment.yaml"
       "No health probes configured"
       "Add health.liveness/readiness in .dorgu.yaml or implement a /health endpoint")
    result.

Definition validateMissingRequiredFields (analysis : AppAnalysis.t)
    (result : ValidationResult.t) : ValidationResult.t :=
  let result :=
    appendIf (isEmpty (AppAnalysis.Name analysis))
      (ValidationIssue.mk SeverityError "metadata" "deployment.yaml"
         "Missing required field: application name"
         "Set app.name in .dorgu.yaml or use --name")
      result in
  appendIf (isEmpty (AppAnalysis.Repository analysis))
    (ValidationIssue.mk SeverityInfo "metadata" "argocd/application.yaml"
       "Repository URL not set"
       "Set app.repository in .dorgu.yaml or ensure git remote origin is configured")
    result.

Definition countSeverity (p : ValidationSeverity -> bool)
    (issues : list ValidationIssue.t) : nat :=
  length (List.filter (fun i => p (ValidationIssue.Severity i)) issues).

(** The summary line computed from the final issue list. *)
Definition summaryOf (issues : list ValidationIssue.t) : string :=
  let errors := countSeverity isError issues in
  let warnings := countSeverity isWarning issues in
  let infos := countSeverity isInfo issues in
  match issues with
  | [] => "All validation checks passed"
  | _ =>
      let part (n : nat) (what : string) : list string :=
        if (0 <? n)%nat then [gofmt.fmt_d (Z.of_nat n) +:+ what] else [] in
      "Validation: "
      +:+ gostrings.Join (part errors " error(s)" ++ part warnings " warning(s)"
                          ++ part infos " info(s)")%list ", "
  end.

(** The seven rules, in the order of the calls, on
    [&ValidationResult{Passed: true}]. *)
Definition runRules (analysis : AppAnalysis.t) (opts : Options.t)
  : ValidationResult.t :=
  let result := ValidationResult.mk [] true "" in
  let result := validateImagePlaceholder analysis opts result in
  let result := validateResourceRequestsVsLimits analysis opts result in
  let result := validateServicePortMatch analysis result in
  let result := validateHPAMinMax result analysis in
  let result := validateIngressHost analysis opts result in
  let result := validateHealthProbes analysis result in
  validateMissingRequiredFields analysis result.

Definition ValidateGenerated (analysis : AppAnalysis.t)
    (files : list GeneratedFile.t) (opts : Options.t) : ValidationResult.t :=
  let result := runRules analysis opts in
  let issues := ValidationResult.Issues result in
  let passed :=
    if existsb (fun i => isError (ValidationIssue.Severity i)) issues
    then false else ValidationResult.Passed result in
  ValidationResult.mk issues passed (summaryOf issues).

End generator.

(** ** Package [generator]: the report formatter *)

Module reporting.
Import types config generator.

Definition severityEqb (a b : ValidationSeverity) : bool :=
  match a, b with
  | SeverityError, SeverityError
  | SeverityWarning, SeverityWarning
  | SeverityInfo, SeverityInfo => true
  | _, _ => false
  end.

(** The line prefix of a severity: a cross, a warning sign or an
    information sign after two spaces. *)
Definition prefixOf (sev : ValidationSeverity) : string :=
  match sev with
  | SeverityError => "  ✗"
  | SeverityWarning => "  ⚠"
  | SeverityInfo => "  ℹ"
  end.

(** What the inner loop writes for one issue of the severity in turn. *)
Definition formatIssue (sev : ValidationSeverity) (issue : ValidationIssue.t)
  : string :=
  prefixOf sev +:+ " [" +:+ ValidationIssue.Category issue +:+ "] "
  +:+ ValidationIssue.Message issue +:+ nl
  +:+ (if nonEmpty (ValidationIssue.Suggestion issue)
       then "    → " +:+ ValidationIssue.Suggestion issue +:+ nl
       else "").

(** One pass of the outer loop: the issues of severity [sev], in the order
    of the list; the others are skipped by [continue]. *)
Definition formatSeverity (sev : ValidationSeverity)
    (issues : list ValidationIssue.t) : string :=
  concatMap (fun issue =>
               if severityEqb (ValidationIssue.Severity issue) sev
               then formatIssue sev issue else "")
            issues.

Definition FormatValidationReport (result : ValidationResult.t) : string :=
  match ValidationResult.Issues result with
  | [] => "  All validation checks passed"
  | issues =>
      concatMap (fun sev => formatSeverity sev issues)
                [SeverityError; SeverityWarning; SeverityInfo]
  end.

End reporting.

(** ** Package [config]: the global configuration *)

Module globalconfig.

Module GlobalLLMConfig.
Record t := mk { Provider : string; APIKey : string; Model : string }.
End GlobalLLMConfig.

Module GlobalDefaults.
Record t := mk { Namespace : string; Registry : string; OrgName : string }.
End GlobalDefaults.

Module GlobalConfig.
Record t := mk {
  Version : string; LLM : GlobalLLMConfig.t; Defaults : GlobalDefaults.t }.
End GlobalConfig.

Definition DefaultGlobalConfig : GlobalConfig.t :=
  GlobalConfig.mk "1" (GlobalLLMConfig.mk "" "" "")
    (GlobalDefaults.mk "default" "" "").

(** [strings.Repeat("*", n)] *)
Fixpoint stars (n : nat) : string :=
  match n with
  | O => ""
  | S n => String "*" (stars n)
  end.

(** [key[:4] + strings.Repeat("*", len(key)-8) + key[len(key)-4:]] for a
    key of more than eight bytes. *)
Definition maskKey (key : string) : string :=
  let n := String.length key in
  if isEmpty key then "(not set)"
  else if (n <=? 8)%nat then stars n
  else String.substring 0 4 key +:+ stars (n - 8)
       +:+ String.substring (n - 4) 4 key.

Definition validProvider (value : string) : bool :=
  String.eqb value "openai" || String.eqb value "anthropic"
  || String.eqb value "gemini" || String.eqb value "ollama"
  || String.eqb value "".

(** [func (c *GlobalConfig) Set(key, value string) error]: the
    configuration after the call and the error returned ([Set] is a
    reserved word, hence the underscore). *)
Definition Set_ (c : GlobalConfig.t) (key value : string)
  : GlobalConfig.t * option string :=
  let llm := GlobalConfig.LLM c in
  let defaults := GlobalConfig.Defaults c in
  let withLLM l := GlobalConfig.mk (GlobalConfig.Version c) l defaults in
  let withDefaults d := GlobalConfig.mk (GlobalConfig.Version c) llm d in
  if String.eqb key "llm.provider" then
    if validProvider value
    then (withLLM (GlobalLLMConfig.mk value (GlobalLLMConfig.APIKey llm)
                     (GlobalLLMConfig.Model llm)), None)
    else (c, Some ("invalid LLM provider: " +:+ value
                   +:+ " (valid: openai, anthropic, gemini, ollama)"))
  else if String.eqb key "llm.api_key" then
    (withLLM (GlobalLLMConfig.mk (GlobalLLMConfig.Provider llm) value
                (GlobalLLMConfig.Model llm)), None)
  else if String.eqb key "llm.model" then
    (withLLM (GlobalLLMConfig.mk (GlobalLLMConfig.Provider llm)
                (GlobalLLMConfig.APIKey llm) value), None)
  else if String.eqb key "defaults.namespace" then
    (withDefaults (GlobalDefaults.mk value (GlobalDefaults.Registry defaults)
                     (GlobalDefaults.OrgName defaults)), None)
  else if String.eqb key "defaults.registry" then
    (withDefaults (GlobalDefaults.mk (GlobalDefaults.Namespace defaults) value
                     (GlobalDefaults.OrgName defaults)), None)
  else if String.eqb key "defaults.org_name" then
    (withDefaults (GlobalDefaults.mk (GlobalDefaults.Namespace defaults)
                     (GlobalDefaults.Registry defaults) value), None)
  else
    (c, Some ("unknown config key: " +:+ key +:+ gofmt.nl +:+ gofmt.nl +:+ "Valid keys:"
              +:+ gofmt.nl +:+ "  llm.provider" +:+ gofmt.nl +:+ "  llm.api_key"
              +:+ gofmt.nl +:+ "  llm.model" +:+ gofmt.nl +:+ "  defaults.namespace"
              +:+ gofmt.nl +:+ "  defaults.registry" +:+ gofmt.nl +:+ "  defaults.org_name")).

(** [func (c *GlobalConfig) Get(key string) (string, error)] *)
Definition Get (c : GlobalConfig.t) (key : string) : Result string :=
  let llm := GlobalConfig.LLM c in
  let defaults := GlobalConfig.Defaults c in
  if String.eqb key "llm.provider" then Ok (GlobalLLMConfig.Provider llm)
  else if String.eqb key "llm.api_key" then
    if generator.nonEmpty (GlobalLLMConfig.APIKey llm)
    then Ok (maskKey (GlobalLLMConfig.APIKey llm))
    else Ok ""
  else if String.eqb key "llm.model" then Ok (GlobalLLMConfig.Model llm)
  else if String.eqb key "defaults.namespace"
  then Ok (GlobalDefaults.Namespace defaults)
  else if String.eqb key "defaults.registry"
  then Ok (GlobalDefaults.Registry defaults)
  else if String.eqb key "defaults.org_name"
  then Ok (GlobalDefaults.OrgName defaults)
  else Err ("unknown config key: " +:+ key).

(** [func (c *GlobalConfig) GetEffectiveProvider(flagValue string) string] *)
Definition GetEffectiveProvider (c : GlobalConfig.t) (flagValue : string)
  : string :=
  if generator.nonEmpty flagValue then flagValue
  else GlobalLLMConfig.Provider (GlobalConfig.LLM c).

(** The keys [Set_] and [Get] accept. *)
Definition keys : list string :=
  ["llm.provider"; "llm.api_key"; "llm.model"; "defaults.namespace";
   "defaults.registry"; "defaults.org_name"].

End globalconfig.

(** ** Package [analyzer]: applying the app config

    [config.AppConfig] is the parsed [.dorgu.yaml] of the application;
    [applyAppConfig] copies it into the analysis and into its
    [AppConfigContext].  The fields [Tier], [Behavior],
    [StartupGracePeriod], [HealthCheck] of a dependency, [AutoRestart] and
    [DeploymentPolicy] are the ones [applyAppConfig] reads. *)

Module analyzer.
Import types config.

Module AppMetadata.
Record t := mk {
  Name : string; Description : string; Team : string; Owner : string;
  Repository : string; Type_ : string; Tier : string; Instructions : string }.
End AppMetadata.

Module AppResources.
Record t := mk { Requests : ResourceValues.t; Limits : ResourceValues.t }.
End AppResources.

Module AppScaling.
Record t := mk {
  MinReplicas : Z; MaxReplicas : Z; TargetCPU : Z; TargetMemory : Z;
  Behavior : string }.
End AppScaling.

Module AppTLS.
Record t := mk { Enabled : bool; SecretName : string }.
End AppTLS.

Module IngressPath.
Record t := mk { Path : string; PathType : string }.
End IngressPath.

Module AppIngress.
Record t := mk {
  Enabled : bool; Host : string; Paths : list IngressPath.t;
  TLS : option AppTLS.t }.
End AppIngress.

Module HealthProbe.
Record t := mk { Path : string; Port : Z; InitialDelay : Z; Period : Z }.
End HealthProbe.

Module AppHealth.
Record t := mk {
  Liveness : option HealthProbe.t; Readiness : option HealthProbe.t;
  StartupGracePeriod : string }.
End AppHealth.

Module AppDependency.
Record t := mk {
  Name : string; Type_ : string; Required : bool; HealthCheck : string }.
End AppDependency.

Module AppOperations.
Record t := mk {
  Runbook : string; Alerts : list string; MaintenanceWindow : string;
  OnCall : string; AutoRestart : bool }.
End AppOperations.

Module AppDeploymentPolicy.
Record t := mk { Strategy : string; MaxSurge : string; MaxUnavailable : string }.
End AppDeploymentPolicy.

Module AppConfig.
Record t := mk {
  App : AppMetadata.t;
  Environment : string;
  Resources : option AppResources.t;
  Scaling : option AppScaling.t;
  Labels : gmap string string;
  Annotations : gmap string string;
  Ingress : option AppIngress.t;
  Health : option AppHealth.t;
  Dependencies : list AppDependency.t;
  Operations : option AppOperations.t;
  DeploymentPolicy : option AppDeploymentPolicy.t }.
End AppConfig.








End analyzer.

(** ** What the orchestrator and the parsers are compared with *)

Module expected.
Import types config generator.

Definition hasPorts (analysis : AppAnalysis.t) : bool :=
  (0 <? length (AppAnalysis.Ports analysis))%nat.

Definition hasScaling (analysis : AppAnalysis.t) : bool :=
  bool_decide (is_Some (AppAnalysis.Scaling analysis)).

Definition when {A} (c : bool) (l : list A) : list A := if c then l else [].

(** The manifests [Generate] hands to the serializer, in the order of the
    calls. *)
Definition serializedObjects {table : gostrings.CaseTable}
    (analysis : AppAnalysis.t) (opts : Options.t) : list Manifest :=
  let ns := Options.Namespace opts in
  let cfg := Options.Config opts in
  ([DeploymentObj
      (deploymentManifest analysis ns
         (GetResourcesForProfile cfg (AppAnalysis.ResourceProfile analysis)) cfg)]
   ++ when (hasPorts analysis)
        [ServiceObj (serviceManifest analysis ns cfg);
         IngressObj (ingressManifest analysis ns cfg)]
   ++ when (hasScaling analysis) [HPAObj (hpaManifest analysis ns cfg)]
   ++ when (negb (Options.SkipArgoCD opts))
        [ArgoCDObj (argoCDApplication analysis ns cfg)])%list.

(** The paths of a successful run, in order. *)
Definition expectedPaths (analysis : AppAnalysis.t) (opts : Options.t)
  : list string :=
  (["deployment.yaml"]
   ++ when (hasPorts analysis) ["service.yaml"; "ingress.yaml"]
   ++ when (hasScaling analysis) ["hpa.yaml"]
   ++ when (negb (Options.SkipArgoCD opts)) ["argocd/application.yaml"]
   ++ when (negb (Options.SkipCI opts)) ["../.github/workflows/deploy.yaml"]
   ++ when (negb (Options.SkipPersona opts))
        ("../PERSONA.md"
         :: when (nonEmpty (AppAnalysis.Name analysis)) ["persona.yaml"]))%list.

(** The error of the first manifest that does not serialize. *)
Fixpoint firstError (yamlMarshal : Manifest -> Result string)
    (objs : list Manifest) : option string :=
  match objs with
  | [] => None
  | obj :: rest =>
      match yamlMarshal obj with
      | Err e => Some e
      | Ok _ => firstError yamlMarshal rest
      end
  end.

(** [parseMemoryBytes] with the suffix table searched in a given order. *)
Definition parseMemoryBytesIn (table : list (string * Z)) (mem : string) : Z :=
  if isEmpty mem then 0
  else
    match List.find (fun sm => gostrings.HasSuffix mem (fst sm)) table with
    | Some (suffix, mult) =>
        gofmt.wrap64 (gofmt.Sscanf_d (gostrings.TrimSuffix mem suffix) * mult)
    | None => gofmt.Sscanf_d mem
    end.

(** A non-empty string of decimal digits. *)
Definition isNumeral (s : string) : bool :=
  nonEmpty s && forallb gofmt.isDigit (list_ascii_of_string s).

(** The issues of one severity, in order. *)
Definition ofSeverity (sev : ValidationSeverity)
    (issues : list ValidationIssue.t) : list ValidationIssue.t :=
  List.filter (fun i => reporting.severityEqb (ValidationIssue.Severity i) sev)
              issues.

(** The label and annotation maps of the app config; empty without one. *)
Definition appLabels (analysis : AppAnalysis.t) : gmap string string :=
  match AppAnalysis.AppConfig analysis with
  | Some ac => AppConfigContext.Labels ac
  | None => ∅
  end.

Definition appAnnotations (analysis : AppAnalysis.t) : gmap string string :=
  match AppAnalysis.AppConfig analysis with
  | Some ac => AppConfigContext.Annotations ac
  | None => ∅
  end.

Definition nameLabel : string := "app.kubernetes.io/name".

(** The labels of the pod template of a workload document. *)
Definition podLabels (d : DeploymentManifest.t) : gmap string string :=
  Metadata.Labels
    (PodTemplateSpec.Metadata
       (DeploymentSpec.Template (DeploymentManifest.Spec d))).

(** No byte of the string is an upper-case ASCII letter. *)
Definition lowerCase (s : string) : bool :=
  forallb (fun c => negb ((65 <=? gofmt.code c) && (gofmt.code c <=? 90)))
          (list_ascii_of_string s).

(** The three conditions under which a rule reports an error, besides
    the empty name. *)
Definition cpuExceeds (analysis : AppAnalysis.t) (opts : Options.t) : bool :=
  let resources := validatedResources analysis opts in
  exceeds (parseCPUMillis (ResourceValues.CPU (ResourceSpec.Requests resources)))
          (parseCPUMillis (ResourceValues.CPU (ResourceSpec.Limits resources))).

Definition memoryExceeds (analysis : AppAnalysis.t) (opts : Options.t) : bool :=
  let resources := validatedResources analysis opts in
  exceeds
    (parseMemoryBytes (ResourceValues.Memory (ResourceSpec.Requests resources)))
    (parseMemoryBytes (ResourceValues.Memory (ResourceSpec.Limits resources))).

Definition scalingInverted (analysis : AppAnalysis.t) : bool :=
  match effectiveScaling analysis with
  | Some sc => ScalingConfig.MaxReplicas sc <? ScalingConfig.MinReplicas sc
  | None => false
  end.

(** The two ways the loop over [analysis.Ports] in [GenerateIngress] can
    end for a path's backend port: on the first declared port, or on a
    declared port of the well-known set other than 80. *)
Definition BackendServicePortChoice (p : generator.IngressPath.t)
    (analysis : types.AppAnalysis.t) : Prop :=
  match types.AppAnalysis.Ports analysis with
  | [] => generator.IngressPath.BackendServicePort p = 80
  | p0 :: _ =>
      generator.IngressPath.BackendServicePort p = types.Port.Port p0
      \/ (generator.IngressPath.BackendServicePort p <> 80
          /\ generator.isWellKnownHTTP (generator.IngressPath.BackendServicePort p)
             = true
          /\ In (generator.IngressPath.BackendServicePort p)
                (map types.Port.Port (types.AppAnalysis.Ports analysis)))
  end.



(** The first string of a list that is not empty; the empty string when
    there is none. *)
Definition firstNonEmpty (l : list string) : string :=
  default "" (List.find (fun s => negb (isEmpty s)) l).

End expected.

(** ** Observations on results

    Projections and predicates in which the properties are stated. *)

Module observe.
Import types config generator.

(** The note that [validateImagePlaceholder] appends whatever the input. *)
Definition latestTagNote : ValidationIssue.t :=
  ValidationIssue.mk SeverityInfo "image" "deployment.yaml"
    "Image uses ':latest' tag"
    "Use specific image tags in production for reproducible deployments".

(** A rule that only appends: an issue once reported stays reported. *)
Definition monotone (rule : ValidationResult.t -> ValidationResult.t) : Prop :=
  forall result i,
    In i (ValidationResult.Issues result) ->
    In i (ValidationResult.Issues (rule result)).

(** The paths of the files a call of [Generate] returned; none when it
    returned an error. *)
Definition emittedPaths (r : Result (list GeneratedFile.t)) : list string :=
  match r with
  | Ok files => map GeneratedFile.Path files
  | Err _ => []
  end.

(** The paths [Generate] can emit for an analysis. *)
Definition possiblePaths (analysis : AppAnalysis.t) : list string :=
  ("deployment.yaml"
   :: match AppAnalysis.Ports analysis with
      | [] => []
      | _ => ["service.yaml"; "ingress.yaml"]
      end
   ++ match AppAnalysis.Scaling analysis with
      | Some _ => ["hpa.yaml"]
      | None => []
      end
   ++ ["argocd/application.yaml"; "../.github/workflows/deploy.yaml";
       "../PERSONA.md"; "persona.yaml"])%list.

(** The single container of a workload document. *)
Definition container (d : DeploymentManifest.t) : option Container.t :=
  head (PodSpec.Containers
          (PodTemplateSpec.Spec
             (DeploymentSpec.Template (DeploymentManifest.Spec d)))).

(** The hosts of the rules of an endpoint document. *)
Definition ruleHosts (i : IngressManifest.t) : list string :=
  map IngressRule.Host (IngressSpec.Rules (IngressManifest.Spec i)).


(** The path of the HTTP GET action of a probe. *)
Definition probePath (p : Probe.t) : option string :=
  HTTPGetAction.Path <$> Probe.HTTPGet p.

(** The document stored under a path in the result of [Generate]. *)
Definition contentOf (path : string) (r : Result (list GeneratedFile.t))
  : option string :=
  match r with
  | Ok files =>
      GeneratedFile.Content
        <$> List.find (fun f => String.eqb (GeneratedFile.Path f) path) files
  | Err _ => None
  end.


(** The text stored in [../PERSONA.md]: the provider's answer, or the
    basic persona when [generatePersona] fails. *)
Definition personaDocument (w : llm.World) (analysis : AppAnalysis.t)
    (cfg : Config.t) : string :=
  match generatePersona w analysis cfg with
  | Ok persona => persona
  | Err _ => generateBasicPersona analysis
  end.



(** A document list with the content of [../PERSONA.md] blanked: what is
    left are the paths, their order, and every other content. *)
Definition withoutPersonaText (files : list GeneratedFile.t)
  : list GeneratedFile.t :=
  map (fun f => if String.eqb (GeneratedFile.Path f) "../PERSONA.md"
                then GeneratedFile.mk (GeneratedFile.Path f) ""
                else f)
      files.

Definition exceptPersonaText (r : Result (list GeneratedFile.t))
  : Result (list GeneratedFile.t) :=
  match r with
  | Ok files => Ok (withoutPersonaText files)
  | Err e => Err e
  end.

End observe.

(** ** Sample inputs

    Concrete analyses, options and environments on which the theorems
    below are instantiated. *)

Module samples.
Import types config generator.

(** A case table with the rows of the Latin-1 letters only: the capitals
    from U+00C0 to U+00DE, the multiplication sign apart, are 32 below
    their small letters. *)
Definition latin1 : gostrings.CaseTable :=
  fun r => if (192 <=? r) && (r <=? 222) && negb (r =? 215) then r + 32 else r.

Definition analysisOf (name repository : string) (ports : list Port.t)
    (hc : option HealthCheck.t) (scaling : option ScalingConfig.t)
    (ac : option AppConfigContext.t) : AppAnalysis.t :=
  AppAnalysis.mk name "api" "go" "gin" "" ports hc [] [] "api" scaling ac
    "" "" repository "".

Definition appConfigOf (repository : string)
    (resources : option ResourceOverrides.t)
    (scaling : option ScalingConfig.t) (ingress : option IngressContext.t)
    (health : option HealthContext.t) : AppConfigContext.t :=
  AppConfigContext.mk "" "" "" "" repository "" "" "" "" resources scaling
    ∅ ∅ ingress health [] None None.

Definition httpPort : Port.t := Port.mk 8080 "TCP" "HTTP API".

(** The end-to-end scenario of the specification. *)
Definition orders : AppAnalysis.t :=
  analysisOf "orders" "" [httpPort] None
    (Some (ScalingConfig.mk 2 10 70 0 "")) None.

(** No ports and no scaling. *)
Definition worker : AppAnalysis.t := analysisOf "worker" "" [] None None None.

(** An analysis whose name is empty. *)
Definition unnamed : AppAnalysis.t := analysisOf "" "" [] None None None.



(** CPU request above the CPU limit, memory within bounds. *)
Definition cpuOverLimit : AppAnalysis.t :=
  analysisOf "orders" "" [httpPort] None None
    (Some (appConfigOf ""
             (Some (ResourceOverrides.mk "2000m" "" "1000m" ""))
             None None None)).

(** Scaling blocks with a field left at zero, as the analyzer builds them
    from an app config that sets only one bound: the block is stored both
    in the app config and in [analysis.Scaling]. *)
Definition minUnset : AppAnalysis.t :=
  analysisOf "orders" "" [httpPort] None
    (Some (ScalingConfig.mk 0 1 0 0 ""))
    (Some (appConfigOf "" None (Some (ScalingConfig.mk 0 1 0 0 "")) None None)).

Definition maxUnset : AppAnalysis.t :=
  analysisOf "orders" "" [httpPort] None
    (Some (ScalingConfig.mk 5 0 0 0 ""))
    (Some (appConfigOf "" None (Some (ScalingConfig.mk 5 0 0 0 "")) None None)).

(** An app-config health block with a liveness probe only; the analyzer
    copies that probe into [analysis.HealthCheck]. *)
Definition livenessOnly : AppAnalysis.t :=
  analysisOf "orders" "" [httpPort]
    (Some (HealthCheck.mk "/healthz" 8080 0 0 0 0 0))
    (Some (ScalingConfig.mk 2 10 70 0 ""))
    (Some (appConfigOf "" None None None
             (Some (HealthContext.mk "/healthz" 8080 "" 0 0 0 "")))).




Definition options : Options.t := Options.mk "default" false false false Default.

Definition optionsSkipPersona : Options.t :=
  Options.mk "default" false false true Default.

(** A serializer that always succeeds, and one that always fails. *)
Definition marshalKind (obj : Manifest) : Result string :=
  Ok match obj with
     | DeploymentObj d => "kind: " +:+ DeploymentManifest.Kind d
     | ServiceObj s => "kind: " +:+ ServiceManifest.Kind s
     | IngressObj i => "kind: " +:+ IngressManifest.Kind i
     | HPAObj h => "kind: " +:+ HPAManifest.Kind h
     | ArgoCDObj a => "kind: " +:+ ArgoCDApplication.Kind a
     end.

(** No API key anywhere: [llm.NewClient] fails for the default provider. *)
Definition offline : llm.World :=
  llm.mkWorld (fun _ => "") None (fun _ _ => Err "unreachable").

(** An API key in the environment and a provider that answers. *)
Definition online : llm.World :=
  llm.mkWorld
    (fun v => if String.eqb v "OPENAI_API_KEY" then "sk-test" else "")
    None (fun _ _ => Ok "# orders, as described by the model").

(** An API key for a provider that is not the configured one:
    [llm.NewClient] fails as in [offline]. *)
Definition otherKey : llm.World :=
  llm.mkWorld
    (fun v => if String.eqb v "ANTHROPIC_API_KEY" then "sk-ant-test" else "")
    (Some "") (fun _ _ => Ok "# never asked").

(** As [online], with another answer from the provider. *)
Definition online' : llm.World :=
  llm.mkWorld
    (fun v => if String.eqb v "OPENAI_API_KEY" then "sk-test" else "")
    None (fun _ _ => Ok "# orders, described differently").

End samples.

(** * Properties *)

Import types config generator observe.

(** ** The validator *)

Section ValidatorFacts.

Implicit Types (analysis : AppAnalysis.t) (opts : Options.t).
Implicit Types (result : ValidationResult.t) (issue : ValidationIssue.t).

Lemma appendIf_Passed c issue result :
  ValidationResult.Passed (appendIf c issue result)
  = ValidationResult.Passed result.
Proof. by destruct c. Qed.

Lemma appendIf_Issues c issue result :
  ValidationResult.Issues (appendIf c issue result)
  = (ValidationResult.Issues result ++ if c then [issue] else [])%list.
Proof. destruct c; simpl; [done | by rewrite app_nil_r]. Qed.

Lemma appendIf_keeps c issue result i :
  In i (ValidationResult.Issues result) ->
  In i (ValidationResult.Issues (appendIf c issue result)).
Proof. rewrite appendIf_Issues, in_app_iff. by left. Qed.

(** No rule touches [Passed]. *)
Ltac rule_passed :=
  repeat first
    [ progress rewrite ?appendIf_Passed
    | progress simpl
    | match goal with
      | |- context [match ?x with _ => _ end] => destruct x
      end ];
  try done.

Lemma validateImagePlaceholder_Passed analysis opts result :
  ValidationResult.Passed (validateImagePlaceholder analysis opts result)
  = ValidationResult.Passed result.
Proof. unfold validateImagePlaceholder, appendIssue. rule_passed. Qed.

Lemma validateResourceRequestsVsLimits_Passed analysis opts result :
  ValidationResult.Passed (validateResourceRequestsVsLimits analysis opts result)
  = ValidationResult.Passed result.
Proof. unfold validateResourceRequestsVsLimits. by rewrite !appendIf_Passed. Qed.

Lemma validateServicePortMatch_Passed analysis result :
  ValidationResult.Passed (validateServicePortMatch analysis result)
  = ValidationResult.Passed result.
Proof.
  unfold validateServicePortMatch.
  destruct (AppAnalysis.Ports analysis); [done |].
  destruct (AppAnalysis.HealthCheck analysis); [| done].
  apply appendIf_Passed.
Qed.

Lemma validateHPAMinMax_Passed analysis result :
  ValidationResult.Passed (validateHPAMinMax result analysis)
  = ValidationResult.Passed result.
Proof.
  unfold validateHPAMinMax.
  destruct (effectiveScaling analysis); [apply appendIf_Passed | done].
Qed.

Lemma validateIngressHost_Passed analysis opts result :
  ValidationResult.Passed (validateIngressHost analysis opts result)
  = ValidationResult.Passed result.
Proof. apply appendIf_Passed. Qed.

Lemma validateHealthProbes_Passed analysis result :
  ValidationResult.Passed (validateHealthProbes analysis result)
  = ValidationResult.Passed result.
Proof. apply appendIf_Passed. Qed.

Lemma validateMissingRequiredFields_Passed analysis result :
  ValidationResult.Passed (validateMissingRequiredFields analysis result)
  = ValidationResult.Passed result.
Proof. unfold validateMissingRequiredFields. by rewrite !appendIf_Passed. Qed.

Lemma runRules_Passed analysis opts :
  ValidationResult.Passed (runRules analysis opts) = true.
Proof.
  unfold runRules.
  by rewrite validateMissingRequiredFields_Passed, validateHealthProbes_Passed,
    validateIngressHost_Passed, validateHPAMinMax_Passed,
    validateServicePortMatch_Passed, validateResourceRequestsVsLimits_Passed,
    validateImagePlaceholder_Passed.
Qed.

Lemma appendIf_monotone c issue : monotone (appendIf c issue).
Proof. intros result i. apply appendIf_keeps. Qed.

Lemma monotone_compose f g : monotone f -> monotone g -> monotone (fun r => g (f r)).
Proof. intros Hf Hg result i Hi. by apply Hg, Hf. Qed.

Lemma validateResourceRequestsVsLimits_monotone analysis opts :
  monotone (validateResourceRequestsVsLimits analysis opts).
Proof.
  intros result i Hi. unfold validateResourceRequestsVsLimits.
  by do 2 apply appendIf_keeps.
Qed.

Lemma validateServicePortMatch_monotone analysis :
  monotone (validateServicePortMatch analysis).
Proof.
  intros result i Hi. unfold validateServicePortMatch.
  destruct (AppAnalysis.Ports analysis); [done |].
  destruct (AppAnalysis.HealthCheck analysis); [| done].
  by apply appendIf_keeps.
Qed.

Lemma validateHPAMinMax_monotone analysis :
  monotone (fun result => validateHPAMinMax result analysis).
Proof.
  intros result i Hi. unfold validateHPAMinMax.
  destruct (effectiveScaling analysis); [by apply appendIf_keeps | done].
Qed.

Lemma validateMissingRequiredFields_monotone analysis :
  monotone (validateMissingRequiredFields analysis).
Proof.
  intros result i Hi. unfold validateMissingRequiredFields.
  by do 2 apply appendIf_keeps.
Qed.

Lemma validateImagePlaceholder_note analysis opts result :
  In latestTagNote
     (ValidationResult.Issues (validateImagePlaceholder analysis opts result)).
Proof.
  unfold validateImagePlaceholder, appendIssue. simpl.
  apply in_app_iff. right. by left.
Qed.

Lemma runRules_note analysis opts :
  In latestTagNote (ValidationResult.Issues (runRules analysis opts)).
Proof.
  unfold runRules.
  apply validateMissingRequiredFields_monotone, appendIf_keeps,
    appendIf_keeps, validateHPAMinMax_monotone,
    validateServicePortMatch_monotone,
    validateResourceRequestsVsLimits_monotone, validateImagePlaceholder_note.
Qed.

Lemma existsb_isError_false (issues : list ValidationIssue.t) :
  existsb (fun i => isError (ValidationIssue.Severity i)) issues = false <->
  forall i, In i issues -> ValidationIssue.Severity i <> SeverityError.
Proof.
  induction issues as [| j issues IH]; simpl.
  - split; [intros _ i [] | done].
  - rewrite orb_false_iff, IH. split.
    + intros [Hj Hall] i [<- | Hi]; [| by apply Hall].
      intros Heq. by rewrite Heq in Hj.
    + intros Hall. split; [| intros i Hi; apply Hall; by right].
      specialize (Hall j (or_introl eq_refl)).
      by destruct (ValidationIssue.Severity j).
Qed.

End ValidatorFacts.

(** C2.  For every analysis, generated files and options, the result of
    [ValidateGenerated] has [Passed = true] exactly when none of its issues
    has severity [error]. *)
Theorem ValidateGenerated_passed_iff_no_error
    (analysis : AppAnalysis.t) (files : list GeneratedFile.t) (opts : Options.t) :
  ValidationResult.Passed (ValidateGenerated analysis files opts) = true <->
  forall i,
    In i (ValidationResult.Issues (ValidateGenerated analysis files opts)) ->
    ValidationIssue.Severity i <> SeverityError.
Proof.
  unfold ValidateGenerated. simpl.
  rewrite <- existsb_isError_false, runRules_Passed.
  by destruct (existsb _ _).
Qed.

(** C9.  Whatever the input, the result of [ValidateGenerated] holds the
    info-severity note on the [:latest] image tag, so its issue list is
    never empty and its summary is never the all-passed text. *)
Theorem ValidateGenerated_never_empty
    (analysis : AppAnalysis.t) (files : list GeneratedFile.t) (opts : Options.t) :
  let result := ValidateGenerated analysis files opts in
  In latestTagNote (ValidationResult.Issues result)
  /\ ValidationIssue.Severity latestTagNote = SeverityInfo
  /\ (1 <= length (ValidationResult.Issues result))%nat
  /\ ValidationResult.Summary result <> "All validation checks passed".
Proof.
  unfold ValidateGenerated. simpl.
  pose proof (runRules_note analysis opts) as Hnote.
  destruct (ValidationResult.Issues (runRules analysis opts)) as [| i issues];
    [destruct Hnote |].
  repeat split; [done | simpl; lia |].
  unfold summaryOf. simpl. discriminate.
Qed.

(** C10.  The result of [ValidateGenerated] does not depend on the list of
    generated files it is given. *)
Theorem ValidateGenerated_ignores_files
    (analysis : AppAnalysis.t) (files1 files2 : list GeneratedFile.t)
    (opts : Options.t) :
  ValidateGenerated analysis files1 opts = ValidateGenerated analysis files2 opts.
Proof. reflexivity. Qed.

(** ** The orchestrator *)

Section GenerateFacts.

Context {table : gostrings.CaseTable}.

Variable yamlMarshal : Manifest -> Result string.

Implicit Types (analysis : AppAnalysis.t) (opts : Options.t).
Implicit Types (files : list GeneratedFile.t) (w : llm.World).

Lemma incl_snoc (P : list string) files f :
  incl (map GeneratedFile.Path files) P ->
  In (GeneratedFile.Path f) P ->
  incl (map GeneratedFile.Path (files ++ [f])) P.
Proof.
  intros Hfiles Hf. rewrite map_app. apply incl_app; [done |].
  intros p [<- | []]. done.
Qed.

Ltac known_path :=
  unfold possiblePaths;
  repeat match goal with
         | H : _ = _ |- _ => rewrite H
         end;
  simpl; rewrite ?in_app_iff; simpl; tauto.

Lemma addDeployment_paths analysis opts files :
  addDeployment yamlMarshal analysis opts = Ok files ->
  incl (map GeneratedFile.Path files) (possiblePaths analysis).
Proof.
  unfold addDeployment, bind.
  destruct (GenerateDeployment _ _ _ _ _); [| done].
  intros [= <-]. intros p [<- | []]. by left.
Qed.

Lemma addServiceAndIngress_paths analysis opts files files' :
  addServiceAndIngress yamlMarshal analysis opts files = Ok files' ->
  incl (map GeneratedFile.Path files) (possiblePaths analysis) ->
  incl (map GeneratedFile.Path files') (possiblePaths analysis).
Proof.
  unfold addServiceAndIngress, bind. intros Hstep Hfiles.
  destruct (AppAnalysis.Ports analysis) as [| p ports] eqn:Hports; simpl in Hstep.
  { by injection Hstep as <-. }
  destruct (GenerateService _ _ _ _); [| done].
  assert (incl (map GeneratedFile.Path
                  (files ++ [GeneratedFile.mk "service.yaml" a]))
               (possiblePaths analysis)) as Hservice.
  { apply incl_snoc; [done |]. known_path. }
  destruct (hasHTTPPort _); [| by injection Hstep as <-].
  destruct (GenerateIngress _ _ _ _); [| done].
  injection Hstep as <-. apply incl_snoc; [done |]. known_path.
Qed.

Lemma addHPA_paths analysis opts files files' :
  addHPA yamlMarshal analysis opts files = Ok files' ->
  incl (map GeneratedFile.Path files) (possiblePaths analysis) ->
  incl (map GeneratedFile.Path files') (possiblePaths analysis).
Proof.
  unfold addHPA, bind. intros Hstep Hfiles.
  destruct (AppAnalysis.Scaling analysis) eqn:Hscaling;
    [| by injection Hstep as <-].
  destruct (GenerateHPA _ _ _ _); [| done].
  injection Hstep as <-. apply incl_snoc; [done |]. known_path.
Qed.

Lemma addArgoCD_paths analysis opts files files' :
  addArgoCD yamlMarshal analysis opts files = Ok files' ->
  incl (map GeneratedFile.Path files) (possiblePaths analysis) ->
  incl (map GeneratedFile.Path files') (possiblePaths analysis).
Proof.
  unfold addArgoCD, bind. intros Hstep Hfiles.
  destruct (negb _); [| by injection Hstep as <-].
  destruct (GenerateArgoCD _ _ _ _); [| done].
  injection Hstep as <-. apply incl_snoc; [done |]. known_path.
Qed.

Lemma addCI_paths analysis opts files files' :
  addCI analysis opts files = Ok files' ->
  incl (map GeneratedFile.Path files) (possiblePaths analysis) ->
  incl (map GeneratedFile.Path files') (possiblePaths analysis).
Proof.
  unfold addCI, bind, GenerateGitHubActions. intros Hstep Hfiles.
  destruct (negb _); injection Hstep as <-; [| done].
  apply incl_snoc; [done |]. known_path.
Qed.

Lemma addPersona_paths w analysis opts files :
  incl (map GeneratedFile.Path files) (possiblePaths analysis) ->
  incl (map GeneratedFile.Path (fst (addPersona w analysis opts files)))
       (possiblePaths analysis).
Proof.
  unfold addPersona. intros Hfiles.
  destruct (negb _); [| done].
  destruct (GeneratePersonaYAML _ _ _); simpl;
    repeat (apply incl_snoc; [| known_path]); done.
Qed.

(** Every path returned by [Generate] is one of [possiblePaths]. *)
Lemma Generate_paths w analysis opts :
  incl (emittedPaths (fst (Generate yamlMarshal w analysis opts)))
       (possiblePaths analysis).
Proof.
  unfold Generate, bind.
  destruct (addDeployment _ _ _) as [f1 |] eqn:H1; [| by intros p []].
  apply addDeployment_paths in H1.
  destruct (addServiceAndIngress _ _ _ _) as [f2 |] eqn:H2; [| by intros p []].
  apply addServiceAndIngress_paths in H2; [| done].
  destruct (addHPA _ _ _ _) as [f3 |] eqn:H3; [| by intros p []].
  apply addHPA_paths in H3; [| done].
  destruct (addArgoCD _ _ _ _) as [f4 |] eqn:H4; [| by intros p []].
  apply addArgoCD_paths in H4; [| done].
  destruct (addCI _ _ _) as [f5 |] eqn:H5; [| by intros p []].
  apply addCI_paths in H5; [| done].
  pose proof (addPersona_paths w analysis opts f5 H5) as H6.
  by destruct (addPersona _ _ _ _).
Qed.

End GenerateFacts.

(** C5.  With an empty port list [Generate] returns neither [service.yaml]
    nor [ingress.yaml], and with no scaling block it returns no
    [hpa.yaml], whatever the other fields, the options, the serializer and
    the environment. *)
Theorem Generate_conditional_emission {table : gostrings.CaseTable}
    (yamlMarshal : Manifest -> Result string) (w : llm.World)
    (analysis : AppAnalysis.t) (opts : Options.t) :
  let paths := emittedPaths (fst (Generate yamlMarshal w analysis opts)) in
  (AppAnalysis.Ports analysis = [] ->
   ~ In "service.yaml" paths /\ ~ In "ingress.yaml" paths)
  /\ (AppAnalysis.Scaling analysis = None -> ~ In "hpa.yaml" paths).
Proof.
  pose proof (Generate_paths yamlMarshal w analysis opts) as Hpaths.
  simpl. split.
  - intros Hports.
    split; intros Hin; apply Hpaths in Hin; revert Hin;
      unfold possiblePaths; rewrite Hports;
      destruct (AppAnalysis.Scaling analysis); simpl;
      intuition discriminate.
  - intros Hscaling Hin. apply Hpaths in Hin. revert Hin.
    unfold possiblePaths. rewrite Hscaling.
    destruct (AppAnalysis.Ports analysis); simpl; intuition discriminate.
Qed.

(** The hypotheses of C5 hold of [samples.worker], which has no port and
    no scaling block. *)
Lemma Generate_conditional_emission_witness :
  let paths :=
    emittedPaths
      (fst (Generate (table := samples.latin1) samples.marshalKind
              samples.offline samples.worker samples.options)) in
  (~ In "service.yaml" paths /\ ~ In "ingress.yaml" paths)
  /\ ~ In "hpa.yaml" paths.
Proof.
  destruct (Generate_conditional_emission (table := samples.latin1)
              samples.marshalKind samples.offline
              samples.worker samples.options) as [Hports Hscaling].
  split; [apply Hports | apply Hscaling]; reflexivity.
Defined.

(** C6, as stated, fails: with the same analysis, options and serializer,
    [Generate] returns different document lists in an environment without
    an API key (basic persona) and in one where the provider answers. *)
Lemma Generate_not_deterministic :
  ~ (forall (table : gostrings.CaseTable)
            (yamlMarshal : Manifest -> Result string)
            (analysis : AppAnalysis.t) (opts : Options.t) (w1 w2 : llm.World),
       fst (Generate yamlMarshal w1 analysis opts)
       = fst (Generate yamlMarshal w2 analysis opts)).
Proof.
  intros Hsame.
  specialize (Hsame samples.latin1 samples.marshalKind samples.orders
                samples.options samples.offline samples.online).
  apply (f_equal (contentOf "../PERSONA.md")) in Hsame.
  vm_compute in Hsame. discriminate Hsame.
Qed.

(** C6, amended.  Of two invocations of [Generate] on the same input in
    two environments: the error, or the document list with its paths, its
    order and every content but that of [../PERSONA.md], is the same, and
    so is the text printed; the two results are equal whenever persona
    generation is skipped or the persona text obtained from the
    environment is the same in both; and when they are equal, persona
    generation is skipped, or [Generate] fails, or that text is the
    same. *)
Theorem Generate_deterministic_up_to_persona {table : gostrings.CaseTable}
    (yamlMarshal : Manifest -> Result string)
    (analysis : AppAnalysis.t) (opts : Options.t) (w1 w2 : llm.World) :
  let r1 := Generate yamlMarshal w1 analysis opts in
  let r2 := Generate yamlMarshal w2 analysis opts in
  let persona w := personaDocument w analysis (Options.Config opts) in
  exceptPersonaText (fst r1) = exceptPersonaText (fst r2)
  /\ snd r1 = snd r2
  /\ (Options.SkipPersona opts = true \/ persona w1 = persona w2 -> r1 = r2)
  /\ (r1 = r2 ->
      Options.SkipPersona opts = true \/ isErr (fst r1) = true
      \/ persona w1 = persona w2).
Proof.
  cbv zeta. unfold Generate.
  destruct (bind _ _) as [files |]; [| by repeat split; auto].
  unfold addPersona, personaDocument.
  destruct (Options.SkipPersona opts); [by repeat split; auto |].
  cbn [negb].
  set (p1 := match generatePersona w1 analysis (Options.Config opts) with
             | Ok persona => persona
             | Err _ => generateBasicPersona analysis
             end).
  set (p2 := match generatePersona w2 analysis (Options.Config opts) with
             | Ok persona => persona
             | Err _ => generateBasicPersona analysis
             end).
  destruct (GeneratePersonaYAML analysis (Options.Namespace opts)
              (Options.Config opts)) as [yaml | err]; cbn [fst snd].
  - split; [| split; [done | split]].
    + unfold exceptPersonaText, withoutPersonaText.
      by rewrite !map_app.
    + intros [Hskip | Hsame]; [done | by rewrite Hsame].
    + intros Heq. right. right.
      injection Heq as Heq.
      apply app_inj_tail in Heq as [Heq _].
      apply app_inj_tail in Heq as [_ Heq].
      by injection Heq.
  - split; [| split; [done | split]].
    + unfold exceptPersonaText, withoutPersonaText.
      by rewrite !map_app.
    + intros [Hskip | Hsame]; [done | by rewrite Hsame].
    + intros Heq. right. right.
      injection Heq as Heq.
      apply app_inj_tail in Heq as [_ Heq].
      by injection Heq.
Qed.

(** The amended C6 at the sample analysis: an environment without an API
    key and one where the provider answers give the same documents apart
    from the persona text, and two environments in which no client can be
    created give the same result. *)
Lemma Generate_deterministic_up_to_persona_witness :
  exceptPersonaText
    (fst (Generate (table := samples.latin1) samples.marshalKind
            samples.offline samples.orders samples.options))
  = exceptPersonaText
      (fst (Generate (table := samples.latin1) samples.marshalKind
              samples.online samples.orders samples.options))
  /\ Generate (table := samples.latin1) samples.marshalKind samples.offline
       samples.orders samples.options
     = Generate (table := samples.latin1) samples.marshalKind samples.otherKey
         samples.orders samples.options.
Proof.
  destruct (Generate_deterministic_up_to_persona (table := samples.latin1)
              samples.marshalKind samples.orders samples.options
              samples.offline samples.online) as (Hrest & _).
  destruct (Generate_deterministic_up_to_persona (table := samples.latin1)
              samples.marshalKind samples.orders samples.options
              samples.offline samples.otherKey) as (_ & _ & Hsame & _).
  split; [exact Hrest |]. apply Hsame. right. reflexivity.
Defined.

(** ** Errors of the per-document functions *)

(** C8, as stated, fails: for an analysis with an empty name the CI
    pipeline function returns no error, and neither does the workload
    function when serialization succeeds. *)
Lemma empty_name_not_rejected :
  AppAnalysis.Name samples.unnamed = ""
  /\ isErr (GenerateGitHubActions samples.unnamed Default) = false
  /\ isErr (GenerateDeployment (table := samples.latin1) samples.marshalKind
              samples.unnamed "default"
              (GetResourcesForProfile Default "api") Default) = false.
Proof. repeat split. Qed.

(** C8, amended.  The workload, network-exposure, endpoint, autoscaling
    and GitOps functions return an error exactly when the serialization of
    their structured object fails, whether or not the name is empty; the CI
    pipeline function never returns an error; the structured persona
    function returns an error exactly when the name is empty.  Hence, with
    a non-empty name, a serialization failure is the only source of an
    error. *)
Theorem generator_errors {table : gostrings.CaseTable}
    (yamlMarshal : Manifest -> Result string) (analysis : AppAnalysis.t)
    (namespace : string) (resources : ResourceSpec.t) (cfg : Config.t) :
  isErr (GenerateDeployment yamlMarshal analysis namespace resources cfg)
  = isErr (yamlMarshal
             (DeploymentObj (deploymentManifest analysis namespace resources cfg)))
  /\ isErr (GenerateService yamlMarshal analysis namespace cfg)
     = isErr (yamlMarshal (ServiceObj (serviceManifest analysis namespace cfg)))
  /\ isErr (GenerateIngress yamlMarshal analysis namespace cfg)
     = isErr (yamlMarshal (IngressObj (ingressManifest analysis namespace cfg)))
  /\ isErr (GenerateHPA yamlMarshal analysis namespace cfg)
     = isErr (yamlMarshal (HPAObj (hpaManifest analysis namespace cfg)))
  /\ isErr (GenerateArgoCD yamlMarshal analysis namespace cfg)
     = isErr (yamlMarshal (ArgoCDObj (argoCDApplication analysis namespace cfg)))
  /\ isErr (GenerateGitHubActions analysis cfg) = false
  /\ isErr (GeneratePersonaYAML analysis namespace cfg)
     = isEmpty (AppAnalysis.Name analysis).
Proof.
  unfold GenerateDeployment, GenerateService, GenerateIngress, GenerateHPA,
    GenerateArgoCD, toYAML, GeneratePersonaYAML.
  repeat split;
    try match goal with
        | |- context [yamlMarshal ?obj] => by destruct (yamlMarshal obj)
        end.
  by destruct (isEmpty (AppAnalysis.Name analysis)).
Qed.

(** ** Override precedence *)

Section OverrideFacts.

Context {table : gostrings.CaseTable}.

Implicit Types (analysis : AppAnalysis.t) (cfg : Config.t).

Lemma isEmpty_false (s : string) : s <> "" -> isEmpty s = false.
Proof. intros Hs. by apply String.eqb_neq. Qed.

Lemma isEmpty_true (s : string) : isEmpty s = true -> s = "".
Proof. apply String.eqb_eq. Qed.


Lemma deployment_container analysis namespace resources cfg :
  exists c,
    container (deploymentManifest analysis namespace resources cfg) = Some c
    /\ Container.Resources c
       = ResourceRequirements.mk
           (resourceMap
              (ResourceSpec.Requests (applyResourceOverrides analysis resources)))
           (resourceMap
              (ResourceSpec.Limits (applyResourceOverrides analysis resources)))
    /\ (Container.LivenessProbe c, Container.ReadinessProbe c)
       = deploymentProbes analysis.
Proof.
  unfold deploymentManifest, container.
  destruct (deploymentProbes analysis) as [liveness readiness].
  eexists. simpl. repeat split.
Qed.

Lemma resourceMap_cpu (v : ResourceValues.t) :
  resourceMap v !! "cpu" = Some (ResourceValues.CPU v).
Proof. unfold resourceMap. by rewrite lookup_insert_eq. Qed.

Lemma resourceMap_memory (v : ResourceValues.t) :
  resourceMap v !! "memory" = Some (ResourceValues.Memory v).
Proof.
  unfold resourceMap. rewrite lookup_insert_ne by done.
  by rewrite lookup_insert_eq.
Qed.

Lemma positiveOr_pos (v d : Z) : 0 < v -> positiveOr v d = v.
Proof. intros Hv. unfold positiveOr. by rewrite (proj2 (Z.ltb_lt 0 v) Hv). Qed.

End OverrideFacts.

(** *** Text of the persona documents *)

Section TextFacts.

Implicit Types (s t u sub : string).









Lemma append_nil_r s : s +:+ "" = s.
Proof.
  induction s as [| c s IH]; [done |].
  change (String c (s +:+ "") = String c s). by rewrite IH.
Qed.

Lemma concatMap_cons {A} (f : A -> string) (x : A) (l : list A) :
  concatMap f (x :: l) = f x +:+ concatMap f l.
Proof.
  unfold concatMap. destruct l as [| y l]; simpl.
  - by rewrite append_nil_r.
  - done.
Qed.


End TextFacts.


Section PersonaFacts.

Implicit Types (analysis : AppAnalysis.t) (cfg : Config.t) (sub : string).















End PersonaFacts.

(** ** The label and annotation maps *)

Section LabelFacts.

Implicit Types (analysis : AppAnalysis.t) (cfg : Config.t).

Lemma buildLabels_unfold analysis cfg :
  exists base : gmap string string,
    buildLabelsWithAppConfig analysis cfg
    = expected.appLabels analysis ∪ (LabelConfig.Custom (Config.Labels cfg) ∪ base)
    /\ base !! expected.nameLabel = Some (AppAnalysis.Name analysis)
    /\ base !! "app.kubernetes.io/managed-by" = Some "dorgu".
Proof.
  unfold buildLabelsWithAppConfig, expected.appLabels, setAll,
    expected.nameLabel.
  eexists. split.
  - destruct (AppAnalysis.AppConfig analysis); [reflexivity |].
    by rewrite (left_id_L ∅ (∪)).
  - destruct (negb (isEmpty (AppAnalysis.Team analysis))),
      (negb (isEmpty (AppAnalysis.Environment analysis)));
      by simplify_map_eq.
Qed.



End LabelFacts.




(** ** Autoscaling bounds: the validator against the document *)

(** When both bounds of the effective scaling block are positive, the
    validator compares the very values of the autoscaling document. *)
Lemma validateHPAMinMax_agrees_when_positive
    (analysis : AppAnalysis.t) (sc : ScalingConfig.t) (namespace : string)
    (cfg : Config.t) :
  effectiveScaling analysis = Some sc ->
  0 < ScalingConfig.MinReplicas sc ->
  0 < ScalingConfig.MaxReplicas sc ->
  HPASpec.MinReplicas (HPAManifest.Spec (hpaManifest analysis namespace cfg))
  = ScalingConfig.MinReplicas sc
  /\ HPASpec.MaxReplicas (HPAManifest.Spec (hpaManifest analysis namespace cfg))
     = ScalingConfig.MaxReplicas sc.
Proof.
  intros Hsc Hmin Hmax. unfold hpaManifest, hpaValues.
  unfold effectiveScaling in Hsc.
  destruct (AppAnalysis.AppConfig analysis) as [ac |];
    [destruct (AppConfigContext.Scaling ac) as [sc' |] |];
    try (injection Hsc as ->); try rewrite Hsc; simpl;
    by rewrite !positiveOr_pos.
Qed.

(** C3 fails on the code.  For the scaling block [{min 0, max 1}] the
    autoscaling document has [minReplicas = 2 > maxReplicas = 1] and the
    validator reports nothing; for [{min 5, max 0}] the document has
    [5 <= 10] and the validator reports an error. *)
Lemma validateHPAMinMax_misses_defaults :
  let start := ValidationResult.mk [] true "" in
  let low := HPAManifest.Spec (hpaManifest samples.minUnset "default" Default) in
  let high := HPAManifest.Spec (hpaManifest samples.maxUnset "default" Default) in
  (HPASpec.MinReplicas low = 2 /\ HPASpec.MaxReplicas low = 1
   /\ ValidationResult.Issues (validateHPAMinMax start samples.minUnset) = [])
  /\ (HPASpec.MinReplicas high = 5 /\ HPASpec.MaxReplicas high = 10
      /\ map ValidationIssue.Message
            (ValidationResult.Issues (validateHPAMinMax start samples.maxUnset))
         = ["HPA minReplicas (5) > maxReplicas (0)"]).
Proof. repeat split. Qed.

(** ** Health probes *)

(** In the workload document a readiness probe from the app config exists
    only if the app config has a readiness path. *)
Lemma deploymentProbes_liveness_only
    (analysis : AppAnalysis.t) (ac : AppConfigContext.t) (h : HealthContext.t) :
  AppAnalysis.AppConfig analysis = Some ac ->
  AppConfigContext.Health ac = Some h ->
  HealthContext.LivenessPath h <> "" ->
  HealthContext.ReadinessPath h = "" ->
  snd (deploymentProbes analysis) = None.
Proof.
  intros Hac Hh Hlive Hready. unfold deploymentProbes, appConfigProbes.
  rewrite Hac, Hh, Hready, (isEmpty_false _ Hlive). simpl.
  by destruct (AppAnalysis.HealthCheck analysis).
Qed.

(** The structured persona gives the readiness path the value of the
    liveness path in that case. *)
Lemma personaHealth_readiness_defaults
    (analysis : AppAnalysis.t) (ac : AppConfigContext.t) (h : HealthContext.t) :
  AppAnalysis.AppConfig analysis = Some ac ->
  AppConfigContext.Health ac = Some h ->
  HealthContext.LivenessPath h <> "" ->
  HealthContext.ReadinessPath h = "" ->
  let '(liveness, readiness, _, _) := personaHealth analysis in
  liveness = HealthContext.LivenessPath h /\ readiness = liveness.
Proof.
  intros Hac Hh Hlive Hready. unfold personaHealth.
  rewrite Hac, Hh, Hready. simpl.
  destruct (AppAnalysis.HealthCheck analysis);
    rewrite ?(isEmpty_false _ Hlive); simpl; done.
Qed.

(** With no health block in the app config, both probes of the workload
    document are the one built from [analysis.HealthCheck]. *)
Lemma deploymentProbes_from_health_check
    (analysis : AppAnalysis.t) (hc : HealthCheck.t) :
  AppAnalysis.AppConfig analysis = None ->
  AppAnalysis.HealthCheck analysis = Some hc ->
  deploymentProbes analysis
  = (Some (healthCheckProbe hc), Some (healthCheckProbe hc)).
Proof.
  intros Hac Hhc. unfold deploymentProbes, appConfigProbes.
  by rewrite Hac, Hhc.
Qed.

(** C7 fails on the code.  With an app-config health block that has the
    liveness path [/healthz] and no readiness path, the container of the
    workload document has a liveness probe on [/healthz] and no readiness
    probe, while the structured persona reports [/healthz] as readiness
    path. *)
Lemma deployment_omits_readiness_probe :
  (exists c liveness,
     container (deploymentManifest (table := samples.latin1)
                  samples.livenessOnly "default"
                  (GetResourcesForProfile Default "api") Default) = Some c
     /\ Container.LivenessProbe c = Some liveness
     /\ probePath liveness = Some "/healthz"
     /\ Container.ReadinessProbe c = None)
  /\ personaHealth samples.livenessOnly = ("/healthz", "/healthz", 8080, "").
Proof. split; [do 2 eexists |]; repeat split. Qed.

(** ** Resource quantities *)

Lemma exceeds_le (req lim : Z) : req <= lim -> exceeds req lim = false.
Proof.
  intros Hle. unfold exceeds.
  rewrite (proj2 (Z.ltb_ge lim req) Hle). by rewrite andb_false_r.
Qed.

(** C4.  [parseCPUMillis] reads ["2000m"] and ["2"] as 2000 milli-units;
    [parseMemoryBytes] reads ["1Gi"] as 1073741824 bytes, the suffixes
    [Ki], [Mi], [Gi], [Ti] multiply by the first four powers of 1024 and a
    number without suffix is taken as bytes; and when the merged resource
    spec requests ["2000m"] of CPU under a limit of ["1000m"], with a
    memory request that does not exceed the memory limit, the resource
    bounds check appends exactly one issue, of severity [error] and
    category ["resources"]. *)
Theorem resource_bounds_check
    (analysis : AppAnalysis.t) (opts : Options.t) (result : ValidationResult.t) :
  (parseCPUMillis "2000m" = 2000
   /\ parseCPUMillis "2" = 2000
   /\ parseMemoryBytes "1Gi" = 1073741824
   /\ multipliers
      = [("Ki", 1024 ^ 1); ("Mi", 1024 ^ 2); ("Gi", 1024 ^ 3); ("Ti", 1024 ^ 4)]
   /\ parseMemoryBytes "1Ki" = 1024 ^ 1
   /\ parseMemoryBytes "1Mi" = 1024 ^ 2
   /\ parseMemoryBytes "1Ti" = 1024 ^ 4
   /\ parseMemoryBytes "4096" = 4096)
  /\ (let resources := validatedResources analysis opts in
      ResourceValues.CPU (ResourceSpec.Requests resources) = "2000m" ->
      ResourceValues.CPU (ResourceSpec.Limits resources) = "1000m" ->
      parseMemoryBytes (ResourceValues.Memory (ResourceSpec.Requests resources))
      <= parseMemoryBytes (ResourceValues.Memory (ResourceSpec.Limits resources)) ->
      exists issue,
        ValidationResult.Issues
          (validateResourceRequestsVsLimits analysis opts result)
        = (ValidationResult.Issues result ++ [issue])%list
        /\ ValidationIssue.Severity issue = SeverityError
        /\ ValidationIssue.Category issue = "resources").
Proof.
  split; [by vm_compute |].
  intros resources Hreq Hlim Hmem. subst resources.
  unfold validateResourceRequestsVsLimits.
  rewrite Hreq, Hlim, (exceeds_le _ _ Hmem).
  replace (exceeds (parseCPUMillis "2000m") (parseCPUMillis "1000m"))
    with true by (by vm_compute).
  simpl. eexists. repeat split.
Qed.

(** The hypotheses of C4 hold of [samples.cpuOverLimit], whose app config
    sets [requests.cpu = "2000m"] and [limits.cpu = "1000m"] over the
    [api] profile (memory 256Mi under 1Gi). *)
Lemma resource_bounds_check_witness :
  exists issue,
    ValidationResult.Issues
      (validateResourceRequestsVsLimits samples.cpuOverLimit samples.options
         (ValidationResult.mk [] true ""))
    = [issue]
    /\ ValidationIssue.Severity issue = SeverityError
    /\ ValidationIssue.Category issue = "resources".
Proof.
  destruct (resource_bounds_check samples.cpuOverLimit samples.options
              (ValidationResult.mk [] true "")) as [_ Hcheck].
  apply Hcheck; [reflexivity | reflexivity | by vm_compute].
Defined.

(** * Further properties *)

Import expected reporting.

(** ** The orchestrator, step by step *)

(** The fallback of [hasHTTPPort] makes it true of every non-empty port
    list. *)
Lemma hasHTTPPort_nonempty (ports : list Port.t) :
  hasHTTPPort ports = negb (bool_decide (ports = [])).
Proof.
  unfold hasHTTPPort. destruct ports as [| p ports].
  - reflexivity.
  - rewrite bool_decide_eq_false_2 by discriminate.
    simpl. apply orb_true_r.
Qed.

(** X1.  [hasHTTPPort] does not look at the ports: it holds exactly of the
    port lists that are not empty, so two lists of the same length get the
    same answer, whatever their port numbers. *)
Theorem hasHTTPPort_ignores_port_numbers (ports ports' : list Port.t) :
  (hasHTTPPort ports = true <-> ports <> [])
  /\ (length ports' = length ports -> hasHTTPPort ports' = hasHTTPPort ports).
Proof.
  rewrite !hasHTTPPort_nonempty. split.
  - destruct ports; [by split | by split].
  - by destruct ports, ports'.
Qed.

Section GenerateShape.

Context {table : gostrings.CaseTable}.

Variable yamlMarshal : Manifest -> Result string.

Implicit Types (analysis : AppAnalysis.t) (opts : Options.t) (w : llm.World).

(** The five fallible blocks of [Generate], as one computation. *)
Lemma fallible_blocks analysis opts :
  match firstError yamlMarshal (serializedObjects analysis opts) with
  | Some e =>
      bind (addDeployment yamlMarshal analysis opts) (fun files =>
      bind (addServiceAndIngress yamlMarshal analysis opts files) (fun files =>
      bind (addHPA yamlMarshal analysis opts files) (fun files =>
      bind (addArgoCD yamlMarshal analysis opts files) (fun files =>
      addCI analysis opts files)))) = Err e
  | None =>
      exists files,
        bind (addDeployment yamlMarshal analysis opts) (fun files =>
        bind (addServiceAndIngress yamlMarshal analysis opts files) (fun files =>
        bind (addHPA yamlMarshal analysis opts files) (fun files =>
        bind (addArgoCD yamlMarshal analysis opts files) (fun files =>
        addCI analysis opts files)))) = Ok files
        /\ map GeneratedFile.Path files
           = (["deployment.yaml"]
              ++ when (hasPorts analysis) ["service.yaml"; "ingress.yaml"]
              ++ when (hasScaling analysis) ["hpa.yaml"]
              ++ when (negb (Options.SkipArgoCD opts)) ["argocd/application.yaml"]
              ++ when (negb (Options.SkipCI opts))
                   ["../.github/workflows/deploy.yaml"])%list
  end.
Proof.
  unfold serializedObjects, addDeployment, addServiceAndIngress, addHPA,
    addArgoCD, addCI, GenerateDeployment, GenerateService, GenerateIngress,
    GenerateHPA, GenerateArgoCD, GenerateGitHubActions, toYAML, bind,
    hasPorts, hasScaling, when.
  rewrite hasHTTPPort_nonempty.
  destruct (AppAnalysis.Ports analysis) as [| p ports];
    destruct (AppAnalysis.Scaling analysis) as [sc |];
    destruct (Options.SkipArgoCD opts); destruct (Options.SkipCI opts);
    simpl;
    repeat match goal with
           | |- context [yamlMarshal ?obj] =>
               destruct (yamlMarshal obj); simpl
           end;
    try reflexivity; eexists; split; reflexivity.
Qed.

End GenerateShape.

Section GenerateOutcome.

Context {table : gostrings.CaseTable}.

Variable yamlMarshal : Manifest -> Result string.

Implicit Types (analysis : AppAnalysis.t) (opts : Options.t) (w : llm.World).

Lemma addPersona_paths_exact w analysis opts files :
  map GeneratedFile.Path (fst (addPersona w analysis opts files))
  = (map GeneratedFile.Path files
     ++ when (negb (Options.SkipPersona opts))
          ("../PERSONA.md"
           :: when (nonEmpty (AppAnalysis.Name analysis)) ["persona.yaml"]))%list.
Proof.
  unfold addPersona, GeneratePersonaYAML, when, nonEmpty.
  destruct (Options.SkipPersona opts); simpl; [by rewrite app_nil_r |].
  destruct (isEmpty (AppAnalysis.Name analysis)); simpl;
    by rewrite ?map_app, <- ?app_assoc.
Qed.

(** The outcome of [Generate] in terms of the first serialization error. *)
Lemma Generate_outcome w analysis opts :
  match firstError yamlMarshal (serializedObjects analysis opts) with
  | Some e => Generate yamlMarshal w analysis opts = (Err e, [])
  | None =>
      exists files,
        fst (Generate yamlMarshal w analysis opts) = Ok files
        /\ map GeneratedFile.Path files = expectedPaths analysis opts
  end.
Proof.
  pose proof (fallible_blocks yamlMarshal analysis opts) as Hblocks.
  unfold Generate.
  destruct (firstError _ _) as [e |].
  - by rewrite Hblocks.
  - destruct Hblocks as (files & -> & Hpaths).
    pose proof (addPersona_paths_exact w analysis opts files) as Hpersona.
    destruct (addPersona w analysis opts files) as [files' out].
    exists files'. split; [done |].
    simpl in Hpersona. rewrite Hpersona, Hpaths.
    unfold expectedPaths. by rewrite <- !app_assoc.
Qed.

End GenerateOutcome.

(** X2.  When [Generate] succeeds, the paths of the returned files are, in
    this order: the workload; the service and the ingress when there is a
    port; the autoscaler when [analysis.Scaling] is set; the GitOps
    application and the CI workflow unless skipped; and, unless the
    persona is skipped, the free-text persona followed by the structured
    persona when the name is not empty. *)
Theorem Generate_paths_in_order {table : gostrings.CaseTable}
    (yamlMarshal : Manifest -> Result string) (w : llm.World)
    (analysis : AppAnalysis.t) (opts : Options.t)
    (files : list GeneratedFile.t) :
  fst (Generate yamlMarshal w analysis opts) = Ok files ->
  map GeneratedFile.Path files = expectedPaths analysis opts.
Proof.
  intros Hok.
  pose proof (Generate_outcome yamlMarshal w analysis opts) as Hout.
  destruct (firstError _ _) as [e |].
  - rewrite Hout in Hok. discriminate Hok.
  - destruct Hout as (files' & Hfiles & Hpaths).
    rewrite Hfiles in Hok. by injection Hok as <-.
Qed.

(** The end-to-end scenario: eight documents, in order. *)
Lemma Generate_paths_in_order_witness :
  exists files,
    fst (Generate (table := samples.latin1) samples.marshalKind samples.offline samples.orders
           samples.options) = Ok files
    /\ map GeneratedFile.Path files
       = ["deployment.yaml"; "service.yaml"; "ingress.yaml"; "hpa.yaml";
          "argocd/application.yaml"; "../.github/workflows/deploy.yaml";
          "../PERSONA.md"; "persona.yaml"].
Proof.
  eexists. split; [reflexivity |].
  apply (Generate_paths_in_order (table := samples.latin1) samples.marshalKind samples.offline
           samples.orders samples.options).
  reflexivity.
Defined.

(** X3.  [Generate] fails exactly when one of the manifests it serializes
    does not serialize: it then returns the error of the first such
    manifest, no file, and prints nothing; otherwise it succeeds, whatever
    the name, the environment and the answer of the persona provider. *)
Theorem Generate_fails_fast {table : gostrings.CaseTable}
    (yamlMarshal : Manifest -> Result string) (w : llm.World)
    (analysis : AppAnalysis.t) (opts : Options.t) :
  (forall e,
     firstError yamlMarshal (serializedObjects analysis opts) = Some e <->
     Generate yamlMarshal w analysis opts = (Err e, []))
  /\ (firstError yamlMarshal (serializedObjects analysis opts) = None <->
      isErr (fst (Generate yamlMarshal w analysis opts)) = false).
Proof.
  pose proof (Generate_outcome yamlMarshal w analysis opts) as Hout.
  destruct (firstError _ _) as [e |].
  - rewrite Hout. split.
    + intros e'. split; intros Heq; by injection Heq as <-.
    + split; intros Heq; discriminate Heq.
  - destruct Hout as (files & Hfiles & _). split.
    + intros e. split; intros Heq; [discriminate Heq |].
      rewrite Heq in Hfiles. discriminate Hfiles.
    + by rewrite Hfiles.
Qed.

Lemma find_path_app (path : string) (files rest : list GeneratedFile.t) :
  ~ In path (map GeneratedFile.Path files) ->
  List.find (fun f => String.eqb (GeneratedFile.Path f) path) (files ++ rest)
  = List.find (fun f => String.eqb (GeneratedFile.Path f) path) rest.
Proof.
  induction files as [| f files IH]; simpl; [done |].
  intros Hnot.
  destruct (String.eqb_spec (GeneratedFile.Path f) path) as [Heq | Hne].
  - exfalso. apply Hnot. by left.
  - apply IH. intros Hin. apply Hnot. by right.
Qed.

(** X4.  The persona never makes [Generate] fail: when [Generate] succeeds
    and the persona is not skipped, [../PERSONA.md] holds the provider's
    answer, or the basic persona when the client cannot be created or the
    provider fails; and the only text printed is the warning for an empty
    name. *)
Theorem Generate_persona_fallback {table : gostrings.CaseTable}
    (yamlMarshal : Manifest -> Result string) (w : llm.World)
    (analysis : AppAnalysis.t) (opts : Options.t)
    (files : list GeneratedFile.t) :
  fst (Generate yamlMarshal w analysis opts) = Ok files ->
  Options.SkipPersona opts = false ->
  contentOf "../PERSONA.md" (Ok files)
  = Some (personaDocument w analysis (Options.Config opts))
  /\ (isErr (generatePersona w analysis (Options.Config opts)) = true ->
      contentOf "../PERSONA.md" (Ok files) = Some (generateBasicPersona analysis))
  /\ snd (Generate yamlMarshal w analysis opts)
     = if isEmpty (AppAnalysis.Name analysis)
       then ["Warning: failed to generate persona YAML: "
             +:+ "application name is required for persona generation" +:+ nl]
       else [].
Proof.
  intros Hok Hskip.
  assert (contentOf "../PERSONA.md" (Ok files)
          = Some (personaDocument w analysis (Options.Config opts))
          /\ snd (Generate yamlMarshal w analysis opts)
             = if isEmpty (AppAnalysis.Name analysis)
               then ["Warning: failed to generate persona YAML: "
                     +:+ "application name is required for persona generation"
                     +:+ nl]
               else []) as [Hdoc Hout].
  { pose proof (fallible_blocks yamlMarshal analysis opts) as Hblocks.
    unfold Generate in *.
    destruct (firstError _ _) as [e |].
    { rewrite Hblocks in Hok. discriminate Hok. }
    destruct Hblocks as (core & Hblocks & Hcore). rewrite Hblocks in *.
    assert (~ In "../PERSONA.md" (map GeneratedFile.Path core)) as Hnot.
    { rewrite Hcore. unfold when.
      destruct (hasPorts analysis), (hasScaling analysis),
        (Options.SkipArgoCD opts), (Options.SkipCI opts); simpl;
        intuition discriminate. }
    unfold addPersona, GeneratePersonaYAML, personaDocument in *.
    rewrite Hskip in *. cbn [negb] in *.
    destruct (isEmpty (AppAnalysis.Name analysis)); cbn [fst snd] in *;
      simpl in Hok; injection Hok as <-; split; try reflexivity;
      unfold contentOf; rewrite <- ?app_assoc, find_path_app by done;
      reflexivity. }
  repeat split; [done | | done].
  intros Herr. rewrite Hdoc. unfold personaDocument.
  by destruct (generatePersona _ _ _).
Qed.

(** Without an API key the default provider cannot be created, and the
    basic persona is what [Generate] stores. *)
Lemma Generate_persona_fallback_witness :
  contentOf "../PERSONA.md"
    (fst (Generate (table := samples.latin1) samples.marshalKind samples.offline samples.orders
            samples.options))
  = Some (generateBasicPersona samples.orders).
Proof.
  destruct (Generate_persona_fallback (table := samples.latin1) samples.marshalKind samples.offline
              samples.orders samples.options
              (match fst (Generate (table := samples.latin1) samples.marshalKind samples.offline
                            samples.orders samples.options) with
               | Ok files => files
               | Err _ => []
               end) eq_refl eq_refl) as (_ & Hbasic & _).
  apply Hbasic. reflexivity.
Defined.

(** ** Labels, annotations and selectors *)

(** X5.  In the label set shared by all manifests a label of the app
    config wins over an org-level custom label of the same key, an
    org-level custom label wins over the built-in labels, and the built-in
    name and managed-by labels are present when no custom label uses
    their key. *)
Theorem buildLabels_precedence
    (analysis : AppAnalysis.t) (cfg : Config.t) (k : string) :
  let labels := buildLabelsWithAppConfig analysis cfg in
  let org := LabelConfig.Custom (Config.Labels cfg) in
  (forall v, appLabels analysis !! k = Some v -> labels !! k = Some v)
  /\ (forall v, appLabels analysis !! k = None -> org !! k = Some v ->
             labels !! k = Some v)
  /\ (appLabels analysis !! nameLabel = None -> org !! nameLabel = None ->
      labels !! nameLabel = Some (AppAnalysis.Name analysis))
  /\ (appLabels analysis !! "app.kubernetes.io/managed-by" = None ->
      org !! "app.kubernetes.io/managed-by" = None ->
      labels !! "app.kubernetes.io/managed-by" = Some "dorgu").
Proof.
  destruct (buildLabels_unfold analysis cfg) as (base & Heq & Hname & Hmanaged).
  simpl. rewrite Heq. repeat split.
  - intros v Happ. by apply lookup_union_Some_l.
  - intros v Happ Horg. rewrite lookup_union_r by done.
    by apply lookup_union_Some_l.
  - intros Happ Horg. by rewrite !lookup_union_r.
  - intros Happ Horg. by rewrite !lookup_union_r.
Qed.

(** An app label and an org label on the same key: the app label wins. *)
Lemma buildLabels_precedence_witness :
  let analysis :=
    samples.analysisOf "orders" "" [] None None
      (Some (AppConfigContext.mk "" "" "" "" "" "" "" "" "" None None
               (<["tier" := "gold"]> ∅) ∅ None None [] None None)) in
  let cfg :=
    Config.mk (Config.Resources Default)
      (LabelConfig.mk [] (<["tier" := "bronze"]> (<["org" := "acme"]> ∅)))
      (Config.Annotations Default) (Config.Security Default)
      (Config.Ingress Default) (Config.ArgoCD Default) (Config.CI Default)
      (Config.LLM Default) in
  buildLabelsWithAppConfig analysis cfg !! "tier" = Some "gold"
  /\ buildLabelsWithAppConfig analysis cfg !! "org" = Some "acme"
  /\ buildLabelsWithAppConfig analysis cfg !! nameLabel = Some "orders".
Proof.
  intros analysis cfg.
  destruct (buildLabels_precedence analysis cfg "tier") as (Happ & _ & Hname & _).
  destruct (buildLabels_precedence analysis cfg "org") as (_ & Horg & _).
  split; [apply Happ; reflexivity |].
  split; [apply Horg; reflexivity | apply Hname; reflexivity].
Defined.

(** X6.  The selector of the workload document and of the service selects
    the pods of the workload exactly when the name label of the pod
    template is the application name: always when no custom label uses
    the key [app.kubernetes.io/name], and never when a custom label gives
    that key another value. *)
Theorem selector_matches_pod_labels {table : gostrings.CaseTable}
    (analysis : AppAnalysis.t) (namespace : string)
    (resources : ResourceSpec.t) (cfg : Config.t) :
  let d := deploymentManifest analysis namespace resources cfg in
  let s := serviceManifest analysis namespace cfg in
  let custom :=
    (appLabels analysis ∪ LabelConfig.Custom (Config.Labels cfg)) !! nameLabel in
  ServiceSpec.Selector (ServiceManifest.Spec s)
  = DeploymentSpec.SelectorMatchLabels (DeploymentManifest.Spec d)
  /\ (DeploymentSpec.SelectorMatchLabels (DeploymentManifest.Spec d)
      ⊆ podLabels d
      <-> custom = None \/ custom = Some (AppAnalysis.Name analysis)).
Proof.
  simpl. split; [unfold deploymentManifest; by destruct (deploymentProbes _) |].
  assert (podLabels (deploymentManifest analysis namespace resources cfg)
          = buildLabelsWithAppConfig analysis cfg) as ->.
  { unfold podLabels, deploymentManifest. by destruct (deploymentProbes _). }
  assert (DeploymentSpec.SelectorMatchLabels
            (DeploymentManifest.Spec
               (deploymentManifest analysis namespace resources cfg))
          = nameSelector analysis) as ->.
  { unfold deploymentManifest. by destruct (deploymentProbes _). }
  destruct (buildLabels_unfold analysis cfg) as (base & -> & Hname & _).
  unfold nameSelector. fold nameLabel.
  rewrite map_subseteq_spec, (assoc_L (∪)).
  set (custom := appLabels analysis ∪ LabelConfig.Custom (Config.Labels cfg)).
  split.
  - intros Hsub.
    specialize (Hsub nameLabel (AppAnalysis.Name analysis)
                  (lookup_insert_eq _ _ _)).
    rewrite lookup_union_Some_raw in Hsub. destruct Hsub as [? | [? _]]; auto.
  - intros Hcustom i x Hi.
    apply lookup_insert_Some in Hi as [[<- <-] | [_ Hi]];
      [| by rewrite lookup_empty in Hi].
    rewrite lookup_union_Some_raw. destruct Hcustom as [Hnone | Hsome]; auto.
Qed.

(** X7.  [buildAnnotationsWithAppConfig] returns no map exactly when
    neither the org configuration nor the app config has an annotation;
    otherwise, on every key, the annotation of the app config wins over
    the org-level one. *)
Theorem buildAnnotations_spec (analysis : AppAnalysis.t) (cfg : Config.t) :
  let org := AnnotationConfig.Custom (Config.Annotations cfg) in
  (buildAnnotationsWithAppConfig analysis cfg = None <->
   org = ∅ /\ appAnnotations analysis = ∅)
  /\ (forall annotations k,
        buildAnnotationsWithAppConfig analysis cfg = Some annotations ->
        annotations !! k
        = match appAnnotations analysis !! k with
          | Some v => Some v
          | None => org !! k
          end).
Proof.
  simpl.
  assert (buildAnnotationsWithAppConfig analysis cfg
          = let all := appAnnotations analysis
                       ∪ AnnotationConfig.Custom (Config.Annotations cfg) in
            if decide (size all = 0%nat) then None else Some all) as ->.
  { unfold buildAnnotationsWithAppConfig, appAnnotations, setAll.
    rewrite (right_id_L ∅ (∪)).
    destruct (AppAnalysis.AppConfig analysis); [done |].
    by rewrite (left_id_L ∅ (∪)). }
  simpl. split.
  - destruct (decide _) as [Hsize | Hsize].
    + apply map_size_empty_iff in Hsize. split; [intros _ | done].
      split; apply map_empty; intros i;
        apply (f_equal (fun m => m !! i)) in Hsize;
        rewrite lookup_empty in Hsize;
        by apply lookup_union_None in Hsize as [? ?].
    + split; [done |]. intros [Horg Happ]. exfalso. apply Hsize.
      rewrite Horg, Happ, (left_id_L ∅ (∪)). apply map_size_empty.
  - intros annotations k. destruct (decide _); [done |].
    intros [= <-]. rewrite lookup_union.
    by destruct (appAnnotations analysis !! k),
      (AnnotationConfig.Custom (Config.Annotations cfg) !! k).
Qed.

(** ** The workload document *)

(** The port and environment lists of the container. *)
Lemma deployment_container_lists {table : gostrings.CaseTable}
    (analysis : AppAnalysis.t) (namespace : string)
    (resources : ResourceSpec.t) (cfg : Config.t) :
  exists c,
    container (deploymentManifest analysis namespace resources cfg) = Some c
    /\ Container.Ports c = containerPorts analysis
    /\ Container.Env c = envVars analysis.
Proof.
  unfold deploymentManifest, container.
  destruct (deploymentProbes analysis) as [liveness readiness].
  eexists. simpl. repeat split.
Qed.

(** X8.  The ports of the container in the workload document and the
    ports of the service are built one for one from [analysis.Ports]: at
    every index the service port has the name of the container port,
    exposes the declared port number and targets the container port. *)
Theorem service_ports_target_container_ports {table : gostrings.CaseTable}
    (analysis : AppAnalysis.t) (namespace : string)
    (resources : ResourceSpec.t) (cfg : Config.t) (i : nat) :
  let servicePorts :=
    ServiceSpec.Ports (ServiceManifest.Spec (serviceManifest analysis namespace cfg)) in
  exists c,
    container (deploymentManifest analysis namespace resources cfg) = Some c
    /\ length (Container.Ports c) = length (AppAnalysis.Ports analysis)
    /\ length servicePorts = length (AppAnalysis.Ports analysis)
    /\ match AppAnalysis.Ports analysis !! i with
       | Some p =>
           exists cp sp,
             Container.Ports c !! i = Some cp
             /\ servicePorts !! i = Some sp
             /\ ContainerPort.ContainerPort cp = Port.Port p
             /\ ContainerPort.Protocol cp = "TCP"
             /\ ServicePort.Port sp = Port.Port p
             /\ ServicePort.TargetPort sp = ContainerPort.ContainerPort cp
             /\ ServicePort.Name sp = ContainerPort.Name cp
             /\ ContainerPort.Name cp = "port-" +:+ gofmt.fmt_d (Z.of_nat i)
       | None => Container.Ports c !! i = None /\ servicePorts !! i = None
       end.
Proof.
  cbv zeta.
  destruct (deployment_container_lists analysis namespace resources cfg)
    as (c & Hc & Hports & _).
  exists c. split; [exact Hc |]. rewrite Hports.
  simpl. unfold containerPorts. rewrite !length_imap, !list_lookup_imap.
  repeat split.
  destruct (AppAnalysis.Ports analysis !! i) as [p |]; simpl; [| done].
  do 2 eexists. repeat split.
Qed.

Lemma lowerAscii_not_upper (c : ascii) :
  negb ((65 <=? gofmt.code (gostrings.lowerAscii c))
        && (gofmt.code (gostrings.lowerAscii c) <=? 90)) = true.
Proof.
  unfold gostrings.lowerAscii, gofmt.code.
  destruct ((65 <=? nat_of_ascii c)%nat && (nat_of_ascii c <=? 90)%nat) eqn:Hup.
  - apply andb_true_iff in Hup as [Hlo Hhi].
    apply Nat.leb_le in Hlo, Hhi.
    rewrite nat_ascii_embedding by lia.
    apply negb_true_iff, andb_false_iff. right. apply Z.leb_gt. lia.
  - apply negb_true_iff, andb_false_iff.
    apply andb_false_iff in Hup as [Hlo | Hhi].
    + left. apply Nat.leb_gt in Hlo. apply Z.leb_gt. lia.
    + right. apply Nat.leb_gt in Hhi. apply Z.leb_gt. lia.
Qed.

Lemma lowerBytes_lowerCase (s : string) :
  lowerCase (gostrings.lowerBytes s) = true.
Proof.
  unfold lowerCase. induction s as [| c s IH]; simpl; [done |].
  by rewrite lowerAscii_not_upper, IH.
Qed.

Lemma lowerBytes_length (s : string) :
  String.length (gostrings.lowerBytes s) = String.length s.
Proof. induction s as [| c s IH]; simpl; congruence. Qed.

(** On a string of ASCII bytes [strings.ToLower] is the byte loop, whatever
    the case table. *)
Lemma ToLower_ascii {table : gostrings.CaseTable} (s : string) :
  gostrings.isASCII s = true -> gostrings.ToLower s = gostrings.lowerBytes s.
Proof. intros Hascii. unfold gostrings.ToLower. by rewrite Hascii. Qed.

(** X9.  Every environment variable of the analysis yields one of the
    container in the workload document, with the same name and in the same
    place.  One marked as secret carries no inline value, whatever value
    the analysis holds: it refers to the secret named by the lower-cased
    application name followed by [-secrets], under the lower-cased variable
    name as key; for a variable name of ASCII bytes that key is the name
    with its capitals replaced, has the length of the name and no
    upper-case ASCII letter, whatever the case table.  One that is not
    secret carries its value and no reference. *)
Theorem secret_env_vars_are_references {table : gostrings.CaseTable}
    (analysis : AppAnalysis.t) (namespace : string)
    (resources : ResourceSpec.t) (cfg : Config.t) (i : nat) :
  exists c,
    container (deploymentManifest analysis namespace resources cfg) = Some c
    /\ length (Container.Env c) = length (AppAnalysis.EnvVars analysis)
    /\ match AppAnalysis.EnvVars analysis !! i with
       | Some e =>
           exists ev,
             Container.Env c !! i = Some ev
             /\ EnvVar.Name ev = types.EnvVar.Name e
             /\ (types.EnvVar.Secret e = true ->
                 EnvVar.Value ev = ""
                 /\ exists ref,
                      EnvVar.ValueFrom ev = Some ref
                      /\ SecretKeySelector.Name ref
                         = gostrings.ToLower (AppAnalysis.Name analysis)
                           +:+ "-secrets"
                      /\ SecretKeySelector.Key ref
                         = gostrings.ToLower (types.EnvVar.Name e)
                      /\ (gostrings.isASCII (types.EnvVar.Name e) = true ->
                          SecretKeySelector.Key ref
                          = gostrings.lowerBytes (types.EnvVar.Name e)
                          /\ String.length (SecretKeySelector.Key ref)
                             = String.length (types.EnvVar.Name e)
                          /\ lowerCase (SecretKeySelector.Key ref) = true)
                      /\ (gostrings.isASCII (AppAnalysis.Name analysis) = true ->
                          SecretKeySelector.Name ref
                          = gostrings.lowerBytes (AppAnalysis.Name analysis)
                            +:+ "-secrets"))
             /\ (types.EnvVar.Secret e = false ->
                 EnvVar.Value ev = types.EnvVar.Value e
                 /\ EnvVar.ValueFrom ev = None)
       | None => Container.Env c !! i = None
       end.
Proof.
  destruct (deployment_container_lists analysis namespace resources cfg)
    as (c & Hc & _ & Henv).
  exists c. split; [exact Hc |]. rewrite Henv.
  unfold envVars. rewrite length_map, list_lookup_fmap.
  split; [done |].
  destruct (AppAnalysis.EnvVars analysis !! i) as [e |]; simpl; [| done].
  eexists. split; [reflexivity |].
  destruct (types.EnvVar.Secret e); simpl.
  - split; [done |]. split; [| done].
    intros _. split; [done |]. eexists.
    split; [reflexivity |]. split; [reflexivity |]. split; [reflexivity |].
    simpl. split.
    + intros Hascii. rewrite (ToLower_ascii _ Hascii).
      split; [done |]. split; [apply lowerBytes_length |].
      apply lowerBytes_lowerCase.
    + intros Hascii. by rewrite (ToLower_ascii _ Hascii).
  - split; [done |]. split; [done |]. by intros _.
Qed.

(** ** Suffixes *)

Section SuffixFacts.

Implicit Types (s t u : string).

Lemma substring_all t : String.substring 0 (String.length t) t = t.
Proof. induction t as [| c t IH]; simpl; congruence. Qed.

Lemma substring_skip s t n m :
  String.substring (String.length s + n) m (s +:+ t) = String.substring n m t.
Proof. induction s as [| c s IH]; simpl; [done | exact IH]. Qed.

Lemma substring_prefix s t :
  String.substring 0 (String.length s) (s +:+ t) = s.
Proof.
  induction s as [| c s IH]; simpl; [by destruct t |].
  f_equal. exact IH.
Qed.

Lemma append_assoc s t u : s +:+ (t +:+ u) = (s +:+ t) +:+ u.
Proof.
  induction s as [| c s IH]; [done |].
  change (String c (s +:+ (t +:+ u)) = String c ((s +:+ t) +:+ u)).
  by rewrite IH.
Qed.

Lemma length_append s t :
  String.length (s +:+ t) = (String.length s + String.length t)%nat.
Proof. induction s as [| c s IH]; simpl; [done | by rewrite IH]. Qed.

(** A suffix of the length of [t] ends [s +:+ t] exactly when it is [t]. *)
Lemma HasSuffix_append s t t' :
  String.length t' = String.length t ->
  gostrings.HasSuffix (s +:+ t) t' = String.eqb t t'.
Proof.
  intros Hlen. unfold gostrings.HasSuffix.
  rewrite length_append, Hlen.
  replace (String.length s + String.length t - String.length t)%nat
    with (String.length s + 0)%nat by lia.
  rewrite substring_skip, substring_all.
  rewrite (proj2 (Nat.leb_le _ _)) by lia. done.
Qed.

Lemma HasSuffix_refl t : gostrings.HasSuffix t t = true.
Proof.
  pose proof (HasSuffix_append "" t t eq_refl) as Hrefl.
  change ("" +:+ t) with t in Hrefl. rewrite Hrefl. apply String.eqb_refl.
Qed.

Lemma TrimSuffix_append s t : gostrings.TrimSuffix (s +:+ t) t = s.
Proof.
  unfold gostrings.TrimSuffix.
  rewrite HasSuffix_append, String.eqb_refl by done.
  rewrite length_append.
  replace (String.length s + String.length t - String.length t)%nat
    with (String.length s) by lia.
  apply substring_prefix.
Qed.

Lemma append_nonempty s t : t <> "" -> isEmpty (s +:+ t) = false.
Proof.
  intros Ht. apply String.eqb_neq. intros Heq.
  apply (f_equal String.length) in Heq. rewrite length_append in Heq.
  destruct t; [done | simpl in Heq; lia].
Qed.

End SuffixFacts.

(** X10.  The image of the container always ends with the application
    name and the tag [:latest], with or without a registry: the note of
    the validator on the mutable tag is true of every workload document. *)
Theorem image_is_tagged_latest {table : gostrings.CaseTable}
    (analysis : AppAnalysis.t) (namespace : string)
    (resources : ResourceSpec.t) (cfg : Config.t) :
  exists c,
    container (deploymentManifest analysis namespace resources cfg) = Some c
    /\ gostrings.HasSuffix (Container.Image c)
         (AppAnalysis.Name analysis +:+ ":latest") = true
    /\ gostrings.HasSuffix (Container.Image c) ":latest" = true
    /\ Container.Name c = AppAnalysis.Name analysis.
Proof.
  unfold deploymentManifest, container.
  destruct (deploymentProbes analysis) as [liveness readiness].
  eexists. split; [reflexivity |].
  cbn [Container.Image Container.Name]. unfold imageName.
  destruct (isEmpty (CIConfig.Registry (Config.CI cfg))).
  - repeat split.
    + apply HasSuffix_refl.
    + by rewrite HasSuffix_append, String.eqb_refl.
  - repeat split.
    + rewrite (append_assoc (CIConfig.Registry (Config.CI cfg)) "/").
      by rewrite HasSuffix_append, String.eqb_refl.
    + rewrite (append_assoc (CIConfig.Registry (Config.CI cfg)) "/"),
        (append_assoc _ (AppAnalysis.Name analysis) ":latest").
      by rewrite HasSuffix_append, String.eqb_refl.
Qed.

(** X11.  The quantities compared by the resource rule of the validator
    are the quantities of the container in the workload document that
    [Generate] builds: both start from the resource profile of the
    analysis and apply the overrides of the app config. *)
Theorem validator_checks_workload_resources {table : gostrings.CaseTable}
    (analysis : AppAnalysis.t) (opts : Options.t) :
  let cfg := Options.Config opts in
  let checked := validatedResources analysis opts in
  exists c,
    container
      (deploymentManifest analysis (Options.Namespace opts)
         (GetResourcesForProfile cfg (AppAnalysis.ResourceProfile analysis)) cfg)
    = Some c
    /\ ResourceRequirements.Requests (Container.Resources c) !! "cpu"
       = Some (ResourceValues.CPU (ResourceSpec.Requests checked))
    /\ ResourceRequirements.Requests (Container.Resources c) !! "memory"
       = Some (ResourceValues.Memory (ResourceSpec.Requests checked))
    /\ ResourceRequirements.Limits (Container.Resources c) !! "cpu"
       = Some (ResourceValues.CPU (ResourceSpec.Limits checked))
    /\ ResourceRequirements.Limits (Container.Resources c) !! "memory"
       = Some (ResourceValues.Memory (ResourceSpec.Limits checked)).
Proof.
  simpl.
  destruct (deployment_container analysis (Options.Namespace opts)
              (GetResourcesForProfile (Options.Config opts)
                 (AppAnalysis.ResourceProfile analysis)) (Options.Config opts))
    as (c & Hc & Hres & _).
  exists c. rewrite Hres. simpl.
  rewrite !resourceMap_cpu, !resourceMap_memory. by repeat split.
Qed.

(** ** The rules of the validator, one by one *)

Section RuleFacts.

Implicit Types (analysis : AppAnalysis.t) (opts : Options.t).
Implicit Types (result : ValidationResult.t) (issue : ValidationIssue.t).

Lemma appendIf_unchanged c issue result :
  appendIf c issue result = result <-> c = false.
Proof.
  destruct c; simpl; [| done]. split; [| done].
  intros Heq. apply (f_equal (fun r => length (ValidationResult.Issues r))) in Heq.
  simpl in Heq. rewrite length_app in Heq. simpl in Heq. lia.
Qed.

Lemma existsb_issues_appendIf (p : ValidationIssue.t -> bool) c issue result :
  existsb p (ValidationResult.Issues (appendIf c issue result))
  = existsb p (ValidationResult.Issues result) || (c && p issue).
Proof.
  rewrite appendIf_Issues, existsb_app.
  destruct c; simpl; by rewrite ?orb_false_r.
Qed.

Lemma append_empty (s t : string) : s +:+ t = "" <-> s = "" /\ t = "".
Proof.
  split; [| by intros [-> ->]].
  destruct s; [done |]. intros Heq.
  apply (f_equal String.length) in Heq. rewrite length_append in Heq.
  simpl in Heq. lia.
Qed.

(** The errors among the issues of the seven rules. *)
Lemma runRules_errors analysis opts :
  existsb (fun i => isError (ValidationIssue.Severity i))
          (ValidationResult.Issues (runRules analysis opts))
  = cpuExceeds analysis opts || memoryExceeds analysis opts
    || scalingInverted analysis || isEmpty (AppAnalysis.Name analysis).
Proof.
  unfold runRules, validateMissingRequiredFields, validateHealthProbes,
    validateIngressHost, validateImagePlaceholder, appendIssue.
  rewrite !existsb_issues_appendIf. simpl.
  rewrite !andb_false_r, !orb_false_r, andb_true_r.
  f_equal.
  assert (forall result,
            existsb (fun i => isError (ValidationIssue.Severity i))
              (ValidationResult.Issues (validateHPAMinMax result analysis))
            = existsb (fun i => isError (ValidationIssue.Severity i))
                (ValidationResult.Issues result)
              || scalingInverted analysis) as ->.
  { intros result. unfold validateHPAMinMax, scalingInverted.
    destruct (effectiveScaling analysis);
      [| by rewrite orb_false_r].
    rewrite existsb_issues_appendIf. simpl. by rewrite andb_true_r. }
  f_equal.
  assert (forall result,
            existsb (fun i => isError (ValidationIssue.Severity i))
              (ValidationResult.Issues (validateServicePortMatch analysis result))
            = existsb (fun i => isError (ValidationIssue.Severity i))
                (ValidationResult.Issues result)) as ->.
  { intros result. unfold validateServicePortMatch.
    destruct (AppAnalysis.Ports analysis); [done |].
    destruct (AppAnalysis.HealthCheck analysis); [| done].
    rewrite existsb_issues_appendIf. simpl.
    by rewrite andb_false_r, orb_false_r. }
  unfold validateResourceRequestsVsLimits, cpuExceeds, memoryExceeds.
  rewrite !existsb_issues_appendIf. simpl.
  rewrite !andb_true_r, existsb_app. simpl.
  destruct (isEmpty (CIConfig.Registry (Config.CI (Options.Config opts))));
    simpl; by rewrite ?orb_false_r.
Qed.

End RuleFacts.

(** X12.  Validation fails exactly in four cases: the CPU request parses
    to more than the CPU limit, the memory request to more than the memory
    limit (both parsed values positive), the effective scaling block has
    [MinReplicas > MaxReplicas], or the application name is empty.  A
    missing registry, health check or repository never fails it. *)
Theorem ValidateGenerated_fails_iff
    (analysis : AppAnalysis.t) (files : list GeneratedFile.t) (opts : Options.t) :
  ValidationResult.Passed (ValidateGenerated analysis files opts) = false <->
  cpuExceeds analysis opts = true \/ memoryExceeds analysis opts = true
  \/ scalingInverted analysis = true \/ AppAnalysis.Name analysis = "".
Proof.
  unfold ValidateGenerated. simpl.
  rewrite runRules_errors, runRules_Passed.
  destruct (cpuExceeds analysis opts), (memoryExceeds analysis opts),
    (scalingInverted analysis),
    (String.eqb_spec (AppAnalysis.Name analysis) "") as [Hname | Hname];
    unfold isEmpty;
    try rewrite (proj2 (String.eqb_eq _ _) Hname);
    try rewrite (proj2 (String.eqb_neq _ _) Hname);
    simpl; intuition discriminate.
Qed.

(** X13.  The ingress rule reports an empty host exactly when the
    application name and the domain suffix are both empty and the app
    config gives no host; in particular never for a named application. *)
Theorem validateIngressHost_fires_iff
    (analysis : AppAnalysis.t) (opts : Options.t) (result : ValidationResult.t) :
  validateIngressHost analysis opts result = result <->
  AppAnalysis.Name analysis <> ""
  \/ IngressConfig.DomainSuffix (Config.Ingress (Options.Config opts)) <> ""
  \/ exists ing, appIngress analysis = Some ing /\ IngressContext.Host ing <> "".
Proof.
  unfold validateIngressHost. rewrite appendIf_unchanged.
  unfold ingressHost.
  set (derived := AppAnalysis.Name analysis
                  +:+ IngressConfig.DomainSuffix (Config.Ingress (Options.Config opts))).
  assert (isEmpty derived = false <->
          AppAnalysis.Name analysis <> ""
          \/ IngressConfig.DomainSuffix (Config.Ingress (Options.Config opts)) <> "")
    as Hderived.
  { unfold isEmpty. rewrite String.eqb_neq. subst derived.
    rewrite append_empty.
    destruct (String.eqb_spec (AppAnalysis.Name analysis) "");
      destruct (String.eqb_spec
                  (IngressConfig.DomainSuffix (Config.Ingress (Options.Config opts)))
                  ""); intuition. }
  destruct (appIngress analysis) as [ing |].
  - destruct (isEmpty (IngressContext.Host ing)) eqn:Hhost; simpl.
    + apply isEmpty_true in Hhost. rewrite Hderived.
      split; [intuition |].
      intros [? | [? | (ing' & [= <-] & ?)]]; intuition.
    + rewrite Hhost. split; [| done].
      intros _. right. right. exists ing. split; [done |].
      intros Heq. by rewrite Heq in Hhost.
  - rewrite Hderived. split; [intuition |].
    intros [? | [? | (ing' & Hing & ?)]]; [intuition | intuition | discriminate].
Qed.

(** X14.  The port rule leaves the result unchanged exactly when there is
    no declared port, no [analysis.HealthCheck], or the port of the health
    check is one of the declared ports; the ports of the app-config health
    block are not looked at. *)
Theorem validateServicePortMatch_fires_iff
    (analysis : AppAnalysis.t) (result : ValidationResult.t) :
  validateServicePortMatch analysis result = result <->
  AppAnalysis.Ports analysis = []
  \/ match AppAnalysis.HealthCheck analysis with
     | Some hc => In (HealthCheck.Port hc) (map Port.Port (AppAnalysis.Ports analysis))
     | None => True
     end.
Proof.
  unfold validateServicePortMatch.
  destruct (AppAnalysis.Ports analysis) as [| p ports] eqn:Hports.
  { split; [by left | done]. }
  destruct (AppAnalysis.HealthCheck analysis) as [hc |].
  - rewrite appendIf_unchanged, negb_false_iff, bool_decide_eq_true.
    rewrite elem_of_list_to_set, list_elem_of_In.
    split; [by right | by intros [? | ?]].
  - split; [by right | done].
Qed.

(** ** Quantity parsing *)

Section ParseFacts.

Lemma Sscanf_d_range (s : string) : gofmt.inInt64 (gofmt.Sscanf_d s) = true.
Proof.
  unfold gofmt.Sscanf_d, gofmt.scanInt.
  destruct (gofmt.SkipSpace s) as [[| c r] |]; try done.
  destruct (gofmt.accept _ _) as [sg s2].
  destruct (gofmt.span _ _) as [ds rest].
  destruct (isEmpty ds); [done |].
  match goal with
  | |- context [if gofmt.inInt64 ?i then _ else _] =>
      destruct (gofmt.inInt64 i) eqn:Hin
  end; done.
Qed.

Lemma wrap64_range (n : Z) : gofmt.inInt64 (gofmt.wrap64 n) = true.
Proof.
  unfold gofmt.inInt64, gofmt.wrap64, gofmt.minInt64, gofmt.maxInt64.
  pose proof (Z.mod_pos_bound (n + 2 ^ 63) (2 ^ 64) eq_refl) as Hmod.
  apply andb_true_iff. split; apply Z.leb_le; lia.
Qed.

Lemma toInt64_range (f : gofloat.float64) : gofmt.inInt64 (gofloat.toInt64 f) = true.
Proof.
  destruct f as [| neg | neg m e]; try done. simpl.
  match goal with
  | |- context [if gofmt.inInt64 ?i then _ else _] =>
      destruct (gofmt.inInt64 i) eqn:Hin
  end; done.
Qed.

Lemma find_unique_perm {A} (f : A -> bool) (l l' : list A) :
  (forall x y, In x l -> In y l -> f x = true -> f y = true -> x = y) ->
  Permutation l l' ->
  List.find f l = List.find f l'.
Proof.
  intros Huniq Hperm. induction Hperm as [| x l l' Hperm IH | x y l | l l' l'' H1 IH1 H2 IH2].
  - done.
  - simpl. destruct (f x); [done |]. apply IH.
    intros a b Ha Hb. apply Huniq; by right.
  - simpl. destruct (f x) eqn:Hx, (f y) eqn:Hy; try done.
    f_equal. apply Huniq; simpl; auto.
  - rewrite IH1 by done. apply IH2.
    intros a b Ha Hb. apply Huniq; by apply (Permutation_in _ (Permutation_sym H1)).
Qed.

(** At most one suffix of the table ends a given string. *)
Lemma multipliers_unique (mem : string) (x y : string * Z) :
  In x multipliers -> In y multipliers ->
  gostrings.HasSuffix mem (fst x) = true ->
  gostrings.HasSuffix mem (fst y) = true ->
  x = y.
Proof.
  unfold multipliers, gostrings.HasSuffix. simpl.
  intros Hx Hy.
  repeat destruct Hx as [<- | Hx]; try done;
    repeat destruct Hy as [<- | Hy]; try done; simpl;
    rewrite !andb_true_iff, !String.eqb_eq;
    intros [_ Hsx] [_ Hsy]; rewrite Hsx in Hsy; done.
Qed.

Lemma isDigit_not_space (c : ascii) (r : string) :
  gofmt.isDigit c = true -> gofmt.SkipSpace (String c r) = Some (String c r).
Proof.
  unfold gofmt.isDigit. rewrite andb_true_iff, !Z.leb_le. intros [Hlo Hhi].
  simpl.
  rewrite (proj2 (Z.eqb_neq _ 10)), (proj2 (Z.leb_gt _ 13)),
    (proj2 (Z.eqb_neq _ 32)) by lia.
  rewrite andb_false_r. simpl.
  destruct r as [| c2 r2]; [done |].
  rewrite (proj2 (Z.eqb_neq _ 194)) by lia. simpl.
  destruct r2 as [| c3 r3]; [done |].
  by rewrite (proj2 (Z.eqb_neq _ 225)), (proj2 (Z.eqb_neq _ 226)),
    (proj2 (Z.eqb_neq _ 227)) by lia.
Qed.

Lemma span_digits (s : string) :
  forallb gofmt.isDigit (list_ascii_of_string s) = true ->
  gofmt.span gofmt.isDigit s = (s, "").
Proof.
  induction s as [| c s IH]; simpl; [done |].
  rewrite andb_true_iff. intros [-> Hs]. by rewrite IH.
Qed.

Lemma isDigit_bounds (c : ascii) :
  gofmt.isDigit c = true -> 0 <= gofmt.digitVal c <= 9.
Proof.
  unfold gofmt.isDigit, gofmt.digitVal.
  rewrite andb_true_iff, !Z.leb_le. lia.
Qed.

Lemma fold_digits_nonneg (l : list ascii) (acc : Z) :
  forallb gofmt.isDigit l = true -> 0 <= acc ->
  0 <= fold_left (fun acc c => 10 * acc + gofmt.digitVal c) l acc.
Proof.
  revert acc. induction l as [| c l IH]; intros acc; simpl; [done |].
  rewrite andb_true_iff. intros [Hc Hl] Hacc.
  apply IH; [done |]. pose proof (isDigit_bounds c Hc). lia.
Qed.

Lemma numeral_inv (ds : string) :
  isNumeral ds = true ->
  exists c r, ds = String c r /\ gofmt.isDigit c = true
              /\ forallb gofmt.isDigit (list_ascii_of_string ds) = true.
Proof.
  unfold isNumeral. rewrite andb_true_iff. intros [Hne Hall].
  destruct ds as [| c r]; [done |].
  exists c, r. simpl in Hall. apply andb_true_iff in Hall as [Hc Hr].
  repeat split; [done |]. simpl. by rewrite Hc, Hr.
Qed.

(** [%d] reads a numeral that fits an [int64] as its value. *)
Lemma Sscanf_d_numeral (ds : string) :
  isNumeral ds = true ->
  gofmt.decimalValue ds <= gofmt.maxInt64 ->
  gofmt.Sscanf_d ds = gofmt.decimalValue ds.
Proof.
  intros Hnum Hmax. destruct (numeral_inv ds Hnum) as (c & r & -> & Hc & Hall).
  unfold gofmt.Sscanf_d, gofmt.scanInt.
  rewrite (isDigit_not_space c r Hc).
  assert (gofmt.isSign c = false) as Hsign.
  { unfold gofmt.isSign. unfold gofmt.isDigit in Hc.
    apply andb_true_iff in Hc as [Hlo Hhi]. apply Z.leb_le in Hlo, Hhi.
    rewrite (proj2 (Z.eqb_neq _ 43)), (proj2 (Z.eqb_neq _ 45)) by lia. done. }
  unfold gofmt.accept. rewrite Hsign, (span_digits _ Hall).
  cbn [isEmpty String.eqb]. 
  assert (gofmt.inInt64 (gofmt.decimalValue (String c r)) = true) as ->.
  { unfold gofmt.inInt64. apply andb_true_iff. split; apply Z.leb_le; [| done].
    pose proof (fold_digits_nonneg _ 0 Hall (Z.le_refl 0)) as Hpos.
    unfold gofmt.decimalValue, gofmt.minInt64. lia. }
  done.
Qed.

Lemma forallb_substring (p : ascii -> bool) (s : string) (n m : nat) :
  forallb p (list_ascii_of_string s) = true ->
  forallb p (list_ascii_of_string (String.substring n m s)) = true.
Proof.
  revert n m. induction s as [| c s IH]; intros n m.
  - by destruct n, m.
  - simpl. rewrite andb_true_iff. intros [Hc Hs].
    destruct n as [| n].
    + destruct m as [| m]; simpl; [done |]. by rewrite Hc, IH.
    + by apply IH.
Qed.

(** No suffix of the table ends a numeral. *)
Lemma numeral_no_suffix (ds : string) (sm : string * Z) :
  forallb gofmt.isDigit (list_ascii_of_string ds) = true ->
  In sm multipliers ->
  gostrings.HasSuffix ds (fst sm) = false.
Proof.
  intros Hall Hin. unfold gostrings.HasSuffix.
  destruct (String.eqb_spec
              (String.substring (String.length ds - String.length (fst sm))
                 (String.length (fst sm)) ds) (fst sm)) as [Heq | Hne];
    [| apply andb_false_r].
  exfalso.
  pose proof (forallb_substring gofmt.isDigit ds
                (String.length ds - String.length (fst sm))
                (String.length (fst sm)) Hall) as Hsub.
  rewrite Heq in Hsub. unfold multipliers in Hin. simpl in Hin.
  repeat destruct Hin as [<- | Hin]; try done.
Qed.

Lemma find_none_intro {A} (f : A -> bool) (l : list A) :
  (forall x, In x l -> f x = false) -> List.find f l = None.
Proof.
  induction l as [| a l IH]; simpl; [done |]. intros Hall.
  rewrite (Hall a) by (by left). apply IH. intros x Hx. apply Hall. by right.
Qed.

Lemma wrap64_id (n : Z) : gofmt.inInt64 n = true -> gofmt.wrap64 n = n.
Proof.
  unfold gofmt.inInt64, gofmt.wrap64, gofmt.minInt64, gofmt.maxInt64.
  rewrite andb_true_iff, !Z.leb_le. intros [Hlo Hhi].
  rewrite Z.mod_small; lia.
Qed.

End ParseFacts.

(** X15.  The result of [parseMemoryBytes] does not depend on the order in
    which the suffix table is searched, which Go leaves unspecified for a
    map: at most one of the four suffixes ends a given string. *)
Theorem parseMemoryBytes_order_independent
    (table : list (string * Z)) (mem : string) :
  Permutation table multipliers ->
  parseMemoryBytesIn table mem = parseMemoryBytes mem.
Proof.
  intros Hperm. unfold parseMemoryBytesIn, parseMemoryBytes.
  destruct (isEmpty mem); [done |].
  rewrite (find_unique_perm _ table multipliers); [done | | done].
  intros x y Hx Hy. apply multipliers_unique.
  - by apply (Permutation_in _ Hperm).
  - by apply (Permutation_in _ Hperm).
Qed.

(** The table searched from [Ti] down to [Ki]. *)
Lemma parseMemoryBytes_order_independent_witness :
  parseMemoryBytesIn (rev multipliers) "512Mi" = parseMemoryBytes "512Mi".
Proof.
  apply parseMemoryBytes_order_independent.
  apply Permutation_sym, Permutation_rev.
Defined.

(** X16.  For a numeral [ds] (decimal digits only, at least one) whose
    value fits an [int64]: [ds] followed by [m] is that many milli-units
    of CPU; [ds] alone is that many bytes of memory; and [ds] followed by
    a suffix of the table is the value times the multiplier of the suffix,
    wrapped to 64 bits, hence exact when the product fits. *)
Theorem numeral_quantities (ds : string) :
  isNumeral ds = true ->
  gofmt.decimalValue ds <= gofmt.maxInt64 ->
  parseCPUMillis (ds +:+ "m") = gofmt.decimalValue ds
  /\ parseMemoryBytes ds = gofmt.decimalValue ds
  /\ (forall suffix mult,
        In (suffix, mult) multipliers ->
        parseMemoryBytes (ds +:+ suffix)
        = gofmt.wrap64 (gofmt.decimalValue ds * mult)
        /\ (gofmt.inInt64 (gofmt.decimalValue ds * mult) = true ->
            parseMemoryBytes (ds +:+ suffix) = gofmt.decimalValue ds * mult)).
Proof.
  intros Hnum Hmax.
  pose proof (Sscanf_d_numeral ds Hnum Hmax) as Hscan.
  destruct (numeral_inv ds Hnum) as (c & r & Hds & Hc & Hall).
  split; [| split].
  - unfold parseCPUMillis.
    rewrite append_nonempty by done.
    rewrite HasSuffix_append, String.eqb_refl by done.
    by rewrite TrimSuffix_append.
  - unfold parseMemoryBytes.
    assert (isEmpty ds = false) as -> by (by rewrite Hds).
    assert (List.find (fun sm => gostrings.HasSuffix ds (fst sm)) multipliers
            = None) as ->; [| done].
    apply find_none_intro. intros sm Hin. by apply numeral_no_suffix.
  - intros suffix mult Hin.
    assert (parseMemoryBytes (ds +:+ suffix)
            = gofmt.wrap64 (gofmt.decimalValue ds * mult)) as Hparse.
    { unfold parseMemoryBytes, multipliers in *. simpl in Hin.
      repeat destruct Hin as [[= <- <-] | Hin]; try done;
        rewrite append_nonempty by done;
        cbn [List.find fst];
        rewrite !HasSuffix_append by done;
        cbn [String.eqb Ascii.eqb Bool.eqb andb];
        by rewrite TrimSuffix_append, Hscan. }
    split; [done |]. intros Hfits. by rewrite Hparse, wrap64_id.
Qed.

(** ["2000"] is a numeral that fits. *)
Lemma numeral_quantities_witness :
  parseCPUMillis ("2000" +:+ "m") = 2000
  /\ parseMemoryBytes "2000" = 2000
  /\ parseMemoryBytes ("2000" +:+ "Mi") = 2000 * (1024 * 1024).
Proof.
  destruct (numeral_quantities "2000" eq_refl) as (Hcpu & Hmem & Hsuffix);
    [by vm_compute |].
  split; [exact Hcpu | split; [exact Hmem |]].
  apply (Hsuffix "Mi" (1024 * 1024)); [right; left; reflexivity | reflexivity].
Defined.

(** Whatever the string, the parsed quantities are [int64] values. *)
Lemma parsed_quantities_are_int64 (s : string) :
  gofmt.inInt64 (parseCPUMillis s) = true
  /\ gofmt.inInt64 (parseMemoryBytes s) = true.
Proof.
  split.
  - unfold parseCPUMillis. destruct (isEmpty s); [done |].
    destruct (gostrings.HasSuffix s "m");
      [apply Sscanf_d_range | apply toInt64_range].
  - unfold parseMemoryBytes. destruct (isEmpty s); [done |].
    destruct (List.find _ _) as [[suffix mult] |];
      [apply wrap64_range | apply Sscanf_d_range].
Qed.

(** [%d] rejects a numeral above the largest [int64], and the variable
    keeps its zero value. *)
Lemma Sscanf_d_overflow (ds : string) :
  isNumeral ds = true ->
  gofmt.maxInt64 < gofmt.decimalValue ds ->
  gofmt.Sscanf_d ds = 0.
Proof.
  intros Hnum Hmax. destruct (numeral_inv ds Hnum) as (c & r & -> & Hc & Hall).
  unfold gofmt.Sscanf_d, gofmt.scanInt.
  rewrite (isDigit_not_space c r Hc).
  assert (gofmt.isSign c = false) as Hsign.
  { unfold gofmt.isSign. unfold gofmt.isDigit in Hc.
    apply andb_true_iff in Hc as [Hlo Hhi]. apply Z.leb_le in Hlo, Hhi.
    rewrite (proj2 (Z.eqb_neq _ 43)), (proj2 (Z.eqb_neq _ 45)) by lia. done. }
  unfold gofmt.accept. rewrite Hsign, (span_digits _ Hall).
  cbn [isEmpty String.eqb].
  assert (gofmt.inInt64 (gofmt.decimalValue (String c r)) = false) as ->.
  { unfold gofmt.inInt64. apply andb_false_iff. right. apply Z.leb_gt. done. }
  done.
Qed.

(** X17.  A quantity too large for an [int64] is not reported.  For a
    numeral [ds] whose value exceeds the largest [int64], the scan fails
    and leaves zero: [ds] followed by [m] is zero milli-units, and [ds],
    alone or followed by a suffix of the table, is zero bytes.  The
    resource rule compares only positive values, so when the merged
    resource spec requests [ds] followed by [m] of CPU and [ds] of memory,
    the rule leaves the result as it is, whatever the limits. *)
Theorem oversized_quantities_are_not_reported (ds : string) :
  isNumeral ds = true ->
  gofmt.maxInt64 < gofmt.decimalValue ds ->
  parseCPUMillis (ds +:+ "m") = 0
  /\ parseMemoryBytes ds = 0
  /\ (forall suffix mult,
        In (suffix, mult) multipliers -> parseMemoryBytes (ds +:+ suffix) = 0)
  /\ (forall analysis opts result,
        let requests := ResourceSpec.Requests (validatedResources analysis opts) in
        ResourceValues.CPU requests = ds +:+ "m" ->
        ResourceValues.Memory requests = ds ->
        validateResourceRequestsVsLimits analysis opts result = result).
Proof.
  intros Hnum Hmax.
  pose proof (Sscanf_d_overflow ds Hnum Hmax) as Hscan.
  destruct (numeral_inv ds Hnum) as (c & r & Hds & Hc & Hall).
  assert (parseCPUMillis (ds +:+ "m") = 0) as Hcpu.
  { unfold parseCPUMillis.
    rewrite append_nonempty by done.
    rewrite HasSuffix_append, String.eqb_refl by done.
    by rewrite TrimSuffix_append. }
  assert (parseMemoryBytes ds = 0) as Hmem.
  { unfold parseMemoryBytes.
    assert (isEmpty ds = false) as -> by (by rewrite Hds).
    assert (List.find (fun sm => gostrings.HasSuffix ds (fst sm)) multipliers
            = None) as ->; [| done].
    apply find_none_intro. intros sm Hin. by apply numeral_no_suffix. }
  split; [exact Hcpu |]. split; [exact Hmem |]. split.
  - intros suffix mult Hin.
    unfold parseMemoryBytes, multipliers in *. simpl in Hin.
    repeat destruct Hin as [[= <- <-] | Hin]; try done;
      rewrite append_nonempty by done;
      cbn [List.find fst];
      rewrite !HasSuffix_append by done;
      cbn [String.eqb Ascii.eqb Bool.eqb andb];
      by rewrite TrimSuffix_append, Hscan.
  - intros analysis opts result requests Hreq Hreqm. subst requests.
    unfold validateResourceRequestsVsLimits.
    rewrite Hreq, Hreqm, Hcpu, Hmem. by unfold exceeds.
Qed.

(** The numeral of [2^63], one above the largest [int64]. *)
Lemma oversized_quantities_are_not_reported_witness :
  parseCPUMillis ("9223372036854775808" +:+ "m") = 0
  /\ parseMemoryBytes ("9223372036854775808" +:+ "Gi") = 0.
Proof.
  destruct (oversized_quantities_are_not_reported "9223372036854775808" eq_refl)
    as (Hcpu & _ & Hsuffix & _); [by vm_compute |].
  split; [exact Hcpu |].
  apply (Hsuffix "Gi" (1024 * 1024 * 1024)). right. right. left. reflexivity.
Defined.

(** ** The LLM client *)

Lemma firstNonEmpty_cons (a : string) (l : list string) :
  firstNonEmpty (a :: l) = if isEmpty a then firstNonEmpty l else a.
Proof. unfold firstNonEmpty. simpl. by destruct (isEmpty a). Qed.

Lemma firstNonEmpty_last (a : string) : firstNonEmpty [a] = a.
Proof.
  rewrite firstNonEmpty_cons. destruct (isEmpty a) eqn:Hempty; [| done].
  by apply isEmpty_true in Hempty as ->.
Qed.

(** X18.  The API key of a client.  For [openai] it is [OPENAI_API_KEY],
    for [anthropic] [ANTHROPIC_API_KEY], for [gemini] [GEMINI_API_KEY] and
    then [GOOGLE_API_KEY], each when it is set, and otherwise the key stored
    in the global configuration, whichever provider it was stored for (the
    empty string when the configuration cannot be loaded).  [NewClient]
    succeeds exactly for [ollama], which needs no key, and for [openai],
    [anthropic] and [gemini] when that key is not empty; the client it
    returns is the one of the provider and carries that key, and the
    [ollama] client the host of [OLLAMA_HOST] or the local default. *)
Theorem NewClient_spec (w : llm.World) (provider : string) :
  let stored := default "" (llm.globalAPIKey w) in
  let key := llm.resolveAPIKey w provider in
  ((provider = "openai" ->
    key = firstNonEmpty [llm.Getenv w "OPENAI_API_KEY"; stored])
   /\ (provider = "anthropic" ->
       key = firstNonEmpty [llm.Getenv w "ANTHROPIC_API_KEY"; stored])
   /\ (provider = "gemini" ->
       key = firstNonEmpty [llm.Getenv w "GEMINI_API_KEY";
                            llm.Getenv w "GOOGLE_API_KEY"; stored]))
  /\ (isErr (llm.NewClient w provider) = false <->
      provider = "ollama"
      \/ ((provider = "openai" \/ provider = "anthropic" \/ provider = "gemini")
          /\ key <> ""))
  /\ (forall client,
        llm.NewClient w provider = Ok client ->
        (provider = "openai" /\ client = llm.OpenAIClient key)
        \/ (provider = "anthropic" /\ client = llm.AnthropicClient key)
        \/ (provider = "gemini" /\ client = llm.GeminiClient key)
        \/ (provider = "ollama"
            /\ client
               = llm.OllamaClient
                   (firstNonEmpty [llm.Getenv w "OLLAMA_HOST";
                                   "http://localhost:11434"]))).
Proof.
  cbv zeta.
  assert (llm.resolveAPIKey w provider
          = (if isEmpty (llm.envAPIKey w provider)
             then default "" (llm.globalAPIKey w)
             else llm.envAPIKey w provider)) as Hkey.
  { unfold llm.resolveAPIKey, llm.GetAPIKey.
    destruct (isEmpty (llm.envAPIKey w provider)); simpl; [| done].
    by destruct (llm.globalAPIKey w). }
  split; [| split].
  - rewrite Hkey. unfold llm.envAPIKey.
    repeat first [rewrite firstNonEmpty_last | rewrite firstNonEmpty_cons].
    split; [| split]; intros ->; simpl.
    + done.
    + done.
    + destruct (isEmpty (llm.Getenv w "GEMINI_API_KEY")) eqn:Hgemini; simpl;
        [done | by rewrite Hgemini].
  - unfold llm.NewClient.
    destruct (String.eqb_spec provider "openai") as [-> | Hopenai].
    { destruct (isEmpty (llm.resolveAPIKey w _)) eqn:Hempty; simpl.
      - apply isEmpty_true in Hempty. split; [done |].
        intros [? | [_ ?]]; done.
      - split; [| done]. intros _. right. split; [by left |].
        intros Heq. by rewrite Heq in Hempty. }
    destruct (String.eqb_spec provider "anthropic") as [-> | Hanthropic].
    { destruct (isEmpty (llm.resolveAPIKey w _)) eqn:Hempty; simpl.
      - apply isEmpty_true in Hempty. split; [done |].
        intros [? | [_ ?]]; done.
      - split; [| done]. intros _. right. split; [right; by left |].
        intros Heq. by rewrite Heq in Hempty. }
    destruct (String.eqb_spec provider "gemini") as [-> | Hgemini].
    { destruct (isEmpty (llm.resolveAPIKey w _)) eqn:Hempty; simpl.
      - apply isEmpty_true in Hempty. split; [done |].
        intros [? | [_ ?]]; done.
      - split; [| done]. intros _. right. split; [by right; right |].
        intros Heq. by rewrite Heq in Hempty. }
    destruct (String.eqb_spec provider "ollama") as [-> | Hollama]; simpl.
    + split; [by left | done].
    + split; [done |]. intros [? | [[? | [? | ?]] _]]; done.
  - intros client. unfold llm.NewClient.
    destruct (String.eqb_spec provider "openai") as [-> | Hopenai].
    { destruct (isEmpty (llm.resolveAPIKey w _)); [done |]. intros [= <-]. by left. }
    destruct (String.eqb_spec provider "anthropic") as [-> | Hanthropic].
    { destruct (isEmpty (llm.resolveAPIKey w _)); [done |]. intros [= <-]. right. by left. }
    destruct (String.eqb_spec provider "gemini") as [-> | Hgemini].
    { destruct (isEmpty (llm.resolveAPIKey w _)); [done |]. intros [= <-]. right. right. by left. }
    destruct (String.eqb_spec provider "ollama") as [-> | Hollama]; [| done].
    intros [= <-]. do 3 right. split; [done |].
    rewrite firstNonEmpty_cons, firstNonEmpty_last.
    by destruct (isEmpty (llm.Getenv w "OLLAMA_HOST")).
Qed.

(** ** Autoscaling and replicas *)

Lemma positiveOr_positive (v d : Z) : 0 < d -> 0 < positiveOr v d.
Proof.
  intros Hd. unfold positiveOr. destruct (Z.ltb_spec 0 v); lia.
Qed.

(** X19.  Whatever the scaling blocks hold, the autoscaling document has
    [minReplicas >= 1], [maxReplicas >= 1], a CPU metric as first metric,
    followed by at most one metric, which is then the memory metric, and
    only metrics with a positive target. *)
Theorem hpa_values_positive
    (analysis : AppAnalysis.t) (namespace : string) (cfg : Config.t) :
  let spec := HPAManifest.Spec (hpaManifest analysis namespace cfg) in
  0 < HPASpec.MinReplicas spec
  /\ 0 < HPASpec.MaxReplicas spec
  /\ (exists cpu rest,
        HPASpec.Metrics spec = cpu :: rest
        /\ MetricSpec.ResourceName cpu = "cpu"
        /\ (rest = []
            \/ exists memory,
                 rest = [memory] /\ MetricSpec.ResourceName memory = "memory"))
  /\ Forall (fun m => 0 < MetricSpec.AverageUtilization m) (HPASpec.Metrics spec).
Proof.
  simpl. unfold hpaManifest.
  assert (exists mn mx cpu mem,
            hpaValues analysis = (mn, mx, cpu, mem)
            /\ 0 < mn /\ 0 < mx /\ 0 < cpu) as (mn & mx & cpu & mem & -> & ? & ? & ?).
  { unfold hpaValues.
    destruct (AppAnalysis.AppConfig analysis) as [ac |];
      [destruct (AppConfigContext.Scaling ac) |];
      try destruct (AppAnalysis.Scaling analysis);
      do 4 eexists; (split; [reflexivity |]);
      repeat split; try apply positiveOr_positive; lia. }
  destruct (Z.ltb_spec 0 mem); simpl.
  - repeat split; try done.
    + do 2 eexists. repeat split. right. eexists. by split.
    + by repeat constructor.
  - repeat split; try done.
    + do 2 eexists. repeat split. by left.
    + by repeat constructor.
Qed.

Lemma deployment_replicas {table : gostrings.CaseTable} (analysis : AppAnalysis.t) (namespace : string)
    (resources : ResourceSpec.t) (cfg : Config.t) :
  DeploymentSpec.Replicas
    (DeploymentManifest.Spec (deploymentManifest analysis namespace resources cfg))
  = deploymentReplicas analysis.
Proof.
  unfold deploymentManifest. by destruct (deploymentProbes analysis).
Qed.

Lemma hpa_minimum (analysis : AppAnalysis.t) (namespace : string) (cfg : Config.t) :
  HPASpec.MinReplicas (HPAManifest.Spec (hpaManifest analysis namespace cfg))
  = fst (fst (fst (hpaValues analysis))).
Proof.
  unfold hpaManifest. by destruct (hpaValues analysis) as [[[mn mx] cpu] mem].
Qed.

(** X20.  The replica count of the workload document is at least one.  It
    is the [minReplicas] of the autoscaling document whenever the app
    config has no scaling block or one with a positive [MinReplicas]; an
    app-config block without [MinReplicas] makes the workload fall back to
    [analysis.Scaling] while the autoscaler takes the default of two. *)
Theorem replicas_and_hpa_minimum {table : gostrings.CaseTable}
    (analysis : AppAnalysis.t) (namespace : string)
    (resources : ResourceSpec.t) (cfg : Config.t) :
  let replicas :=
    DeploymentSpec.Replicas
      (DeploymentManifest.Spec
         (deploymentManifest analysis namespace resources cfg)) in
  let minReplicas :=
    HPASpec.MinReplicas (HPAManifest.Spec (hpaManifest analysis namespace cfg)) in
  0 < replicas
  /\ ((forall ac sc,
         AppAnalysis.AppConfig analysis = Some ac ->
         AppConfigContext.Scaling ac = Some sc ->
         0 < ScalingConfig.MinReplicas sc) ->
      replicas = minReplicas)
  /\ (forall ac sc sc',
        AppAnalysis.AppConfig analysis = Some ac ->
        AppConfigContext.Scaling ac = Some sc ->
        ScalingConfig.MinReplicas sc <= 0 ->
        AppAnalysis.Scaling analysis = Some sc' ->
        0 < ScalingConfig.MinReplicas sc' ->
        replicas = ScalingConfig.MinReplicas sc' /\ minReplicas = 2).
Proof.
  cbv zeta. rewrite deployment_replicas, hpa_minimum.
  unfold deploymentReplicas, hpaValues, positiveOr.
  split; [| split].
  - destruct (AppAnalysis.AppConfig analysis) as [ac |];
      [destruct (AppConfigContext.Scaling ac) as [sc |] |];
      destruct (AppAnalysis.Scaling analysis) as [sc' |]; simpl;
      repeat match goal with
             | |- context [0 <? ?v] => destruct (Z.ltb_spec 0 v)
             end; lia.
  - intros Hpos.
    destruct (AppAnalysis.AppConfig analysis) as [ac |];
      [destruct (AppConfigContext.Scaling ac) as [sc |] eqn:Hsc |];
      [specialize (Hpos _ _ eq_refl Hsc) | |];
      destruct (AppAnalysis.Scaling analysis) as [sc' |]; simpl;
      repeat match goal with
             | |- context [0 <? ?v] => destruct (Z.ltb_spec 0 v)
             end; lia.
  - intros ac sc sc' -> -> Hmin -> Hmin'. simpl.
    destruct (Z.ltb_spec 0 (ScalingConfig.MinReplicas sc)); [lia |].
    destruct (Z.ltb_spec 0 (ScalingConfig.MinReplicas sc')); [done | lia].
Qed.

(** ** The ingress document *)

Lemma ingressHTTPPort_declared (ports : list Port.t) :
  ports <> [] -> In (ingressHTTPPort ports) (map Port.Port ports).
Proof.
  destruct ports as [| p0 rest]; [done |]. intros _.
  unfold ingressHTTPPort.
  destruct (find _ (p0 :: rest)) as [p |] eqn:Hfind.
  - destruct (Port.Port p =? 80); [by left |].
    apply find_some in Hfind as [Hin _]. by apply in_map.
  - by left.
Qed.

Lemma ingressPaths_backend (analysis : AppAnalysis.t) :
  ingressPaths analysis <> []
  /\ Forall (fun p =>
               IngressPath.BackendServiceName p = AppAnalysis.Name analysis
               /\ IngressPath.BackendServicePort p
                  = ingressHTTPPort (AppAnalysis.Ports analysis)
               /\ IngressPath.PathType p <> "")
            (ingressPaths analysis).
Proof.
  unfold ingressPaths.
  destruct (appIngress analysis) as [ing |]; [| by split; [| repeat constructor]].
  destruct (IngressContext.Paths ing) as [| p0 rest];
    [by split; [| repeat constructor] |].
  split; [done |].
  apply Forall_map, Forall_forall. intros p _. simpl. repeat split.
  destruct (isEmpty (IngressPathDef.PathType p)) eqn:Hempty; [done |].
  intros Heq. by rewrite Heq in Hempty.
Qed.

Lemma service_port_numbers (name : nat -> string) (ports : list Port.t) :
  map ServicePort.Port
    (imap (fun i p => ServicePort.mk (name i) (Port.Port p) (Port.Port p) "TCP")
          ports)
  = map Port.Port ports.
Proof.
  revert name. induction ports as [| q qs IH]; intros name; [done |].
  simpl. f_equal. apply (IH (fun i => name (S i))).
Qed.

(** X21.  When the analysis declares a port, the ingress document has one
    rule with at least one path, and every path routes to the service of
    the same name on a port that the service document exposes and with a
    path type that is not empty.  The port is the first declared port of
    80, 8080, 3000, 5000 and 8000 unless that is 80 or there is none, and
    the first declared port then. *)
Theorem ingress_backend_is_service_port
    (analysis : AppAnalysis.t) (namespace : string) (cfg : Config.t) :
  AppAnalysis.Ports analysis <> [] ->
  let service := serviceManifest analysis namespace cfg in
  exists rule,
    IngressSpec.Rules (IngressManifest.Spec (ingressManifest analysis namespace cfg))
    = [rule]
    /\ IngressRule.HTTPPaths rule <> []
    /\ Forall (fun p =>
                 IngressPath.BackendServiceName p
                 = Metadata.Name (ServiceManifest.Metadata service)
                 /\ In (IngressPath.BackendServicePort p)
                       (map ServicePort.Port
                          (ServiceSpec.Ports (ServiceManifest.Spec service)))
                 /\ IngressPath.PathType p <> ""
                 /\ BackendServicePortChoice p analysis)
              (IngressRule.HTTPPaths rule).
Proof.
  intros Hports. simpl. eexists. split; [reflexivity |]. simpl.
  destruct (ingressPaths_backend analysis) as [Hne Hall].
  split; [done |].
  eapply Forall_impl; [exact Hall |].
  intros p (Hname & Hport & Htype). repeat split; try done.
  - rewrite Hport.
    rewrite service_port_numbers. by apply ingressHTTPPort_declared.
  - unfold BackendServicePortChoice. rewrite Hport. unfold ingressHTTPPort.
    destruct (AppAnalysis.Ports analysis) as [| p0 rest]; [done |].
    destruct (find _ (p0 :: rest)) as [q |] eqn:Hfind.
    + destruct (Z.eqb_spec (Port.Port q) 80) as [Heq | Hne'].
      * by left.
      * right. apply find_some in Hfind as [Hin Hwk]. repeat split; try done.
        by apply in_map.
    + by left.
Qed.

Lemma ingress_backend_is_service_port_witness :
  AppAnalysis.Ports samples.orders <> []
  /\ exists rule,
       IngressSpec.Rules
         (IngressManifest.Spec (ingressManifest samples.orders "default" Default))
       = [rule]
       /\ IngressRule.HTTPPaths rule <> [].
Proof.
  assert (AppAnalysis.Ports samples.orders <> []) as Hports by discriminate.
  split; [exact Hports |].
  destruct (ingress_backend_is_service_port samples.orders "default" Default
              Hports) as (rule & Hrules & Hpaths & _).
  exists rule. by split.
Defined.

(** X22.  TLS of the ingress document: the app config can switch TLS on
    but not off.  With TLS enabled in the organisation config there is a
    TLS entry whatever the app config says; there is one entry at most; it
    covers exactly the host of the rule, with the app config's secret name
    when that is set and [<name>-tls] otherwise; and the cluster-issuer
    annotation is present with the configured issuer whenever there is a
    TLS entry and the issuer is not empty. *)
Theorem ingress_tls_follows_rule_host
    (analysis : AppAnalysis.t) (namespace : string) (cfg : Config.t) :
  let ingress := ingressManifest analysis namespace cfg in
  let tls := IngressSpec.TLS (IngressManifest.Spec ingress) in
  let orgTLS := IngressConfig.TLS (Config.Ingress cfg) in
  (TLSConfig.Enabled orgTLS = true -> tls <> [])
  /\ (tls <> [] <->
      TLSConfig.Enabled orgTLS = true
      \/ exists ing,
           appIngress analysis = Some ing /\ IngressContext.TLSEnabled ing = true)
  /\ (forall entry,
        In entry tls ->
        tls = [entry]
        /\ IngressTLS.Hosts entry = ruleHosts ingress
        /\ IngressTLS.SecretName entry <> ""
        /\ (forall ing,
              appIngress analysis = Some ing ->
              IngressContext.TLSSecret ing <> "" ->
              IngressTLS.SecretName entry = IngressContext.TLSSecret ing)
        /\ (TLSConfig.ClusterIssuer orgTLS <> "" ->
            exists annotations,
              Metadata.Annotations (IngressManifest.Metadata ingress)
              = Some annotations
              /\ annotations !! "cert-manager.io/cluster-issuer"
                 = Some (TLSConfig.ClusterIssuer orgTLS))).
Proof.
  cbv zeta. unfold ruleHosts, ingressManifest.
  cbn [IngressSpec.TLS IngressManifest.Spec IngressSpec.Rules
       IngressManifest.Metadata Metadata.Annotations map IngressRule.Host].
  set (issuer := TLSConfig.ClusterIssuer _).
  set (enabled := TLSConfig.Enabled _).
  set (tlsEnabled := match appIngress analysis with
                     | Some ing => enabled || IngressContext.TLSEnabled ing
                     | None => enabled
                     end).
  set (tlsSecret := match appIngress analysis with
                    | Some ing =>
                        if negb (isEmpty (IngressContext.TLSSecret ing))
                        then IngressContext.TLSSecret ing
                        else AppAnalysis.Name analysis +:+ "-tls"
                    | None => AppAnalysis.Name analysis +:+ "-tls"
                    end).
  assert (tlsEnabled = true <->
          enabled = true
          \/ exists ing,
               appIngress analysis = Some ing
               /\ IngressContext.TLSEnabled ing = true) as Hon.
  { subst tlsEnabled. destruct (appIngress analysis) as [ing |].
    - rewrite orb_true_iff. split.
      + intros [? | ?]; [by left | right; by exists ing].
      + intros [? | (? & [= <-] & ?)]; [by left | by right].
    - split; [by left |]. by intros [? | (? & ? & _)]. }
  assert (AppAnalysis.Name analysis +:+ "-tls" <> "") as Hdefault.
  { intros Heq.
    pose proof (append_nonempty (AppAnalysis.Name analysis) "-tls") as Hne.
    rewrite Heq in Hne. by discriminate Hne. }
  assert (tlsSecret <> "") as Hsecret.
  { subst tlsSecret. destruct (appIngress analysis) as [ing |]; [| done].
    destruct (isEmpty (IngressContext.TLSSecret ing)) eqn:Hempty; simpl; [done |].
    intros Heq. by rewrite Heq in Hempty. }
  assert (forall ing, appIngress analysis = Some ing ->
                      IngressContext.TLSSecret ing <> "" ->
                      tlsSecret = IngressContext.TLSSecret ing) as Happ.
  { intros ing Hing Hset. subst tlsSecret.
    by rewrite Hing, (isEmpty_false _ Hset). }
  clearbody tlsSecret.
  destruct tlsEnabled.
  - split; [done |]. split; [split; [intros _; by apply Hon | done] |].
    intros entry [<- | []]. simpl.
    split; [done |]. split; [done |]. split; [done |]. split; [exact Happ |].
    intros Hissuer. rewrite (isEmpty_false _ Hissuer). simpl.
    eexists. split; [reflexivity |]. by rewrite lookup_insert_eq.
  - split; [| split; [| done]].
    + intros Henabled. assert (false = true) by (apply Hon; by left). done.
    + split; [done |]. intros H. by apply Hon in H.
Qed.

(** ** Probes of the workload document *)

(** X23.  Probes of the workload container.  Every probe is an HTTP GET
    probe with a timeout of five seconds and a failure threshold of three.
    When the app config gives no liveness path and [analysis.HealthCheck]
    is set, both probes are the health-check probe, so a readiness path of
    the app config is not used; and with neither an app-config health block
    nor a health check the container has no probe. *)
Theorem workload_probes {table : gostrings.CaseTable}
    (analysis : AppAnalysis.t) (namespace : string)
    (resources : ResourceSpec.t) (cfg : Config.t) :
  exists c,
    container (deploymentManifest analysis namespace resources cfg) = Some c
    /\ (forall p,
          Container.LivenessProbe c = Some p \/ Container.ReadinessProbe c = Some p ->
          Probe.HTTPGet p <> None
          /\ Probe.TimeoutSeconds p = 5 /\ Probe.FailureThreshold p = 3)
    /\ (forall hc,
          AppAnalysis.HealthCheck analysis = Some hc ->
          (forall ac health,
             AppAnalysis.AppConfig analysis = Some ac ->
             AppConfigContext.Health ac = Some health ->
             HealthContext.LivenessPath health = "") ->
          Container.LivenessProbe c = Some (healthCheckProbe hc)
          /\ Container.ReadinessProbe c = Some (healthCheckProbe hc))
    /\ (AppAnalysis.HealthCheck analysis = None ->
        (forall ac, AppAnalysis.AppConfig analysis = Some ac ->
                    AppConfigContext.Health ac = None) ->
        Container.LivenessProbe c = None /\ Container.ReadinessProbe c = None).
Proof.
  destruct (deployment_container analysis namespace resources cfg)
    as (c & Hc & _ & Hprobes).
  exists c. split; [exact Hc |].
  assert (Container.LivenessProbe c = fst (deploymentProbes analysis)) as ->
    by by rewrite <- Hprobes.
  assert (Container.ReadinessProbe c = snd (deploymentProbes analysis)) as ->
    by by rewrite <- Hprobes.
  clear Hc Hprobes c.
  unfold deploymentProbes, appConfigProbes.
  destruct (AppAnalysis.AppConfig analysis) as [ac |];
    [destruct (AppConfigContext.Health ac) as [health |] eqn:Hhealth |].
  - destruct (isEmpty (HealthContext.LivenessPath health)) eqn:Hlive;
      destruct (isEmpty (HealthContext.ReadinessPath health)) eqn:Hready;
      destruct (AppAnalysis.HealthCheck analysis) as [hc |]; simpl;
      (split; [intros p [[= <-] | [= <-]]; done |]);
      (split;
       [intros hc' Hhc Hpath; try done; injection Hhc as <-; try done;
        specialize (Hpath _ _ eq_refl Hhealth); by rewrite Hpath in Hlive |]);
      intros Hnone Hno; try done; specialize (Hno _ eq_refl);
      by rewrite Hhealth in Hno.
  - destruct (AppAnalysis.HealthCheck analysis) as [hc |]; simpl;
      (split; [intros p [[= <-] | [= <-]]; done |]);
      (split; [by intros hc' [= <-] _ |]); done.
  - destruct (AppAnalysis.HealthCheck analysis) as [hc |]; simpl;
      (split; [intros p [[= <-] | [= <-]]; done |]);
      (split; [by intros hc' [= <-] _ |]); done.
Qed.

(** ** The validation report *)

Section ReportFacts.

(** One pass of the outer loop writes the issues of its severity only. *)
Lemma formatSeverity_filter (sev : ValidationSeverity)
    (issues : list ValidationIssue.t) :
  formatSeverity sev issues = concatMap (formatIssue sev) (ofSeverity sev issues).
Proof.
  unfold formatSeverity, ofSeverity.
  induction issues as [| i issues IH]; [done |].
  rewrite concatMap_cons. simpl.
  destruct (severityEqb (ValidationIssue.Severity i) sev).
  - by rewrite concatMap_cons, IH.
  - by rewrite IH.
Qed.

Lemma get_append_l (n : nat) (s t : string) (c : ascii) :
  String.get n s = Some c -> String.get n (s +:+ t) = Some c.
Proof.
  revert n. induction s as [| d s IH]; intros n; [done |].
  destruct n as [| n]; [done |]. apply IH.
Qed.

(** A group that is not empty starts with two spaces and the first byte,
    226, of its sign. *)
Lemma group_starts_with_sign (sev : ValidationSeverity)
    (issues : list ValidationIssue.t) :
  issues <> [] ->
  String.get 2 (concatMap (formatIssue sev) issues) = Some (ascii_of_nat 226).
Proof.
  destruct issues as [| i issues]; [done |]. intros _.
  rewrite concatMap_cons. apply get_append_l.
  unfold formatIssue. apply get_append_l. by destruct sev.
Qed.

Lemma group_empty_or_sign (sev : ValidationSeverity)
    (issues : list ValidationIssue.t) :
  concatMap (formatIssue sev) issues = ""
  \/ String.get 2 (concatMap (formatIssue sev) issues) = Some (ascii_of_nat 226).
Proof.
  destruct issues as [| i issues]; [by left |].
  right. by apply group_starts_with_sign.
Qed.

End ReportFacts.

(** X24.  The report of a validation run lists the errors, then the
    warnings, then the informational notes, each group in the order in
    which the validator appended the issues.  As the validator always
    appends the note on the [:latest] tag, the report of a run is never the
    line [All validation checks passed]: it starts with two spaces and a
    severity sign. *)
Theorem validation_report_groups_by_severity
    (analysis : AppAnalysis.t) (files : list GeneratedFile.t) (opts : Options.t) :
  let result := ValidateGenerated analysis files opts in
  let issues := ValidationResult.Issues result in
  FormatValidationReport result
  = concatMap (formatIssue SeverityError) (ofSeverity SeverityError issues)
    +:+ concatMap (formatIssue SeverityWarning) (ofSeverity SeverityWarning issues)
    +:+ concatMap (formatIssue SeverityInfo) (ofSeverity SeverityInfo issues)
  /\ String.get 2 (FormatValidationReport result) = Some (ascii_of_nat 226)
  /\ FormatValidationReport result <> "  All validation checks passed".
Proof.
  cbv zeta.
  assert (ValidationResult.Issues (ValidateGenerated analysis files opts)
          = ValidationResult.Issues (runRules analysis opts)) as -> by reflexivity.
  pose proof (runRules_note analysis opts) as Hnote.
  set (issues := ValidationResult.Issues (runRules analysis opts)) in *.
  assert (FormatValidationReport (ValidateGenerated analysis files opts)
          = concatMap (formatIssue SeverityError) (ofSeverity SeverityError issues)
            +:+ concatMap (formatIssue SeverityWarning)
                  (ofSeverity SeverityWarning issues)
            +:+ concatMap (formatIssue SeverityInfo)
                  (ofSeverity SeverityInfo issues)) as Hreport.
  { unfold FormatValidationReport.
    change (ValidationResult.Issues (ValidateGenerated analysis files opts))
      with issues.
    destruct issues as [| i rest] eqn:Hissues; [destruct Hnote |].
    rewrite <- Hissues. rewrite !concatMap_cons.
    change (concatMap _ []) with "". rewrite append_nil_r.
    by rewrite !formatSeverity_filter. }
  assert (String.get 2 (FormatValidationReport (ValidateGenerated analysis files opts))
          = Some (ascii_of_nat 226)) as Hsign.
  { rewrite Hreport.
    assert (ofSeverity SeverityInfo issues <> []) as Hinfo.
    { intros Hnil.
      assert (In latestTagNote (ofSeverity SeverityInfo issues)) as Hin
        by (apply filter_In; by split).
      by rewrite Hnil in Hin. }
    destruct (group_empty_or_sign SeverityError (ofSeverity SeverityError issues))
      as [-> | Herr]; [| by apply get_append_l].
    change ("" +:+ ?s) with s.
    destruct (group_empty_or_sign SeverityWarning
                (ofSeverity SeverityWarning issues))
      as [-> | Hwarn]; [| by apply get_append_l].
    change ("" +:+ ?s) with s.
    by apply group_starts_with_sign. }
  split; [exact Hreport |]. split; [exact Hsign |].
  intros Heq. rewrite Heq in Hsign. discriminate Hsign.
Qed.

(** ** The global configuration *)

Section GlobalConfigFacts.
Import globalconfig.

Lemma stars_length (n : nat) : String.length (stars n) = n.
Proof. induction n as [| n IH]; [done |]. simpl. by rewrite IH. Qed.

Lemma substring_length (n m : nat) (s : string) :
  (n + m <= String.length s)%nat -> String.length (substring n m s) = m.
Proof.
  revert n m. induction s as [| c s IH]; intros n m Hlen; simpl in Hlen.
  - assert (n = 0%nat /\ m = 0%nat) as [-> ->] by lia. done.
  - destruct n as [| n]; simpl.
    + destruct m as [| m]; [done |]. simpl. rewrite IH; [done | lia].
    + apply IH. lia.
Qed.

Lemma stars_get (n i : nat) :
  (i < n)%nat -> String.get i (stars n) = Some "*"%char.
Proof.
  revert i. induction n as [| n IH]; intros i Hi; [lia |].
  destruct i as [| i]; [done |]. simpl. apply IH. lia.
Qed.

Lemma get_append_r (s t : string) (i : nat) :
  String.get (String.length s + i) (s +:+ t) = String.get i t.
Proof. induction s as [| c s IH]; [done |]. exact IH. Qed.

Lemma get_append_left (s t : string) (i : nat) :
  (i < String.length s)%nat -> String.get i (s +:+ t) = String.get i s.
Proof.
  revert i. induction s as [| c s IH]; intros i Hi; [simpl in Hi; lia |].
  destruct i as [| i]; [done |]. apply IH. simpl in Hi. lia.
Qed.

Lemma get_substring (n m i : nat) (s : string) :
  (i < m)%nat -> (n + m <= String.length s)%nat ->
  String.get i (substring n m s) = String.get (n + i) s.
Proof.
  revert n m i. induction s as [| c s IH]; intros n m i Hi Hlen;
    simpl in Hlen; [lia |].
  destruct n as [| n]; simpl.
  - destruct m as [| m]; [lia |]. destruct i as [| i]; [done |].
    simpl. rewrite IH; [done | lia | lia].
  - apply IH; lia.
Qed.

End GlobalConfigFacts.

(** X25.  [Set] followed by [Get].  For each of the six keys, a value that
    [Set] accepts is the value [Get] returns for that key afterwards,
    except for [llm.api_key], which [Get] returns masked; the values of the
    other keys are as before the call.  [Set] rejects an unknown key and a
    provider other than [openai], [anthropic], [gemini], [ollama] and the
    empty string, [Get] rejects exactly the unknown keys, and a rejected
    [Set] leaves the configuration as it was. *)
Theorem Set_then_Get
    (c : globalconfig.GlobalConfig.t) (key value : string) :
  let c' := fst (globalconfig.Set_ c key value) in
  let err := snd (globalconfig.Set_ c key value) in
  (err = None <->
   In key globalconfig.keys
   /\ (key = "llm.provider" -> globalconfig.validProvider value = true))
  /\ (isErr (globalconfig.Get c key) = false <-> In key globalconfig.keys)
  /\ (err <> None -> c' = c)
  /\ (err = None ->
      globalconfig.Get c' key
      = Ok (if String.eqb key "llm.api_key"
            then (if isEmpty value then "" else globalconfig.maskKey value)
            else value))
  /\ (forall key', key' <> key ->
                   globalconfig.Get c' key' = globalconfig.Get c key').
Proof.
  cbv zeta. unfold globalconfig.Set_, globalconfig.keys.
  destruct (String.eqb_spec key "llm.provider") as [-> | H1].
  { destruct (globalconfig.validProvider value) eqn:Hvalid; simpl.
    - split; [split; [intros _; split; [by left | done] | done] |].
      split; [split; [intros _; by left | done] |].
      split; [done |]. split; [done |].
      intros key' Hne. unfold globalconfig.Get.
      destruct (String.eqb_spec key' "llm.provider"); done.
    - split; [split; [done | intros [_ Hv]; by specialize (Hv eq_refl)] |].
      split; [split; [intros _; by left | done] |].
      split; [done |]. split; [done |]. done. }
  destruct (String.eqb_spec key "llm.api_key") as [-> | H2].
  { simpl. split; [split; [intros _; split; [right; by left | done] | done] |].
    split;
      [unfold globalconfig.Get; simpl;
       destruct (nonEmpty _); (split; [intros _; right; by left | done]) |].
    split; [done |].
    split; [intros _; unfold globalconfig.Get, nonEmpty; simpl;
            by destruct (isEmpty value) |].
    intros key' Hne. unfold globalconfig.Get.
    destruct (String.eqb_spec key' "llm.provider"); [done |].
    destruct (String.eqb_spec key' "llm.api_key"); done. }
  destruct (String.eqb_spec key "llm.model") as [-> | H3].
  { simpl. split; [split; [intros _; split; [do 2 right; by left | done] | done] |].
    split; [split; [intros _; do 2 right; by left | done] |].
    split; [done |]. split; [done |].
    intros key' Hne. unfold globalconfig.Get.
    destruct (String.eqb_spec key' "llm.provider"); [done |].
    destruct (String.eqb_spec key' "llm.api_key"); [done |].
    destruct (String.eqb_spec key' "llm.model"); done. }
  destruct (String.eqb_spec key "defaults.namespace") as [-> | H4].
  { simpl. split; [split; [intros _; split; [do 3 right; by left | done] | done] |].
    split; [split; [intros _; do 3 right; by left | done] |].
    split; [done |]. split; [done |].
    intros key' Hne. unfold globalconfig.Get.
    destruct (String.eqb_spec key' "llm.provider"); [done |].
    destruct (String.eqb_spec key' "llm.api_key"); [done |].
    destruct (String.eqb_spec key' "llm.model"); [done |].
    destruct (String.eqb_spec key' "defaults.namespace"); done. }
  destruct (String.eqb_spec key "defaults.registry") as [-> | H5].
  { simpl. split; [split; [intros _; split; [do 4 right; by left | done] | done] |].
    split; [split; [intros _; do 4 right; by left | done] |].
    split; [done |]. split; [done |].
    intros key' Hne. unfold globalconfig.Get.
    destruct (String.eqb_spec key' "llm.provider"); [done |].
    destruct (String.eqb_spec key' "llm.api_key"); [done |].
    destruct (String.eqb_spec key' "llm.model"); [done |].
    destruct (String.eqb_spec key' "defaults.namespace"); [done |].
    destruct (String.eqb_spec key' "defaults.registry"); done. }
  destruct (String.eqb_spec key "defaults.org_name") as [-> | H6].
  { simpl. split; [split; [intros _; split; [do 5 right; by left | done] | done] |].
    split; [split; [intros _; do 5 right; by left | done] |].
    split; [done |]. split; [done |].
    intros key' Hne. unfold globalconfig.Get.
    destruct (String.eqb_spec key' "llm.provider"); [done |].
    destruct (String.eqb_spec key' "llm.api_key"); [done |].
    destruct (String.eqb_spec key' "llm.model"); [done |].
    destruct (String.eqb_spec key' "defaults.namespace"); [done |].
    destruct (String.eqb_spec key' "defaults.registry"); [done |].
    destruct (String.eqb_spec key' "defaults.org_name"); done. }
  simpl.
  assert (~ In key ["llm.provider"; "llm.api_key"; "llm.model";
                    "defaults.namespace"; "defaults.registry";
                    "defaults.org_name"]) as Hnot.
  { simpl. intros [? | [? | [? | [? | [? | [? | []]]]]]]; congruence. }
  split; [split; [done | by intros [? _]] |].
  split.
  { unfold globalconfig.Get.
    destruct (String.eqb_spec key "llm.provider"); [done |].
    destruct (String.eqb_spec key "llm.api_key"); [done |].
    destruct (String.eqb_spec key "llm.model"); [done |].
    destruct (String.eqb_spec key "defaults.namespace"); [done |].
    destruct (String.eqb_spec key "defaults.registry"); [done |].
    destruct (String.eqb_spec key "defaults.org_name"); [done |].
    simpl. split; [done | by intros ?]. }
  split; [done |]. split; [done |]. done.
Qed.

(** X26.  Masking of an API key.  The mask of a key that is set has the
    length of the key; a key of eight bytes or fewer is masked entirely;
    of a longer key the first four and the last four bytes are shown, and
    every byte between them is an asterisk. *)
Theorem maskKey_hides_the_middle (key : string) (i : nat) :
  key <> "" ->
  let n := String.length key in
  String.length (globalconfig.maskKey key) = n
  /\ ((n <= 8)%nat -> globalconfig.maskKey key = globalconfig.stars n)
  /\ ((8 < n)%nat -> (i < n)%nat ->
      String.get i (globalconfig.maskKey key)
      = if ((4 <=? i) && (i <? n - 4))%nat then Some "*"%char
        else String.get i key).
Proof.
  intros Hkey. cbv zeta. unfold globalconfig.maskKey.
  rewrite (isEmpty_false _ Hkey).
  destruct (Nat.leb_spec (String.length key) 8) as [Hshort | Hlong].
  - split; [apply stars_length |]. split; [done | lia].
  - split; [| split; [lia |]].
    + rewrite !length_append, stars_length, !substring_length by lia. lia.
    + intros _ Hi.
      destruct (Nat.leb_spec 4 i) as [H4 | H4]; simpl.
      * replace i with (String.length (substring 0 4 key) + (i - 4))%nat at 1
          by (rewrite substring_length by lia; lia).
        rewrite get_append_r.
        destruct (Nat.ltb_spec i (String.length key - 4)) as [Hmid | Hend].
        -- rewrite get_append_left by (rewrite stars_length; lia).
           apply stars_get. lia.
        -- replace (i - 4)%nat
             with (String.length (globalconfig.stars (String.length key - 8))
                   + (i - (String.length key - 4)))%nat
             by (rewrite stars_length; lia).
           rewrite get_append_r, get_substring by lia.
           f_equal. lia.
      * rewrite get_append_left by (rewrite substring_length by lia; lia).
        rewrite get_substring by lia. done.
Qed.

Lemma maskKey_hides_the_middle_witness :
  "sk-abcdef123456" <> ""
  /\ globalconfig.maskKey "sk-abcdef123456" = "sk-a*******3456".
Proof.
  assert ("sk-abcdef123456" <> "") as Hkey by discriminate.
  split; [exact Hkey |].
  destruct (maskKey_hides_the_middle "sk-abcdef123456" 0 Hkey) as (_ & _ & _).
  reflexivity.
Defined.

(** ** From the app config to the documents *)


(** ** The default configuration and the validator *)

(** The requests of every resource spec that the default configuration
    can hand out parse to no more than its limits. *)
Lemma default_profiles_within_limits (profile : string) :
  let resources := GetResourcesForProfile Default profile in
  exceeds (parseCPUMillis (ResourceValues.CPU (ResourceSpec.Requests resources)))
          (parseCPUMillis (ResourceValues.CPU (ResourceSpec.Limits resources)))
  = false
  /\ exceeds
       (parseMemoryBytes (ResourceValues.Memory (ResourceSpec.Requests resources)))
       (parseMemoryBytes (ResourceValues.Memory (ResourceSpec.Limits resources)))
     = false.
Proof.
  cbv zeta. unfold GetResourcesForProfile, Default, defaultProfiles.
  cbn [Config.Resources ResourceConfig.Profiles ResourceConfig.Defaults].
  destruct (decide (profile = "api")) as [-> | Hapi].
  { rewrite lookup_insert_eq. by vm_compute. }
  rewrite lookup_insert_ne by done.
  destruct (decide (profile = "worker")) as [-> | Hworker].
  { rewrite lookup_insert_eq. by vm_compute. }
  rewrite lookup_insert_ne by done.
  destruct (decide (profile = "web")) as [-> | Hweb].
  { rewrite lookup_insert_eq. by vm_compute. }
  rewrite lookup_insert_ne by done.
  rewrite lookup_empty. by vm_compute.
Qed.

(** X28.  With the default configuration and no resource overrides in the
    app config, the resource rule never reports an error, whatever the
    resource profile of the analysis, known or not; validation then passes
    exactly when the application has a name and the scaling block in force
    does not have [MinReplicas > MaxReplicas]. *)
Theorem default_resources_pass_validation
    (analysis : AppAnalysis.t) (files : list GeneratedFile.t) (opts : Options.t) :
  Options.Config opts = Default ->
  (forall ac, AppAnalysis.AppConfig analysis = Some ac ->
              AppConfigContext.Resources ac = None) ->
  cpuExceeds analysis opts = false
  /\ memoryExceeds analysis opts = false
  /\ (ValidationResult.Passed (ValidateGenerated analysis files opts) = true <->
      AppAnalysis.Name analysis <> "" /\ scalingInverted analysis = false).
Proof.
  intros Hcfg Hnone.
  assert (validatedResources analysis opts
          = GetResourcesForProfile Default (AppAnalysis.ResourceProfile analysis))
    as Hres.
  { unfold validatedResources, applyResourceOverrides. rewrite Hcfg.
    destruct (AppAnalysis.AppConfig analysis) as [ac |]; [| done].
    by rewrite (Hnone ac eq_refl). }
  destruct (default_profiles_within_limits (AppAnalysis.ResourceProfile analysis))
    as [Hcpu Hmem].
  assert (cpuExceeds analysis opts = false) as Hcpu'
    by (unfold cpuExceeds; by rewrite Hres).
  assert (memoryExceeds analysis opts = false) as Hmem'
    by (unfold memoryExceeds; by rewrite Hres).
  split; [exact Hcpu' |]. split; [exact Hmem' |].
  unfold ValidateGenerated. cbn [ValidationResult.Passed].
  rewrite runRules_errors, runRules_Passed, Hcpu', Hmem'. simpl.
  destruct (scalingInverted analysis); simpl.
  - split; [done | by intros [_ ?]].
  - destruct (isEmpty (AppAnalysis.Name analysis)) eqn:Hname.
    + apply isEmpty_true in Hname. split; [done | by intros [? _]].
    + split; [| done]. intros _. split; [| done].
      intros Heq. by rewrite Heq in Hname.
Qed.

Lemma default_resources_pass_validation_witness :
  ValidationResult.Passed
    (ValidateGenerated samples.orders [] samples.options) = true.
Proof.
  assert (Options.Config samples.options = Default) as Hcfg by reflexivity.
  assert (forall ac, AppAnalysis.AppConfig samples.orders = Some ac ->
                     AppConfigContext.Resources ac = None) as Hnone
    by (intros ac Hac; discriminate Hac).
  destruct (default_resources_pass_validation samples.orders [] samples.options
              Hcfg Hnone) as (_ & _ & Hpassed).
  apply Hpassed. split; [discriminate | reflexivity].
Defined.
